(** * WebMCP proof of concept: the tool-calling engine

    A shallow embedding of the JavaScript sources

    - [js/fidelityApp.js]    the account table and the [App] namespace,
    - [js/webmcpProvider.js] the four WebMCP tools and the [AgentClient],
    - [js/main.js]           the mock [window.agent] registry,
    - [js/llmClient.js]      the [LLMClient] gateway,
    - [js/config.js]         the configuration object,

    followed by the properties of the engine that are proved about it.

    Conventions.  A JavaScript function that mutates the page or may raise
    becomes a computation in the state-and-exception monad [M]; the state
    written before a [throw] is kept, as in JavaScript.  A string is held
    as the bytes of its UTF-8 encoding, so that a text of ASCII characters is
    held character by character; [String.prototype.toLowerCase] and
    [String.prototype.trim] belong to the platform.  [console.log] calls
    are diagnostics and are left out, except for the one thing they can do
    to the program: a template literal applies ToString to every value
    it interpolates, and that can raise. *)

From Stdlib Require Import PrimFloat String Ascii List ZArith Bool Lia.
From stdpp Require Import base option gmap strings.

Set Warnings "-inexact-float,-register-all".
Local Open Scope string_scope.
Local Open Scope list_scope.

(** ** JavaScript values *)

(** The values that travel between the model reply, the tools and the
    client: what [JSON.parse] can produce, and [undefined].  An object is
    its list of properties in insertion order, with distinct keys. *)
Inductive JSValue : Type :=
  | JUndefined
  | JNull
  | JBool (b : bool)
  | JNum (n : float)
  | JStr (s : string)
  | JArr (items : list JSValue)
  | JObj (props : list (string * JSValue)).

(** ToBoolean: [undefined], [null], [false], [0], [-0], [NaN] and the empty
    string are falsy. *)
Definition truthy (v : JSValue) : bool :=
  match v with
  | JUndefined | JNull => false
  | JBool b => b
  | JNum n => negb (PrimFloat.is_zero n || PrimFloat.is_nan n)
  | JStr s => negb (String.eqb s "")
  | JArr _ | JObj _ => true
  end.

Fixpoint assoc {V : Type} (k : string) (l : list (string * V)) : option V :=
  match l with
  | [] => None
  | (k', v) :: l' => if String.eqb k k' then Some v else assoc k l'
  end.

Inductive Exn : Type :=
  | TypeError
  | SyntaxError
  | Error (message : string)
  | OpenAIApiError (status : Z) (detail : string).

(** ** The state-and-exception monad *)

Inductive Outcome (A : Type) : Type :=
  | Returned (a : A)
  | Thrown (e : Exn).
Arguments Returned {A} a.
Arguments Thrown {A} e.

Definition M (S A : Type) : Type := S -> Outcome A * S.

Definition ret {S A : Type} (a : A) : M S A := fun s => (Returned a, s).

Definition throw {S A : Type} (e : Exn) : M S A := fun s => (Thrown e, s).

Definition bind {S A B : Type} (m : M S A) (k : A -> M S B) : M S B :=
  fun s =>
    match m s with
    | (Returned a, s') => k a s'
    | (Thrown e, s') => (Thrown e, s')
    end.

(** [try { m } catch (e) { h e }] *)
Definition try_catch {S A : Type} (m : M S A) (h : Exn -> M S A) : M S A :=
  fun s =>
    match m s with
    | (Returned a, s') => (Returned a, s')
    | (Thrown e, s') => h e s'
    end.

Definition get_state {S : Type} : M S S := fun s => (Returned s, s).

Definition modify {S : Type} (f : S -> S) : M S unit := fun s => (Returned tt, f s).

Notation "'let!' x ':=' m 'in' k" := (bind m (fun x => k))
  (at level 10, x name, m at level 100, k at level 200).
Notation "'do!' m 'in' k" := (bind m (fun _ => k))
  (at level 10, m at level 100, k at level 200).

(** Property access [v.k] for the property names the sources read
    ([success], [message], [accountIdentifier], ...): it raises on
    [undefined] and [null], reads the object otherwise, and is [undefined]
    on a primitive or an array, none of which carries such a property. *)
Definition get_prop {S : Type} (v : JSValue) (k : string) : M S JSValue :=
  match v with
  | JUndefined | JNull => throw TypeError
  | JObj props => ret (default JUndefined (assoc k props))
  | _ => ret JUndefined
  end.

(** ** Strings *)

Definition lower_ascii (c : ascii) : ascii :=
  let n := nat_of_ascii c in
  if (65 <=? n)%nat && (n <=? 90)%nat then ascii_of_nat (n + 32) else c.

(** Lower case and white space of ASCII texts: what the platform's
    [toLowerCase] and [trim] come to on them. *)
Fixpoint ascii_toLowerCase (s : string) : string :=
  match s with
  | EmptyString => EmptyString
  | String c s' => String (lower_ascii c) (ascii_toLowerCase s')
  end.

Definition is_space (c : ascii) : bool :=
  let n := nat_of_ascii c in
  ((9 <=? n)%nat && (n <=? 13)%nat) || (n =? 32)%nat.

Fixpoint trim_start (s : string) : string :=
  match s with
  | EmptyString => EmptyString
  | String c s' => if is_space c then trim_start s' else s
  end.

Fixpoint trim_end (s : string) : string :=
  match s with
  | EmptyString => EmptyString
  | String c s' =>
      match trim_end s' with
      | EmptyString => if is_space c then EmptyString else String c EmptyString
      | rest => String c rest
      end
  end.

Definition ascii_trim (s : string) : string := trim_end (trim_start s).

(** The string holds ASCII white space only. *)
Fixpoint all_space (s : string) : bool :=
  match s with
  | EmptyString => true
  | String c s' => is_space c && all_space s'
  end.

(** Every character of the text is an ASCII character. *)
Fixpoint is_ascii (s : string) : bool :=
  match s with
  | EmptyString => true
  | String c s' => (nat_of_ascii c <? 128)%nat && is_ascii s'
  end.

(** [s.includes(sub)] *)
Fixpoint includes (s sub : string) : bool :=
  String.prefix sub s
  || match s with
     | EmptyString => false
     | String _ s' => includes s' sub
     end.

(** The specification [includes] is compared with. *)
Definition IsSubstring (sub s : string) : Prop :=
  exists pre post, s = pre +:+ sub +:+ post.

Definition dquote : string := String "034" EmptyString.

Fixpoint join (sep : string) (l : list string) : string :=
  match l with
  | [] => ""
  | [x] => x
  | x :: l' => x +:+ sep +:+ join sep l'
  end.

(** ** [Map]: insertion-ordered, one entry per key *)

Module JSMap.

Definition t (V : Type) : Type := list (string * V).

Definition empty {V : Type} : t V := [].

(** [m.clear()] *)
Definition clear {V : Type} (m : t V) : t V := [].

(** [m.set(k, v)]: an existing key keeps its position and takes the new
    value; a new key goes last. *)
Fixpoint set {V : Type} (k : string) (v : V) (m : t V) : t V :=
  match m with
  | [] => [(k, v)]
  | (k', v') :: m' =>
      if String.eqb k k' then (k, v) :: m' else (k', v') :: set k v m'
  end.

Definition get {V : Type} (k : string) (m : t V) : option V := assoc k m.

Definition has {V : Type} (k : string) (m : t V) : bool :=
  match get k m with Some _ => true | None => false end.

Definition keys {V : Type} (m : t V) : list string := map fst m.

Definition values {V : Type} (m : t V) : list V := map snd m.

Definition size {V : Type} (m : t V) : nat := length m.

End JSMap.

(** ** The page: account table and document ([js/fidelityApp.js]) *)

(** The functions every object literal inherits from [Object.prototype],
    by property name, with the [name] each function carries. *)
Definition Object_prototype_function_name (key : string) : option string :=
  if String.eqb key "constructor" then Some "Object"
  else if existsb (String.eqb key)
            [ "toString"; "toLocaleString"; "valueOf"; "hasOwnProperty"; "isPrototypeOf";
              "propertyIsEnumerable"; "__defineGetter__"; "__defineSetter__";
              "__lookupGetter__"; "__lookupSetter__" ]
  then Some key
  else None.

Record Account : Type := {
  acc_id : string;
  acc_name : string;
  acc_balance : float;
  acc_type : string
}.

(** [const mockAccountData = {...}]: an object keyed by account id, in
    insertion order. *)
Definition initialAccountData : list (string * Account) :=
  [ ("acc_brokerage_123",
     {| acc_id := "acc_brokerage_123"; acc_name := "Brokerage Account";
        acc_balance := 15430.25; acc_type := "taxable" |});
    ("acc_roth_456",
     {| acc_id := "acc_roth_456"; acc_name := "Roth IRA";
        acc_balance := 89500.75; acc_type := "retirement" |});
    ("acc_401k_789",
     {| acc_id := "acc_401k_789"; acc_name := "401(k) Rollover";
        acc_balance := 245100.40; acc_type := "retirement" |});
    ("acc_cash_101",
     {| acc_id := "acc_cash_101"; acc_name := "Cash Management";
        acc_balance := 5200.00; acc_type := "cash" |}) ].

(** The own keys of an object are enumerated in this order: first the
    array indices, which are the canonical numerals of the integers below
    2^32 - 1, in ascending order, and then every other key in insertion
    order. *)
Definition digit (c : ascii) : option N :=
  let n := N_of_ascii c in
  if (48 <=? n)%N && (n <=? 57)%N then Some (n - 48)%N else None.

Fixpoint numeral (s : string) (value : N) : option N :=
  match s with
  | EmptyString => Some value
  | String c s' =>
      match digit c with
      | Some d => numeral s' (10 * value + d)%N
      | None => None
      end
  end.

Definition array_index (key : string) : option N :=
  match key with
  | EmptyString => None
  | String c rest =>
      if Ascii.eqb c "0" && negb (String.eqb rest "") then None
      else match numeral key 0 with
           | Some n => if (n <? 4294967295)%N then Some n else None
           | None => None
           end
  end.

Fixpoint insert_index {V : Type} (n : N) (v : V) (l : list (N * V)) : list (N * V) :=
  match l with
  | [] => [(n, v)]
  | (m, u) :: l' => if (n <? m)%N then (n, v) :: l else (m, u) :: insert_index n v l'
  end.

Definition indexed_entries {V : Type} (o : list (string * V)) : list (N * V) :=
  fold_left (fun sorted entry =>
               match array_index (fst entry) with
               | Some n => insert_index n (snd entry) sorted
               | None => sorted
               end) o [].

Definition named_entries {V : Type} (o : list (string * V)) : list V :=
  flat_map (fun entry =>
              match array_index (fst entry) with
              | Some _ => []
              | None => [snd entry]
              end) o.

(** [Object.values(o)] *)
Definition Object_values {V : Type} (o : list (string * V)) : list V :=
  map snd (indexed_entries o) ++ named_entries o.

(** A [div] appended to an element by [appendChild]. *)
Record Node : Type := {
  className : string;
  textContent : string
}.

(** The element properties the sources read and write; [el_textContent]
    is the [textContent] of an element without child elements, such as the
    send button. *)
Record Element : Type := {
  value : string;
  style_display : string;
  classList : list string;
  childNodes : list Node;
  disabled : bool;
  el_textContent : string
}.

(** The calls into the [App] namespace, recorded in call order.  The log
    is instrumentation: the sources read it nowhere. *)
Inductive AppCall : Type :=
  | CallShowTransferModal (from to : string) (amount : JSValue)
  | CallHideTransferModal
  | CallDisplayAgentMessage (message : string)
  | CallHighlightAccount (accountId : string)
  | CallUpdatePerformanceChart (timePeriod : JSValue).

(** Everything a tool executor can read or write: the account table, the
    document (elements by id), and the call log. *)
Record World : Type := {
  mockAccountData : list (string * Account);
  document : gmap string Element;
  appCalls : list AppCall
}.

Definition set_document (f : gmap string Element -> gmap string Element) (w : World) : World :=
  {| mockAccountData := mockAccountData w;
     document := f (document w);
     appCalls := appCalls w |}.

Definition log_call (c : AppCall) : M World unit :=
  modify (fun w =>
    {| mockAccountData := mockAccountData w;
       document := document w;
       appCalls := appCalls w ++ [c] |}).

Definition set_value (v : string) (el : Element) : Element :=
  {| value := v; style_display := style_display el;
     classList := classList el; childNodes := childNodes el;
     disabled := disabled el; el_textContent := el_textContent el |}.

Definition set_display (d : string) (el : Element) : Element :=
  {| value := value el; style_display := d;
     classList := classList el; childNodes := childNodes el;
     disabled := disabled el; el_textContent := el_textContent el |}.

Definition set_classList (f : list string -> list string) (el : Element) : Element :=
  {| value := value el; style_display := style_display el;
     classList := f (classList el); childNodes := childNodes el;
     disabled := disabled el; el_textContent := el_textContent el |}.

Definition appendChild (n : Node) (el : Element) : Element :=
  {| value := value el; style_display := style_display el;
     classList := classList el; childNodes := childNodes el ++ [n];
     disabled := disabled el; el_textContent := el_textContent el |}.

(** [el.disabled = flag; el.textContent = label] *)
Definition set_button (flag : bool) (label : string) (el : Element) : Element :=
  {| value := value el; style_display := style_display el;
     classList := classList el; childNodes := childNodes el;
     disabled := flag; el_textContent := label |}.

Definition has_class (c : string) (el : Element) : bool :=
  existsb (String.eqb c) (classList el).

(** [el.classList.remove(c)] and [el.classList.add(c)] *)
Definition classList_remove (c : string) (l : list string) : list string :=
  filter (fun c' => negb (String.eqb c c')) l.

Definition classList_add (c : string) (l : list string) : list string :=
  if existsb (String.eqb c) l then l else l ++ [c].

(** [if (el) el.p = v], with [el = document.getElementById(id)] *)
Definition when_present (id : string) (f : Element -> Element) : M World unit :=
  modify (set_document (alter f id)).

(** [document.getElementById(id).p = v]: raises when the element is
    missing. *)
Definition must_update (id : string) (f : Element -> Element) : M World unit :=
  let! w := get_state in
  match document w !! id with
  | Some _ => modify (set_document (alter f id))
  | None => throw TypeError
  end.

(** The platform and the collaborators the engine calls but does not
    define: the JSON codec, number formatting, the two string methods
    that follow Unicode ([toLowerCase] folds every cased letter, [trim]
    strips every Unicode blank and line terminator), and the chart
    renderer ([App.updatePerformanceChart], presentation only).  Of the
    string methods only their behaviour on ASCII texts is fixed here: there
    [toLowerCase] folds the letters [A] to [Z] and [trim] strips the codes 9
    to 13 and 32 from both ends. *)
Class Platform : Type := {
  JSON_parse : string -> option JSValue;
  JSON_stringify : JSValue -> option string;
  NumberToString : float -> string;
  toFixed : float -> nat -> string;
  toLowerCase : string -> string;
  trim : string -> string;
  updatePerformanceChart : JSValue -> M World unit;
  toLowerCase_on_ascii : forall s, is_ascii s = true -> toLowerCase s = ascii_toLowerCase s;
  trim_on_ascii : forall s, is_ascii s = true -> trim s = ascii_trim s
}.

Section App.

Context `{Platform}.

(** ToString, as a template literal and the [textContent] setter apply
    it; [None] stands for the [TypeError] it raises.  An object goes
    through its [toString], and then its [valueOf]: an own property of that
    name in a value of this model is never a function, so an object with an
    own [toString] cannot be converted ([valueOf], own or inherited, does not
    yield a primitive either), and every other object prints through
    [Object.prototype.toString].  An array prints its elements joined by
    commas, [undefined] and [null] as the empty text. *)
Fixpoint js_ToString (v : JSValue) : option string :=
  match v with
  | JUndefined => Some "undefined"
  | JNull => Some "null"
  | JBool true => Some "true"
  | JBool false => Some "false"
  | JNum n => Some (NumberToString n)
  | JStr s => Some s
  | JArr items =>
      option_map (join ",")
        ((fix each (l : list JSValue) : option (list string) :=
            match l with
            | [] => Some []
            | i :: l' =>
                match match i with
                      | JUndefined | JNull => Some ""
                      | _ => js_ToString i
                      end, each l' with
                | Some text, Some texts => Some (text :: texts)
                | _, _ => None
                end
            end) items)
  | JObj props =>
      match assoc "toString" props with
      | Some _ => None
      | None => Some "[object Object]"
      end
  end.

Definition ToString {S : Type} (v : JSValue) : M S string :=
  match js_ToString v with
  | Some text => ret text
  | None => throw TypeError
  end.

(** [v.toLowerCase()]: only a string has the method among the values a
    tool can receive. *)
Definition js_toLowerCase {S : Type} (v : JSValue) : M S string :=
  match v with
  | JStr s => ret (toLowerCase s)
  | _ => throw TypeError
  end.

(** [v.toFixed(digits)]: only a number has the method. *)
Definition js_toFixed {S : Type} (v : JSValue) (digits : nat) : M S string :=
  match v with
  | JNum n => ret (toFixed n digits)
  | _ => throw TypeError
  end.

(** [mockAccountData[id]?.name || 'N/A'].  The table is an object
    literal, so a key it does not hold itself is looked up in
    [Object.prototype]: what is found there is a function, whose [name] is
    then shown, except under [__proto__], where it is the prototype itself,
    which has no [name]. *)
Definition account_name_or_NA (w : World) (id : string) : string :=
  match assoc id (mockAccountData w) with
  | Some a => if String.eqb (acc_name a) "" then "N/A" else acc_name a
  | None => default "N/A" (Object_prototype_function_name id)
  end.

(** [App.showTransferModal({ from, to, amount })]: opens the transfer form
    and pre-fills it.  The scroll that follows is not part of the state. *)
Definition showTransferModal (from to : string) (amount : JSValue) : M World unit :=
  do! log_call (CallShowTransferModal from to amount) in
  let! w := get_state in
  let fromAccount := account_name_or_NA w from in
  let toAccount := account_name_or_NA w to in
  do! when_present "fromAccount" (set_value fromAccount) in
  do! when_present "toAccount" (set_value toAccount) in
  do! match document w !! "amount" with
      | Some _ =>
          let! text := js_toFixed amount 2 in
          when_present "amount" (set_value text)
      | None => ret tt
      end in
  do! when_present "portfolio-summary" (set_display "none") in
  when_present "transfer-module" (set_display "block").

(** [App.hideTransferModal()] *)
Definition hideTransferModal : M World unit :=
  do! log_call CallHideTransferModal in
  do! must_update "transfer-module" (set_display "none") in
  must_update "portfolio-summary" (set_display "block").

(** [App.displayAgentMessage(message)] *)
Definition displayAgentMessage (message : string) : M World unit :=
  do! log_call (CallDisplayAgentMessage message) in
  must_update "ai-chat-history"
    (appendChild {| className := "message agent-message"; textContent := message |}).

(** [App.highlightAccount(accountId)].  The highlight is removed again five
    seconds later by a timer, which is outside this model. *)
Definition highlightAccount (accountId : string) : M World unit :=
  do! log_call (CallHighlightAccount accountId) in
  do! modify (set_document (fmap (fun el =>
        if has_class "account-item" el && has_class "highlight" el
        then set_classList (classList_remove "highlight") el
        else el))) in
  when_present ("account-" +:+ accountId) (set_classList (classList_add "highlight")).

(** The click handlers of the transfer form, installed on
    [DOMContentLoaded]. *)
Definition submit_transfer_click : M World unit :=
  do! displayAgentMessage "Transfer submitted successfully!" in
  hideTransferModal.

Definition cancel_transfer_click : M World unit :=
  do! displayAgentMessage "Transfer canceled." in
  hideTransferModal.

End App.

(** ** The WebMCP tools ([js/webmcpProvider.js]) *)

Record Tool : Type := {
  name : string;
  description : string;
  inputSchema : JSValue;
  execute : JSValue -> M World JSValue
}.

Definition string_schema (text : string) : JSValue :=
  JObj [("type", JStr "string"); ("description", JStr text)].

Definition account_to_js (a : Account) : JSValue :=
  JObj [ ("id", JStr (acc_id a)); ("name", JStr (acc_name a));
         ("balance", JNum (acc_balance a)); ("type", JStr (acc_type a)) ].

(** [acc => acc.name.toLowerCase().includes(lower)] *)
Definition name_matches `{Platform} (lower : string) (acc : Account) : bool :=
  includes (toLowerCase (acc_name acc)) lower.

(** [Object.values(mockAccountData).find(acc => ...)] *)
Definition find_account `{Platform} (lower : string) (w : World) : option Account :=
  find (name_matches lower) (Object_values (mockAccountData w)).

Definition tick (found : option Account) : string :=
  match found with Some _ => "✓" | None => "✗" end.

Section Tools.

Context `{Platform}.

Definition getAccountList_execute (_ : JSValue) : M World JSValue :=
  let! w := get_state in
  ret (JObj [ ("success", JBool true);
              ("accounts", JArr (map account_to_js (Object_values (mockAccountData w)))) ]).

(** The first log line of the executor prints the identifier; the last
    statement prints it again into the message. *)
Definition getAccountBalance_execute (args : JSValue) : M World JSValue :=
  let! accountIdentifier := get_prop args "accountIdentifier" in
  do! ToString accountIdentifier in
  let! lowerIdentifier := js_toLowerCase accountIdentifier in
  let! w := get_state in
  match find_account lowerIdentifier w with
  | Some account =>
      do! highlightAccount (acc_id account) in
      ret (JObj [ ("success", JBool true);
                  ("accountName", JStr (acc_name account));
                  ("balance", JNum (acc_balance account)) ])
  | None =>
      let! shown := ToString accountIdentifier in
      ret (JObj [ ("success", JBool false);
                  ("message", JStr ("Account '" +:+ shown +:+ "' not found.")) ])
  end.

(** The first log line prints the time period, before the chart is
    touched. *)
Definition getPortfolioPerformance_execute (args : JSValue) : M World JSValue :=
  let! timePeriod := get_prop args "timePeriod" in
  do! ToString timePeriod in
  do! log_call (CallUpdatePerformanceChart timePeriod) in
  do! updatePerformanceChart timePeriod in
  let! shown := ToString timePeriod in
  ret (JObj [ ("success", JBool true);
              ("message", JStr ("Portfolio performance chart is now showing data for '"
                                +:+ shown +:+ "'.")) ]).

(** The second log line prints the three arguments, in this order, before
    anything is resolved. *)
Definition initiateFundTransfer_execute (args : JSValue) : M World JSValue :=
  let! fromAccount := get_prop args "fromAccount" in
  let! toAccount := get_prop args "toAccount" in
  let! amount := get_prop args "amount" in
  do! ToString fromAccount in
  do! ToString toAccount in
  do! ToString amount in
  let! lowerFromAccount := js_toLowerCase fromAccount in
  let! lowerToAccount := js_toLowerCase toAccount in
  let! w := get_state in
  let fromAcc := find_account lowerFromAccount w in
  let toAcc := find_account lowerToAccount w in
  match fromAcc, toAcc with
  | Some fromAcc', Some toAcc' =>
      do! showTransferModal (acc_id fromAcc') (acc_id toAcc') amount in
      ret (JObj [ ("success", JBool true);
                  ("message", JStr "I've prepared the transfer for you. Please review and click 'Submit' to complete it.") ])
  | _, _ =>
      let! shownFrom := ToString fromAccount in
      let! shownTo := ToString toAccount in
      let message :=
        "Account(s) not found. From: " +:+ shownFrom +:+ " " +:+ tick fromAcc
        +:+ ", To: " +:+ shownTo +:+ " " +:+ tick toAcc in
      ret (JObj [ ("success", JBool false); ("message", JStr message) ])
  end.

Definition getAccountList : Tool := {|
  name := "getAccountList";
  description := "Retrieves a list of all the user's available accounts, including their names and unique IDs.";
  inputSchema := JObj [("type", JStr "object"); ("properties", JObj [])];
  execute := getAccountList_execute
|}.

Definition getAccountBalance : Tool := {|
  name := "getAccountBalance";
  description := "Gets the current total market value for a specific account identified by its name or type (e.g., 'Roth IRA', 'Brokerage').";
  inputSchema :=
    JObj [ ("type", JStr "object");
           ("properties",
            JObj [("accountIdentifier",
                   string_schema "The name or type of the account to query, like '401k' or 'Brokerage'.")]);
           ("required", JArr [JStr "accountIdentifier"]) ];
  execute := getAccountBalance_execute
|}.

Definition getPortfolioPerformance : Tool := {|
  name := "getPortfolioPerformance";
  description := "Retrieves the historical investment performance data for the user's total portfolio over a given time period.";
  inputSchema :=
    JObj [ ("type", JStr "object");
           ("properties",
            JObj [("timePeriod",
                   JObj [ ("type", JStr "string");
                          ("description", JStr "The desired time frame, e.g., 'YTD', '1 Year', '3 Year'.");
                          ("enum", JArr [JStr "YTD"; JStr "1 Year"; JStr "3 Year"; JStr "5 Year"]) ])]);
           ("required", JArr [JStr "timePeriod"]) ];
  execute := getPortfolioPerformance_execute
|}.

Definition initiateFundTransfer : Tool := {|
  name := "initiateFundTransfer";
  description := "Pre-fills the fund transfer form to move a specific amount of money between two of the user's Fidelity accounts. This action requires final user confirmation.";
  inputSchema :=
    JObj [ ("type", JStr "object");
           ("properties",
            JObj [ ("fromAccount", string_schema "The name of the source account.");
                   ("toAccount", string_schema "The name of the destination account.");
                   ("amount", JObj [ ("type", JStr "number");
                                     ("description", JStr "The dollar amount to transfer.") ]) ]);
           ("required", JArr [JStr "fromAccount"; JStr "toAccount"; JStr "amount"]) ];
  execute := initiateFundTransfer_execute
|}.

(** The batch [registerFidelityTools] hands to [provideContext]. *)
Definition fidelityTools : list Tool :=
  [getAccountList; getAccountBalance; getPortfolioPerformance; initiateFundTransfer].

End Tools.

(** ** The mock [window.agent] ([js/main.js]) *)

(** [mockAgentAPI.tools] *)
Definition Registry : Type := JSMap.t Tool.

(** What the client keeps around a submission: the page, and the log of
    executor invocations made by [invokeTool] (instrumentation, in call
    order, with the arguments passed). *)
Record Browser : Type := {
  page : World;
  executed : list (string * JSValue)
}.

Definition lift_page {A : Type} (m : M World A) : M Browser A :=
  fun b =>
    let (o, w) := m (page b) in
    (o, {| page := w; executed := executed b |}).

Definition log_execute (toolName : string) (parameters : JSValue) : M Browser unit :=
  modify (fun b => {| page := page b; executed := executed b ++ [(toolName, parameters)] |}).

(** [provideContext(context)]: clears the map, then sets every tool of
    [context.tools] under its name, in order.  It returns [undefined]. *)
Definition provideContext (context_tools : list Tool) : M Registry unit :=
  do! modify JSMap.clear in
  modify (fun tools => fold_left (fun m tool => JSMap.set (name tool) tool m) context_tools tools).

(** The tool a name resolves to after the tools of [batch] were set one by
    one: the last tool of the batch that carries the name. *)
Fixpoint last_named (n : string) (batch : list Tool) : option Tool :=
  match batch with
  | [] => None
  | tool :: rest =>
      match last_named n rest with
      | Some later => Some later
      | None => if String.eqb (name tool) n then Some tool else None
      end
  end.

Definition unknown_action : JSValue :=
  JObj [("success", JBool false); ("message", JStr "Unknown action.")].

Definition internal_error : JSValue :=
  JObj [("success", JBool false); ("message", JStr "An internal error occurred.")].

(** [invokeTool(toolName, parameters)].  [this.tools.has(toolName)] holds
    exactly when [this.tools.get(toolName)] finds the tool, so the two are
    one match here. *)
Definition invokeTool (tools : Registry) (toolName : string) (parameters : JSValue)
  : M Browser JSValue :=
  match JSMap.get toolName tools with
  | Some tool =>
      try_catch
        (do! log_execute toolName parameters in
         lift_page (execute tool parameters))
        (fun _ => ret internal_error)
  | None => ret unknown_action
  end.

(** [registerFidelityTools()], for a page where [window.agent] is the mock
    above. *)
Definition registerFidelityTools `{Platform} : M Registry unit :=
  provideContext fidelityTools.

(** ** Configuration ([js/config.js]) *)

Record LLMConfig : Type := {
  provider : string;
  apiKey : string;
  baseUrl : string;
  model : string;
  maxTokens : Z;
  temperature : float
}.

(** [development.logRequests] and [development.logResponses] only switch
    diagnostics and are left out. *)
Record Config : Type := {
  llm : LLMConfig;
  enableMockMode : bool
}.

Definition defaultConfig : Config := {|
  llm := {| provider := "openai";
            apiKey := "sk-your-api-key-here";
            baseUrl := "https://api.openai.com/v1";
            model := "gpt-4-turbo-preview";
            maxTokens := 1500;
            temperature := 0.1 |};
  enableMockMode := false
|}.

(** [Config.getApiKey()] *)
Definition getApiKey {S : Type} (config : Config) : M S string :=
  if negb (String.eqb (apiKey (llm config)) "") then ret (apiKey (llm config))
  else if enableMockMode config then ret "mock-key"
  else throw (Error "API key not configured. Please set Config.llm.apiKey or enable mock mode.").

(** ** The model gateway ([js/llmClient.js]) *)

(** One entry of [message.tool_calls]: [{id, function: {name, arguments}}]. *)
Record ToolCallRequest : Type := {
  call_id : option string;
  function_name : string;
  function_arguments : string
}.

(** [choices[0].message] of a reply. *)
Record AssistantMessage : Type := {
  content : option string;
  tool_calls : option (list ToolCallRequest)
}.

(** The entries of [conversationHistory], and the system message that
    [callOpenAI] puts in front of them. *)
Inductive ChatMessage : Type :=
  | SystemMessage (text : string)
  | UserMessage (text : string)
  | AssistantReply (message : option AssistantMessage)
  | ToolMessage (text : option string) (tool_call_id : option string).

Record FunctionDeclaration : Type := {
  fn_name : string;
  fn_description : string;
  fn_parameters : JSValue
}.

Record RequestBody : Type := {
  rq_model : string;
  rq_messages : list ChatMessage;
  rq_tools : option (list FunctionDeclaration);
  rq_tool_choice : option string;
  rq_max_tokens : Z;
  rq_temperature : float
}.

Record HttpRequest : Type := {
  url : string;
  authorization : string;
  body : RequestBody
}.

(** The parsed body of a reply.  [NoFirstChoice] stands for every body on
    which reading [apiResponse.choices[0].message] raises. *)
Inductive ApiResponse : Type :=
  | NoFirstChoice
  | FirstChoice (message : option AssistantMessage).

Inductive FetchResult : Type :=
  | NetworkError
  | HttpFailure (status : Z) (statusText : string) (errorMessage : option string)
  | HttpOkBadJson
  | HttpOk (data : ApiResponse).

(** The model provider behind [fetch]: the reply to the [n]-th request of
    the session, given the request. *)
Definition Provider : Type := nat -> HttpRequest -> FetchResult.

(** The object [generateResponse] resolves to. *)
Inductive LLMResponse : Type :=
  | FunctionCall (functionName : string) (arguments : JSValue) (toolCallId : option string)
  | Text (message : option string)
  | ErrorResponse (message : string).

(** The client: the browser side, the gateway's history, and the log of
    requests sent (instrumentation). *)
Record Agent : Type := {
  browser : Browser;
  conversationHistory : list ChatMessage;
  fetched : list HttpRequest
}.

Definition lift_browser {A : Type} (m : M Browser A) : M Agent A :=
  fun s =>
    let (o, b) := m (browser s) in
    (o, {| browser := b; conversationHistory := conversationHistory s; fetched := fetched s |}).

(** [this.conversationHistory.push(m)] *)
Definition push_history (m : ChatMessage) : M Agent unit :=
  modify (fun s =>
    {| browser := browser s;
       conversationHistory := conversationHistory s ++ [m];
       fetched := fetched s |}).

(** [await fetch(...)], answered by the provider. *)
Definition fetch (remote : Provider) (rq : HttpRequest) : M Agent FetchResult :=
  fun s =>
    (Returned (remote (length (fetched s)) rq),
     {| browser := browser s;
        conversationHistory := conversationHistory s;
        fetched := fetched s ++ [rq] |}).

(** [formatToolsForOpenAI(tools)] *)
Definition formatToolsForOpenAI (tools : Registry) : list FunctionDeclaration :=
  map (fun tool => {| fn_name := name tool;
                      fn_description := description tool;
                      fn_parameters := inputSchema tool |})
      (JSMap.values tools).

Definition newline : string := String "010" EmptyString.

Definition indent : string := "                    ".

Definition systemPrompt (toolNames : list string) : string :=
  "You are a helpful financial assistant for Fidelity Investments. You can help users with account inquiries, portfolio performance, and fund transfers. "
  +:+ newline +:+ indent
  +:+ newline +:+ indent +:+ "Available tools: " +:+ join ", " toolNames
  +:+ newline +:+ indent
  +:+ newline +:+ indent
  +:+ "Always be helpful and professional. When users request transfers, explain that you'll prepare the form but they need to confirm the transaction for security.".

(** [mockResponse(userMessage)] *)
Definition mockResponse (userMessage : string) : LLMResponse :=
  Text (Some ("Mock LLM response to: " +:+ dquote +:+ userMessage +:+ dquote
              +:+ ". Enable a real LLM provider in config.js for actual AI responses.")).

(** The fixed texts of the gateway's error responses. *)
Definition gateway_error_text : string :=
  "Sorry, I encountered an error processing your request. Please try again.".

Definition parse_error_text : string :=
  "I had trouble understanding the parameters for that request.".

Section Gateway.

Context `{Platform}.
Variable config : Config.
Variable remote : Provider.

(** [processOpenAIResponse(apiResponse)] *)
Definition processOpenAIResponse (apiResponse : ApiResponse) : M Agent LLMResponse :=
  match apiResponse with
  | NoFirstChoice => throw TypeError
  | FirstChoice message =>
      do! push_history (AssistantReply message) in
      match message with
      | None => throw TypeError
      | Some m =>
          match tool_calls m with
          | Some (toolCall :: _) =>
              match JSON_parse (function_arguments toolCall) with
              | Some functionArgs =>
                  ret (FunctionCall (function_name toolCall) functionArgs (call_id toolCall))
              | None =>
                  ret (ErrorResponse parse_error_text)
              end
          | _ => ret (Text (content m))
          end
      end
  end.

(** [callOpenAI(userMessage, availableTools, apiKey)] *)
Definition callOpenAI (userMessage : string) (availableTools : Registry) (key : string)
  : M Agent LLMResponse :=
  let tools := formatToolsForOpenAI availableTools in
  let! s := get_state in
  let requestBody := {|
    rq_model := model (llm config);
    rq_messages := SystemMessage (systemPrompt (map fn_name tools)) :: conversationHistory s;
    rq_tools := if (0 <? length tools)%nat then Some tools else None;
    rq_tool_choice := if (0 <? length tools)%nat then Some "auto" else None;
    rq_max_tokens := maxTokens (llm config);
    rq_temperature := temperature (llm config) |} in
  let! response := fetch remote {| url := baseUrl (llm config) +:+ "/chat/completions";
                                   authorization := "Bearer " +:+ key;
                                   body := requestBody |} in
  match response with
  | NetworkError => throw TypeError
  | HttpFailure status statusText errorMessage =>
      throw (OpenAIApiError status
               (match errorMessage with
                | Some text => if String.eqb text "" then statusText else text
                | None => statusText
                end))
  | HttpOkBadJson => throw SyntaxError
  | HttpOk data => processOpenAIResponse data
  end.

(** [callAnthropic(userMessage, availableTools, apiKey)] *)
Definition callAnthropic (userMessage : string) (availableTools : Registry) (key : string)
  : M Agent LLMResponse :=
  throw (Error "Anthropic integration not implemented yet").

(** [generateResponse(userMessage, availableTools)] *)
Definition generateResponse (userMessage : string) (availableTools : Registry)
  : M Agent LLMResponse :=
  try_catch
    (if enableMockMode config then ret (mockResponse userMessage)
     else
       let! key := getApiKey config in
       do! push_history (UserMessage userMessage) in
       if String.eqb (provider (llm config)) "openai" then
         callOpenAI userMessage availableTools key
       else if String.eqb (provider (llm config)) "anthropic" then
         callAnthropic userMessage availableTools key
       else throw (Error ("Unsupported LLM provider: " +:+ provider (llm config))))
    (fun _ => ret (ErrorResponse gateway_error_text)).

(** [handleFunctionResult(toolCallId, functionName, functionResult)] *)
Definition handleFunctionResult (toolCallId : option string) (functionName : string)
    (functionResult : JSValue) : M Agent LLMResponse :=
  do! push_history (ToolMessage (JSON_stringify functionResult) toolCallId) in
  let! key := getApiKey config in
  callOpenAI "" JSMap.empty key.

End Gateway.

(** ** The agent client ([agentClient.js], in [js/webmcpProvider.js]) *)

(** What [processUserPromptWithLLM] resolves to: a fresh [{ message }]
    object, or the gateway's follow-up response passed through as it is. *)
Inductive Response : Type :=
  | ResponseMessage (message : JSValue)
  | ResponseLLM (r : LLMResponse).

Definition option_to_js (o : option string) : JSValue :=
  match o with Some s => JStr s | None => JNull end.

(** [response.message] *)
Definition response_message (r : Response) : JSValue :=
  match r with
  | ResponseMessage m => m
  | ResponseLLM (FunctionCall _ _ _) => JUndefined
  | ResponseLLM (Text m) => option_to_js m
  | ResponseLLM (ErrorResponse m) => JStr m
  end.

(** [if (llmResponse.toolCallId)] *)
Definition id_truthy (toolCallId : option string) : bool :=
  truthy (match toolCallId with Some s => JStr s | None => JUndefined end).

Definition error_message : string :=
  "I encountered an error processing your request. Please try again.".

Fixpoint mapM {S A B : Type} (f : A -> M S B) (l : list A) : M S (list B) :=
  match l with
  | [] => ret []
  | x :: l' =>
      let! y := f x in
      let! ys := mapM f l' in
      ret (y :: ys)
  end.

Section AgentClient.

Context `{Platform}.
Variable config : Config.
Variable remote : Provider.

(** An element, as [Array.prototype.join] prints it. *)
Definition join_item {S : Type} (v : JSValue) : M S string :=
  match v with
  | JUndefined | JNull => ret ""
  | _ => ToString v
  end.

(** [formatFunctionResult(functionName, result)] *)
Definition formatFunctionResult {S : Type} (functionName : string) (result : JSValue)
  : M S Response :=
  let fallback : M S Response :=
    let! success := get_prop result "success" in
    let! message := get_prop result "message" in
    if truthy success then ret (ResponseMessage message)
    else
      let! shown := ToString message in
      ret (ResponseMessage (JStr ("Error: " +:+ shown))) in
  if String.eqb functionName "getAccountBalance" then
    let! success := get_prop result "success" in
    if truthy success then
      let! accountName := get_prop result "accountName" in
      let! shown := ToString accountName in
      let! balance := get_prop result "balance" in
      let! fixed := js_toFixed balance 2 in
      ret (ResponseMessage (JStr ("The balance for " +:+ shown
                                  +:+ " is $" +:+ fixed +:+ ".")))
    else fallback
  else if String.eqb functionName "getAccountList" then
    let! success := get_prop result "success" in
    if truthy success then
      let! accounts := get_prop result "accounts" in
      match accounts with
      | JArr items =>
          let! names := mapM (fun a => get_prop a "name") items in
          let! shown := mapM join_item names in
          ret (ResponseMessage (JStr ("Here are your accounts: "
                                      +:+ join ", " shown +:+ ".")))
      | _ => throw TypeError
      end
    else fallback
  else if String.eqb functionName "initiateFundTransfer" then
    let! message := get_prop result "message" in
    ret (ResponseMessage message)
  else if String.eqb functionName "getPortfolioPerformance" then
    let! message := get_prop result "message" in
    ret (ResponseMessage message)
  else fallback.

(** [processUserPromptMock(prompt)] *)
Definition processUserPromptMock {S : Type} (prompt : string) : M S Response :=
  ret (ResponseMessage (JStr (
    "Mock response: I can help with account balances, transfers, and portfolio performance. Try: "
    +:+ dquote +:+ "What's my Roth IRA balance?" +:+ dquote +:+ " or "
    +:+ dquote +:+ "Transfer $1000 from Brokerage to Roth IRA" +:+ dquote))).

(** [processUserPromptWithLLM(prompt)], with [tools] the agent's
    registry.  The [default] branch of the [switch] is unreachable: the
    gateway resolves to one of the three response types. *)
Definition processUserPromptWithLLM (tools : Registry) (prompt : string) : M Agent Response :=
  try_catch
    (let availableTools := tools in
     let! llmResponse := generateResponse config remote prompt availableTools in
     match llmResponse with
     | FunctionCall functionName arguments toolCallId =>
         let! functionResult := lift_browser (invokeTool tools functionName arguments) in
         if id_truthy toolCallId then
           let! finalResponse :=
             handleFunctionResult config remote toolCallId functionName functionResult in
           ret (ResponseLLM finalResponse)
         else formatFunctionResult functionName functionResult
     | Text message => ret (ResponseMessage (option_to_js message))
     | ErrorResponse message => ret (ResponseMessage (JStr message))
     end)
    (fun _ =>
       if enableMockMode config then processUserPromptMock prompt
       else ret (ResponseMessage (JStr error_message))).

End AgentClient.

(** ** The chat form ([AgentClient.handleSend] and its helpers) *)

(** The client object: its busy flag, and the agent with the page.  The
    three elements its constructor looks up, the prompt input
    ["ai-user-prompt"], the send button ["ai-send-btn"] and the chat
    history ["ai-chat-history"], are elements of the page like any other,
    so a tool can read and write them; the client is taken to find them
    under their ids whenever it uses them, which is what its stored
    references come to as long as no script removes these elements from the
    page.  The constructor itself raises on a page without the prompt
    input or the send button. *)
Record ChatClient : Type := {
  isProcessing : bool;
  client : Agent
}.

Definition lift_agent {A : Type} (m : M Agent A) : M ChatClient A :=
  fun c =>
    let (o, s) := m (client c) in
    (o, {| isProcessing := isProcessing c; client := s |}).

Definition lift_world {A : Type} (m : M World A) : M ChatClient A :=
  lift_agent (lift_browser (lift_page m)).

Definition set_isProcessing (flag : bool) : M ChatClient unit :=
  modify (fun c => {| isProcessing := flag; client := client c |}).

(** [this.promptInput.value] *)
Definition promptInput_value : M World string :=
  let! w := get_state in
  match document w !! "ai-user-prompt" with
  | Some input => ret (value input)
  | None => throw TypeError
  end.

(** [updateSendButton(enabled)] *)
Definition updateSendButton (enabled : bool) : M World unit :=
  must_update "ai-send-btn"
    (set_button (negb enabled) (if enabled then "Send" else "Processing...")).

(** [addMessage(text, sender)]: the [textContent] setter converts the
    text to a string; [appendChild] raises when the page has no chat
    history element. *)
Definition addMessage `{Platform} (text : JSValue) (sender : string) : M World unit :=
  let! shown := ToString text in
  must_update "ai-chat-history"
    (appendChild {| className := "message " +:+ sender +:+ "-message";
                    textContent := shown |}).

(** The typing indicator.  In the page it carries the id
    ["typing-indicator"] and is looked up by it; here it is the one node
    with the class [typing], which only [showTypingIndicator] creates. *)
Definition typingNode : Node :=
  {| className := "message agent-message typing"; textContent := "●●●" |}.

Definition is_typingNode (n : Node) : bool :=
  String.eqb (className n) (className typingNode).

Fixpoint remove_first {A : Type} (f : A -> bool) (l : list A) : list A :=
  match l with
  | [] => []
  | x :: l' => if f x then l' else x :: remove_first f l'
  end.

Definition set_childNodes (f : list Node -> list Node) (el : Element) : Element :=
  {| value := value el; style_display := style_display el;
     classList := classList el; childNodes := f (childNodes el);
     disabled := disabled el; el_textContent := el_textContent el |}.

(** [showTypingIndicator()] *)
Definition showTypingIndicator : M World string :=
  do! must_update "ai-chat-history" (appendChild typingNode) in
  ret "typing-indicator".

(** [removeTypingIndicator(typingId)] *)
Definition removeTypingIndicator (typingId : string) : M World unit :=
  when_present "ai-chat-history" (set_childNodes (remove_first is_typingNode)).

(** [try { m } finally { f }] *)
Definition try_finally {S A : Type} (m : M S A) (f : M S unit) : M S A :=
  fun s =>
    let (o, s') := m s in
    match f s' with
    | (Returned _, s'') => (o, s'')
    | (Thrown e, s'') => (Thrown e, s'')
    end.

Section ChatForm.

Context `{Platform}.
Variable config : Config.
Variable remote : Provider.

(** The [try] block of [handleSend] with its [catch]: the exchange with
    the model, from the typing indicator to the reply. *)
Definition handleSend_exchange (tools : Registry) (prompt : string) : M ChatClient unit :=
  try_catch
    (let! typingId := lift_world showTypingIndicator in
     let! response :=
       lift_agent (processUserPromptWithLLM config remote tools prompt) in
     do! lift_world (removeTypingIndicator typingId) in
     if truthy (response_message response)
     then lift_world (addMessage (response_message response) "agent")
     else ret tt)
    (fun _ =>
       lift_world (addMessage (JStr "Sorry, I encountered an error. Please try again.")
                     "agent")).

(** Its [finally] block. *)
Definition handleSend_finally : M ChatClient unit :=
  do! set_isProcessing false in
  lift_world (updateSendButton true).

(** [handleSend()], with [tools] the agent's registry. *)
Definition handleSend (tools : Registry) : M ChatClient unit :=
  let! c := get_state in
  if isProcessing c then ret tt
  else
    let! typed := lift_world promptInput_value in
    let prompt := trim typed in
    if String.eqb prompt "" then ret tt
    else
      do! set_isProcessing true in
      do! lift_world (addMessage (JStr prompt) "user") in
      do! lift_world (must_update "ai-user-prompt" (set_value "")) in
      do! lift_world (updateSendButton false) in
      try_finally (handleSend_exchange tools prompt) handleSend_finally.

End ChatForm.

(** The page of the client, and the nodes of its chat history. *)
Definition page_of (c : ChatClient) : World := page (browser (client c)).

Definition chat_nodes (c : ChatClient) : option (list Node) :=
  childNodes <$> document (page_of c) !! "ai-chat-history".

(** ** Outcomes of a submission *)

(** The errored outcomes of a submission: the response is an error
    response of the gateway, or carries one of the fixed failure texts. *)
Definition is_errored (r : Response) : bool :=
  match r with
  | ResponseLLM (ErrorResponse _) => true
  | ResponseMessage (JStr m) =>
      String.eqb m error_message || String.eqb m gateway_error_text
      || String.eqb m parse_error_text
  | _ => false
  end.

(** The result and the final state of running a computation. *)
Definition result_of {S A : Type} (r : Outcome A * S) : Outcome A := fst r.
Definition state_of {S A : Type} (r : Outcome A * S) : S := snd r.

(** The computation reported an error to its caller. *)
Definition reports_error {S A : Type} (r : Outcome A * S) : Prop :=
  exists e, result_of r = Thrown e.

(** [result.success === false] on a tool result. *)
Definition is_failure (result : JSValue) : Prop :=
  exists props, result = JObj props /\ assoc "success" props = Some (JBool false).

(** No account name of the table contains the lower-cased identifier: the
    fuzzy match fails. *)
Definition no_match `{Platform} (id : string) (w : World) : Prop :=
  forall acc, acc ∈ Object_values (mockAccountData w) ->
              ~ IsSubstring (toLowerCase id) (toLowerCase (acc_name acc)).

(** The message of [initiateFundTransfer] when an account is not found. *)
Definition not_found_message `{Platform} (from to : string) (w : World) : string :=
  "Account(s) not found. From: " +:+ from +:+ " " +:+ tick (find_account (toLowerCase from) w)
  +:+ ", To: " +:+ to +:+ " " +:+ tick (find_account (toLowerCase to) w).

(** ** Effects of a computation on the client *)

(** A computation that leaves the state as it found it. *)
Definition stateless {S A : Type} (m : M S A) : Prop :=
  forall s, state_of (m s) = s.

(** From [s] to [s'], at most [ne] executors were invoked and at most [nf]
    requests were sent to the provider. *)
Definition extends (ne nf : nat) (s s' : Agent) : Prop :=
  exists lx lf,
    executed (browser s') = executed (browser s) ++ lx /\ (length lx <= ne)%nat
    /\ fetched s' = fetched s ++ lf /\ (length lf <= nf)%nat.

Definition bounded {A : Type} (ne nf : nat) (m : M Agent A) : Prop :=
  forall s, extends ne nf s (state_of (m s)).

(** The request declares no tool to the model. *)
Definition declares_no_tool (rq : HttpRequest) : Prop :=
  rq_tools (body rq) = None /\ rq_tool_choice (body rq) = None.

(** The configuration reaches the provider: mock mode is off, a key is
    set and the provider is OpenAI. *)
Definition live (config : Config) : Prop :=
  enableMockMode config = false
  /\ apiKey (llm config) <> ""
  /\ provider (llm config) = "openai".

(** The reply is a message whose first tool call is [toolCall], with
    arguments that parse to [args]. *)
Definition tool_call_reply `{Platform} (reply : FetchResult) (toolCall : ToolCallRequest)
    (args : JSValue) : Prop :=
  exists m rest,
    reply = HttpOk (FirstChoice (Some m))
    /\ tool_calls m = Some (toolCall :: rest)
    /\ JSON_parse (function_arguments toolCall) = Some args.

(** The provider answers request number [n] of the session with a tool
    call that satisfies [P]. *)
Definition calls_at `{Platform} (remote : Provider) (n : nat)
    (P : ToolCallRequest -> Prop) : Prop :=
  forall rq, exists toolCall args, tool_call_reply (remote n rq) toolCall args /\ P toolCall.

Definition has_call_id (toolCall : ToolCallRequest) : Prop :=
  id_truthy (call_id toolCall) = true.

(** A provider stub that answers every request with a tool call carrying a
    call id, as the wire format has it. *)
Definition always_calls_tool `{Platform} (remote : Provider) : Prop :=
  forall n, calls_at remote n has_call_id.

(** ** The steps of one exchange, spelled out *)

(** The request [callOpenAI] builds from the registry it is given, the key
    and the history at the time of the call. *)
Definition openai_request (config : Config) (availableTools : Registry) (key : string)
    (history : list ChatMessage) : HttpRequest :=
  let tools := formatToolsForOpenAI availableTools in
  {| url := baseUrl (llm config) +:+ "/chat/completions";
     authorization := "Bearer " +:+ key;
     body := {| rq_model := model (llm config);
                rq_messages := SystemMessage (systemPrompt (map fn_name tools)) :: history;
                rq_tools := if (0 <? length tools)%nat then Some tools else None;
                rq_tool_choice := if (0 <? length tools)%nat then Some "auto" else None;
                rq_max_tokens := maxTokens (llm config);
                rq_temperature := temperature (llm config) |} |}.

(** The client after it appended [turns] to the history and sent
    [requests]. *)
Definition advanced (turns : list ChatMessage) (requests : list HttpRequest) (s : Agent)
  : Agent :=
  {| browser := browser s;
     conversationHistory := conversationHistory s ++ turns;
     fetched := fetched s ++ requests |}.

Definition with_browser (b : Browser) (s : Agent) : Agent :=
  {| browser := b; conversationHistory := conversationHistory s; fetched := fetched s |}.

Definition with_client (s : Agent) (c : ChatClient) : ChatClient :=
  {| isProcessing := isProcessing c; client := s |}.

(** The client after [f] was applied to the chat history element. *)
Definition on_chat (f : Element -> Element) (c : ChatClient) : ChatClient :=
  with_client
    (with_browser
       {| page := set_document (alter f "ai-chat-history") (page (browser (client c)));
          executed := executed (browser (client c)) |}
       (client c)) c.

(** The client on the page [w]. *)
Definition with_page (w : World) (c : ChatClient) : ChatClient :=
  with_client
    (with_browser {| page := w; executed := executed (browser (client c)) |} (client c)) c.

(** The page as [handleSend] leaves it before it enters its [try]: the
    user's message is shown, the prompt input emptied and the send button
    disabled. *)
Definition send_started (prompt : string) (w : World) : World :=
  set_document
    (fun doc =>
       alter (set_button true "Processing...") "ai-send-btn"
         (alter (set_value "") "ai-user-prompt"
            (alter (appendChild {| className := "message user-message";
                                   textContent := prompt |})
               "ai-chat-history" doc))) w.

(** The page while the model is asked: the typing indicator is shown. *)
Definition awaiting (prompt : string) (w : World) : World :=
  set_document (alter (appendChild typingNode) "ai-chat-history") (send_started prompt w).

(** From [w] to [w'] the send button was not removed from the page and the
    prompt input was not written. *)
Definition keeps_controls (w w' : World) : Prop :=
  (is_Some (document w !! "ai-send-btn") -> is_Some (document w' !! "ai-send-btn"))
  /\ value <$> document w' !! "ai-user-prompt" = value <$> document w !! "ai-user-prompt".

(** No tool of the registry removes the send button or writes the prompt
    input. *)
Definition tools_keep_controls (tools : Registry) : Prop :=
  forall toolName tool args w,
    JSMap.get toolName tools = Some tool ->
    keeps_controls w (state_of (execute tool args w)).

(** A step on the page, and a step of the chat client, that keeps the
    controls; a step of the agent that leaves the browser side alone. *)
Definition gentle {A : Type} (m : M World A) : Prop :=
  forall w, keeps_controls w (state_of (m w)).

Definition respects {A : Type} (m : M ChatClient A) : Prop :=
  forall c, keeps_controls (page_of c) (page_of (state_of (m c))).

Definition keeps_browser {A : Type} (m : M Agent A) : Prop :=
  forall s, browser (state_of (m s)) = browser s.

(** The reply never yields a message: the transport failed, the status was
    not 2xx, the body was not JSON, or it carried no first choice. *)
Definition transport_failed (reply : FetchResult) : Prop :=
  match reply with
  | NetworkError | HttpFailure _ _ _ | HttpOkBadJson | HttpOk NoFirstChoice => True
  | HttpOk (FirstChoice _) => False
  end.

(** The computation only appends to the history, at most [n] turns. *)
Definition appends {A : Type} (n : nat) (m : M Agent A) : Prop :=
  forall s, exists turns,
    conversationHistory (state_of (m s)) = conversationHistory s ++ turns
    /\ (length turns <= n)%nat.

(** The first request of a submission: the registry's tools, and the
    history with the user's turn at its end. *)
Definition first_request (config : Config) (tools : Registry) (prompt : string) (s : Agent)
  : HttpRequest :=
  openai_request config tools (apiKey (llm config))
    (conversationHistory s ++ [UserMessage prompt]).

(** The follow-up request after a tool result: no tools, and the history
    so far. *)
Definition follow_up_request (config : Config) (history : list ChatMessage) : HttpRequest :=
  openai_request config JSMap.empty (apiKey (llm config)) history.

(** The message carries no tool call. *)
Definition plain_message (m : AssistantMessage) : Prop :=
  tool_calls m = None \/ tool_calls m = Some [].

(** ** Sample data for the closed examples *)

(** [n.toFixed(2)] for the amounts and balances of the examples. *)
Definition sample_toFixed (n : float) (digits : nat) : string :=
  if PrimFloat.eqb n 15430.25 then "15430.25"
  else if PrimFloat.eqb n 89500.75 then "89500.75"
  else if PrimFloat.eqb n 245100.40 then "245100.40"
  else if PrimFloat.eqb n 5200 then "5200.00"
  else if PrimFloat.eqb n 1000 then "1000.00"
  else if PrimFloat.eqb n 250 then "250.00"
  else "0.00".

(** A platform for the examples.  Its codec agrees with [JSON.parse] on
    the two argument texts the examples send, ["{}"] and ["oops"], and its
    [toFixed] with the page's on the amounts the examples use; its string
    methods are exact on ASCII texts, which is all the examples apply them
    to.  What it prints otherwise is a placeholder that no statement
    depends on. *)
Definition samplePlatform : Platform := {|
  JSON_parse := fun text => if String.eqb text "{}" then Some (JObj []) else None;
  JSON_stringify := fun v => match v with JUndefined => None | _ => Some "{}" end;
  NumberToString := fun _ => "0";
  toFixed := sample_toFixed;
  toLowerCase := ascii_toLowerCase;
  trim := ascii_trim;
  updatePerformanceChart := fun _ => ret tt;
  toLowerCase_on_ascii := fun _ _ => eq_refl;
  trim_on_ascii := fun _ _ => eq_refl
|}.

Definition blankElement : Element :=
  {| value := ""; style_display := ""; classList := []; childNodes := [];
     disabled := false; el_textContent := "" |}.

Definition accountItem : Element :=
  {| value := ""; style_display := ""; classList := ["account-item"]; childNodes := [];
     disabled := false; el_textContent := "" |}.

Definition sendButton : Element :=
  {| value := ""; style_display := ""; classList := []; childNodes := [];
     disabled := false; el_textContent := "Send" |}.

(** The elements the scripts look up, as the page has them once the
    account list is rendered. *)
Definition sampleDocument : gmap string Element :=
  list_to_map
    [ ("fromAccount", blankElement); ("toAccount", blankElement); ("amount", blankElement);
      ("portfolio-summary", blankElement);
      ("transfer-module", set_display "none" blankElement);
      ("ai-chat-history", blankElement);
      ("ai-user-prompt", blankElement); ("ai-send-btn", sendButton);
      ("account-acc_brokerage_123", accountItem); ("account-acc_roth_456", accountItem);
      ("account-acc_401k_789", accountItem); ("account-acc_cash_101", accountItem) ].

Definition sampleWorld : World :=
  {| mockAccountData := initialAccountData; document := sampleDocument; appCalls := [] |}.

Definition sampleBrowser : Browser := {| page := sampleWorld; executed := [] |}.

Definition sampleAgent : Agent :=
  {| browser := sampleBrowser; conversationHistory := []; fetched := [] |}.

(** The registry after [registerFidelityTools()]. *)
Definition sampleRegistry : Registry :=
  state_of (@registerFidelityTools samplePlatform JSMap.empty).

(** A provider that answers every request with a tool call: the first
    with a call of [getAccountList], every later one with a call of
    [getAccountBalance]. *)
Definition listCall : ToolCallRequest :=
  {| call_id := Some "call_1"; function_name := "getAccountList"; function_arguments := "{}" |}.

Definition balanceCall : ToolCallRequest :=
  {| call_id := Some "call_2"; function_name := "getAccountBalance";
     function_arguments := "{}" |}.

Definition alwaysToolCall : Provider :=
  fun n _ =>
    match n with
    | O => HttpOk (FirstChoice (Some {| content := None; tool_calls := Some [listCall] |}))
    | S _ => HttpOk (FirstChoice (Some {| content := None; tool_calls := Some [balanceCall] |}))
    end.

(** One submission against that provider, on the page as loaded. *)
Definition sampleSubmission : Outcome Response * Agent :=
  @processUserPromptWithLLM samplePlatform defaultConfig alwaysToolCall sampleRegistry
    "What's my Roth IRA balance?" sampleAgent.

(** A tool whose executor raises, and two tools that share a name. *)
Definition brokenTool : Tool :=
  {| name := "broken"; description := "always raises";
     inputSchema := JObj []; execute := fun _ => throw (Error "boom") |}.

Definition pingFirst : Tool :=
  {| name := "ping"; description := "first"; inputSchema := JObj [];
     execute := fun _ => ret (JStr "first") |}.

Definition pingSecond : Tool :=
  {| name := "ping"; description := "second"; inputSchema := JObj [];
     execute := fun _ => ret (JStr "second") |}.

(** ** More sample data: providers, configurations, pages *)

Definition sampleBrokerage : Account :=
  {| acc_id := "acc_brokerage_123"; acc_name := "Brokerage Account";
     acc_balance := 15430.25; acc_type := "taxable" |}.

Definition sampleRoth : Account :=
  {| acc_id := "acc_roth_456"; acc_name := "Roth IRA";
     acc_balance := 89500.75; acc_type := "retirement" |}.

(** A provider that is unreachable. *)
Definition networkDown : Provider := fun _ _ => NetworkError.

Definition helloMessage : AssistantMessage :=
  {| content := Some "Hello."; tool_calls := None |}.

(** A provider that answers in plain text. *)
Definition plainReply : Provider := fun _ _ => HttpOk (FirstChoice (Some helloMessage)).

Definition listMessage : AssistantMessage :=
  {| content := None; tool_calls := Some [listCall] |}.

(** A provider that asks for the account list first and then answers in
    plain text, and one that is unreachable for the follow-up. *)
Definition callThenText : Provider :=
  fun n _ =>
    match n with
    | O => HttpOk (FirstChoice (Some listMessage))
    | S _ => HttpOk (FirstChoice (Some helloMessage))
    end.

Definition callThenDown : Provider :=
  fun n _ =>
    match n with
    | O => HttpOk (FirstChoice (Some listMessage))
    | S _ => NetworkError
    end.

(** Tool calls with arguments that do not parse, and without a call id. *)
Definition garbledCall : ToolCallRequest :=
  {| call_id := Some "call_9"; function_name := "getAccountList";
     function_arguments := "oops" |}.

Definition garbledMessage : AssistantMessage :=
  {| content := None; tool_calls := Some [garbledCall] |}.

Definition garbledReply : Provider := fun _ _ => HttpOk (FirstChoice (Some garbledMessage)).

Definition legacyCall : ToolCallRequest :=
  {| call_id := None; function_name := "getAccountList"; function_arguments := "{}" |}.

Definition legacyMessage : AssistantMessage :=
  {| content := None; tool_calls := Some [legacyCall] |}.

Definition legacyReply : Provider := fun _ _ => HttpOk (FirstChoice (Some legacyMessage)).

(** What [getAccountList] returns on the sample page, and the browser
    after [invokeTool] ran it. *)
Definition sampleListResult : JSValue :=
  JObj [ ("success", JBool true);
         ("accounts", JArr (map account_to_js (Object_values initialAccountData))) ].

Definition sampleBrowserAfterList : Browser :=
  {| page := sampleWorld; executed := [("getAccountList", JObj [])] |}.

Definition mockConfig : Config := {| llm := llm defaultConfig; enableMockMode := true |}.

Definition noKeyConfig : Config :=
  {| llm := {| provider := "openai"; apiKey := ""; baseUrl := baseUrl (llm defaultConfig);
               model := model (llm defaultConfig); maxTokens := 1500; temperature := 0.1 |};
     enableMockMode := false |}.

Definition anthropicConfig : Config :=
  {| llm := {| provider := "anthropic"; apiKey := "sk-ant"; baseUrl := baseUrl (llm defaultConfig);
               model := "claude-3-sonnet"; maxTokens := 1500; temperature := 0.1 |};
     enableMockMode := false |}.

(** The page with [text] typed into the prompt input, and the idle chat
    form on a page. *)
Definition typed (text : string) (w : World) : World :=
  set_document (alter (set_value text) "ai-user-prompt") w.

Definition chat_on (w : World) : ChatClient :=
  {| isProcessing := false;
     client := {| browser := {| page := w; executed := [] |};
                  conversationHistory := []; fetched := [] |} |}.

Definition sampleChat : ChatClient := chat_on (typed "  Hi there " sampleWorld).

(** A page that has no elements at all, and one that has the prompt input
    and the send button but no chat history. *)
Definition bareWorld : World :=
  {| mockAccountData := initialAccountData; document := ∅; appCalls := [] |}.

Definition chatlessWorld : World :=
  {| mockAccountData := initialAccountData;
     document := list_to_map [ ("ai-user-prompt", set_value "Hi" blankElement);
                               ("ai-send-btn", sendButton) ];
     appCalls := [] |}.

Definition bareChat : ChatClient := chat_on chatlessWorld.

Definition transferArgs (amount : JSValue) : list (string * JSValue) :=
  [ ("fromAccount", JStr "Brokerage"); ("toAccount", JStr "roth"); ("amount", amount) ].

(** * Properties *)

(** ** Strings *)

Lemma prefix_append (sub s : string) :
  String.prefix sub s = true <-> exists post, s = sub +:+ post.
Proof.
  revert s. induction sub as [|c sub IH]; intros s.
  - split; [intros _; exists s; reflexivity | intros _; now destruct s].
  - destruct s as [|d s]; simpl.
    + split; [discriminate | intros [post Hp]; discriminate].
    + destruct (ascii_dec c d) as [->|Hne].
      * rewrite IH. split; intros [post Hp]; exists post.
        -- now rewrite Hp.
        -- now injection Hp.
      * split; [discriminate | intros [post Hp]; injection Hp; congruence].
Qed.

Lemma append_nil_inv (a b : string) : EmptyString = a +:+ b -> a = EmptyString /\ b = EmptyString.
Proof. destruct a; simpl; [auto | discriminate]. Qed.

(** [includes] decides the substring relation. *)
Lemma includes_spec (s sub : string) :
  includes s sub = true <-> IsSubstring sub s.
Proof.
  unfold IsSubstring. induction s as [|c s IH]; cbn [includes].
  - rewrite orb_false_r, prefix_append. split.
    + intros [post Hp]. exists EmptyString, post. exact Hp.
    + intros (pre & post & Hp). apply append_nil_inv in Hp as [-> Hp].
      exists post. now symmetry.
  - rewrite orb_true_iff, prefix_append, IH. split.
    + intros [[post Hp] | (pre & post & Hp)].
      * exists EmptyString, post. exact Hp.
      * exists (String c pre), post. simpl. now rewrite Hp.
    + intros (pre & post & Hp). destruct pre as [|d pre]; simpl in Hp.
      * left. exists post. exact Hp.
      * right. exists pre, post. now injection Hp.
Qed.

Lemma includes_false (s sub : string) :
  includes s sub = false <-> ~ IsSubstring sub s.
Proof.
  rewrite <- includes_spec. destruct (includes s sub); split; congruence.
Qed.

(** ** The map *)

Lemma assoc_eqb_refl {V : Type} (k : string) (v : V) (l : list (string * V)) :
  assoc k ((k, v) :: l) = Some v.
Proof. simpl. now rewrite String.eqb_refl. Qed.

Lemma get_set_eq {V : Type} (k : string) (v : V) (m : JSMap.t V) :
  JSMap.get k (JSMap.set k v m) = Some v.
Proof.
  unfold JSMap.get. induction m as [|[k' v'] m IH]; simpl.
  - now rewrite String.eqb_refl.
  - destruct (String.eqb k k') eqn:E; simpl.
    + now rewrite String.eqb_refl.
    + now rewrite E.
Qed.

Lemma get_set_ne {V : Type} (k k' : string) (v : V) (m : JSMap.t V) :
  k <> k' -> JSMap.get k' (JSMap.set k v m) = JSMap.get k' m.
Proof.
  intros Hne. unfold JSMap.get. induction m as [|[k0 v0] m IH]; simpl.
  - apply String.eqb_neq in Hne. rewrite String.eqb_sym in Hne. now rewrite Hne.
  - destruct (String.eqb k k0) eqn:E; simpl.
    + apply String.eqb_eq in E. subst k0.
      apply String.eqb_neq in Hne. rewrite String.eqb_sym in Hne. now rewrite Hne.
    + now rewrite IH.
Qed.

Lemma get_set {V : Type} (k k' : string) (v : V) (m : JSMap.t V) :
  JSMap.get k' (JSMap.set k v m) = if String.eqb k k' then Some v else JSMap.get k' m.
Proof.
  destruct (String.eqb k k') eqn:E.
  - apply String.eqb_eq in E. subst. apply get_set_eq.
  - apply String.eqb_neq in E. now apply get_set_ne.
Qed.

Lemma has_get {V : Type} (k : string) (m : JSMap.t V) :
  JSMap.has k m = true <-> exists v, JSMap.get k m = Some v.
Proof.
  unfold JSMap.has. destruct (JSMap.get k m) as [v|].
  - split; eauto.
  - split; [discriminate | intros [v Hv]; discriminate].
Qed.

Lemma has_false_get {V : Type} (k : string) (m : JSMap.t V) :
  JSMap.has k m = false <-> JSMap.get k m = None.
Proof.
  unfold JSMap.has. destruct (JSMap.get k m); split; congruence.
Qed.

(** ** Registration *)

Lemma get_set_all (batch : list Tool) (m : Registry) (n : string) :
  JSMap.get n (fold_left (fun m tool => JSMap.set (name tool) tool m) batch m)
  = match last_named n batch with
    | Some tool => Some tool
    | None => JSMap.get n m
    end.
Proof.
  revert m. induction batch as [|tool rest IH]; intros m; simpl.
  - reflexivity.
  - rewrite IH. destruct (last_named n rest); [reflexivity|].
    rewrite get_set. now destruct (String.eqb (name tool) n).
Qed.

Lemma provideContext_returns (batch : list Tool) (old : Registry) :
  result_of (provideContext batch old) = Returned tt.
Proof. reflexivity. Qed.

Lemma provideContext_get (batch : list Tool) (old : Registry) (n : string) :
  JSMap.get n (state_of (provideContext batch old)) = last_named n batch.
Proof.
  unfold provideContext, state_of, bind, modify, JSMap.clear. simpl.
  rewrite get_set_all. now destruct (last_named n batch).
Qed.

Lemma last_named_absent (n : string) (batch : list Tool) :
  n ∉ map name batch -> last_named n batch = None.
Proof.
  induction batch as [|tool rest IH]; simpl; [reflexivity|].
  rewrite not_elem_of_cons. intros [Hne Hn]. rewrite IH by assumption.
  destruct (String.eqb_spec (name tool) n); [congruence | reflexivity].
Qed.

Lemma last_named_unique (tool : Tool) (batch : list Tool) :
  NoDup (map name batch) -> tool ∈ batch -> last_named (name tool) batch = Some tool.
Proof.
  induction batch as [|t rest IH]; simpl.
  - intros _ Hin. now apply elem_of_nil in Hin.
  - rewrite NoDup_cons, elem_of_cons. intros [Hfresh Hrest] [->|Hin].
    + rewrite last_named_absent by assumption. now rewrite String.eqb_refl.
    + now rewrite IH.
Qed.

Lemma last_named_suffix (n : string) (pre post : list Tool) (tool : Tool) :
  name tool = n -> (forall t, t ∈ post -> name t <> n) ->
  last_named n (pre ++ tool :: post) = Some tool.
Proof.
  intros Hn Hpost. induction pre as [|t pre IH]; simpl.
  - rewrite last_named_absent.
    + subst n. now rewrite String.eqb_refl.
    + rewrite list_elem_of_In, in_map_iff. intros (t & Ht & Hin).
      apply list_elem_of_In in Hin. exact (Hpost t Hin Ht).
  - now rewrite IH.
Qed.

(** C5: after [provideContext] is called with a batch of tools with unique
    names, each name of the batch resolves to exactly the tool registered
    under it, and every name registered by an earlier batch that is absent
    from the new batch no longer resolves: registration replaces the whole
    active set. *)
Theorem provideContext_replaces (older : Registry) (earlier batch : list Tool) :
  NoDup (map name batch) ->
  let tools := state_of (provideContext batch (state_of (provideContext earlier older))) in
  (forall tool, tool ∈ batch -> JSMap.get (name tool) tools = Some tool) /\
  (forall tool, tool ∈ earlier -> name tool ∉ map name batch ->
                JSMap.get (name tool) tools = None) /\
  (forall n, n ∉ map name batch -> JSMap.has n tools = false).
Proof.
  intros Hnd tools. subst tools. repeat split.
  - intros tool Hin. rewrite provideContext_get. now apply last_named_unique.
  - intros tool _ Hout. rewrite provideContext_get. now apply last_named_absent.
  - intros n Hout. apply has_false_get. rewrite provideContext_get.
    now apply last_named_absent.
Qed.

(** On the registry of the page: registering [pingFirst; brokenTool]
    makes ["ping"] resolve to [pingFirst] and [getAccountList] unknown. *)
Lemma provideContext_replaces_witness :
  JSMap.get "ping" (state_of (provideContext [pingFirst; brokenTool] sampleRegistry))
  = Some pingFirst
  /\ JSMap.get "getAccountList" (state_of (provideContext [pingFirst; brokenTool] sampleRegistry))
     = None.
Proof.
  destruct (provideContext_replaces JSMap.empty (@fidelityTools samplePlatform)
              [pingFirst; brokenTool]) as (Hin & Hout & _).
  - apply (bool_decide_unpack _). vm_compute. exact I.
  - split.
    + apply (Hin pingFirst). apply elem_of_cons. now left.
    + apply (Hout getAccountList).
      * apply elem_of_cons. now left.
      * apply (bool_decide_unpack _). vm_compute. exact I.
Defined.

(** C9, as the code has it: a batch in which two tools share a name is
    registered without any error being reported; [provideContext] returns
    normally and the name resolves to the later tool, which has silently
    replaced the earlier one. *)
Theorem provideContext_duplicate_overwrites
    (old : Registry) (pre mid post : list Tool) (first second : Tool) :
  name first = name second ->
  (forall t, t ∈ post -> name t <> name second) ->
  let batch := pre ++ first :: mid ++ second :: post in
  result_of (provideContext batch old) = Returned tt /\
  ~ reports_error (provideContext batch old) /\
  JSMap.get (name first) (state_of (provideContext batch old)) = Some second.
Proof.
  intros Hname Hpost batch. split; [reflexivity|]. split.
  - intros [e He]. discriminate He.
  - rewrite provideContext_get, Hname. subst batch.
    replace (pre ++ first :: mid ++ second :: post)
      with ((pre ++ first :: mid) ++ second :: post)
      by (rewrite <- app_assoc; reflexivity).
    now apply last_named_suffix.
Qed.

(** Registering [pingFirst; pingSecond] returns normally and leaves
    ["ping"] bound to [pingSecond]. *)
Lemma provideContext_duplicate_overwrites_witness :
  result_of (provideContext [pingFirst; pingSecond] sampleRegistry) = Returned tt
  /\ JSMap.get "ping" (state_of (provideContext [pingFirst; pingSecond] sampleRegistry))
     = Some pingSecond.
Proof.
  destruct (provideContext_duplicate_overwrites sampleRegistry [] [] [] pingFirst pingSecond)
    as (Hret & _ & Hget).
  - reflexivity.
  - intros t Hin. now apply elem_of_nil in Hin.
  - split; [exact Hret | exact Hget].
Defined.

(** C9, as stated, fails: the batch [pingFirst; pingSecond] repeats the
    name ["ping"], yet no error is reported and the second tool has taken
    the place of the first. *)
Lemma provideContext_duplicate_not_reported :
  ~ NoDup (map name [pingFirst; pingSecond])
  /\ ~ reports_error (provideContext [pingFirst; pingSecond] JSMap.empty)
  /\ JSMap.get "ping" (state_of (provideContext [pingFirst; pingSecond] JSMap.empty))
     = Some pingSecond
  /\ pingSecond <> pingFirst.
Proof.
  split; [|split; [|split]].
  - simpl. rewrite NoDup_cons. intros [Hfresh _]. apply Hfresh. apply elem_of_cons. now left.
  - intros [e He]. discriminate He.
  - reflexivity.
  - intros Heq. apply (f_equal description) in Heq. discriminate Heq.
Qed.

(** ** Tool invocation *)

Lemma invokeTool_total (tools : Registry) (toolName : string) (parameters : JSValue)
    (b : Browser) :
  exists result, result_of (invokeTool tools toolName parameters b) = Returned result.
Proof.
  unfold invokeTool, result_of, try_catch, bind, log_execute, modify, lift_page.
  destruct (JSMap.get toolName tools) as [tool|]; simpl; [|eauto].
  destruct (execute tool parameters (page b)) as [[result|e] w]; simpl; eauto.
Qed.

(** C3: for a tool name that is not in the registry, [invokeTool] invokes
    no executor (the browser state, with its log of executor invocations,
    is unchanged) and returns a [{success: false}] result, so the failure
    comes back as a result and is neither raised nor dropped. *)
Theorem invokeTool_unknown_tool (tools : Registry) (toolName : string)
    (parameters : JSValue) (b : Browser) :
  JSMap.has toolName tools = false ->
  result_of (invokeTool tools toolName parameters b) = Returned unknown_action /\
  is_failure unknown_action /\
  executed (state_of (invokeTool tools toolName parameters b)) = executed b /\
  state_of (invokeTool tools toolName parameters b) = b.
Proof.
  intros Habsent. apply has_false_get in Habsent.
  unfold invokeTool. rewrite Habsent. repeat split.
  exists [("success", JBool false); ("message", JStr "Unknown action.")]. now split.
Qed.

(** ["closeAccount"] is not a tool of the page. *)
Lemma invokeTool_unknown_tool_witness :
  result_of (invokeTool sampleRegistry "closeAccount" (JObj []) sampleBrowser)
  = Returned (JObj [("success", JBool false); ("message", JStr "Unknown action.")])
  /\ state_of (invokeTool sampleRegistry "closeAccount" (JObj []) sampleBrowser) = sampleBrowser.
Proof.
  destruct (invokeTool_unknown_tool sampleRegistry "closeAccount" (JObj []) sampleBrowser)
    as (Hres & _ & _ & Hst).
  - reflexivity.
  - split; [exact Hres | exact Hst].
Defined.

(** C4: when the executor of a registered tool raises, [invokeTool] catches
    the exception at the call and returns a [{success: false}] result; the
    exception does not reach the caller. *)
Theorem invokeTool_catches (tools : Registry) (toolName : string) (tool : Tool)
    (parameters : JSValue) (b : Browser) (e : Exn) (w' : World) :
  JSMap.get toolName tools = Some tool ->
  execute tool parameters (page b) = (Thrown e, w') ->
  result_of (invokeTool tools toolName parameters b) = Returned internal_error /\
  is_failure internal_error /\
  ~ reports_error (invokeTool tools toolName parameters b) /\
  state_of (invokeTool tools toolName parameters b)
  = {| page := w'; executed := executed b ++ [(toolName, parameters)] |}.
Proof.
  intros Hget Hthrows.
  assert (Hrun : invokeTool tools toolName parameters b
                 = (Returned internal_error,
                    {| page := w'; executed := executed b ++ [(toolName, parameters)] |})).
  { unfold invokeTool, try_catch, bind, log_execute, modify, lift_page.
    rewrite Hget. simpl. now rewrite Hthrows. }
  rewrite Hrun. repeat split.
  - exists [("success", JBool false); ("message", JStr "An internal error occurred.")].
    now split.
  - intros [e' He']. discriminate He'.
Qed.

(** [brokenTool] raises, and [invokeTool] answers with the internal-error
    result. *)
Lemma invokeTool_catches_witness :
  result_of (invokeTool (JSMap.set "broken" brokenTool sampleRegistry) "broken" JNull
               sampleBrowser)
  = Returned (JObj [("success", JBool false); ("message", JStr "An internal error occurred.")]).
Proof.
  destruct (invokeTool_catches (JSMap.set "broken" brokenTool sampleRegistry) "broken"
              brokenTool JNull sampleBrowser (Error "boom") sampleWorld) as (Hres & _).
  - reflexivity.
  - reflexivity.
  - exact Hres.
Defined.

(** ** Account lookup *)

Lemma name_matches_spec `{Platform} (lower : string) (acc : Account) :
  name_matches lower acc = true <-> IsSubstring lower (toLowerCase (acc_name acc)).
Proof. apply includes_spec. Qed.

Lemma find_first {A : Type} (f : A -> bool) (pre post : list A) (x : A) :
  f x = true -> (forall y, y ∈ pre -> f y = false) -> find f (pre ++ x :: post) = Some x.
Proof.
  intros Hx Hpre. induction pre as [|y pre IH]; simpl.
  - now rewrite Hx.
  - rewrite (Hpre y) by (apply elem_of_cons; now left).
    apply IH. intros z Hz. apply Hpre. apply elem_of_cons. now right.
Qed.

Lemma find_nothing {A : Type} (f : A -> bool) (l : list A) :
  (forall y, y ∈ l -> f y = false) -> find f l = None.
Proof.
  intros Hl. induction l as [|y l IH]; simpl; [reflexivity|].
  rewrite (Hl y) by (apply elem_of_cons; now left).
  apply IH. intros z Hz. apply Hl. apply elem_of_cons. now right.
Qed.

(** The first account, in table order, whose lower-cased name contains
    [lower]. *)
Lemma find_account_first `{Platform} (lower : string) (w : World) (pre post : list Account)
    (acc : Account) :
  Object_values (mockAccountData w) = pre ++ acc :: post ->
  IsSubstring lower (toLowerCase (acc_name acc)) ->
  (forall other, other ∈ pre -> ~ IsSubstring lower (toLowerCase (acc_name other))) ->
  find_account lower w = Some acc.
Proof.
  intros Htable Hacc Hpre. unfold find_account. rewrite Htable.
  apply find_first.
  - now apply name_matches_spec.
  - intros other Hin. apply includes_false. now apply Hpre.
Qed.

Lemma find_account_none `{Platform} (lower : string) (w : World) :
  (forall acc, acc ∈ Object_values (mockAccountData w) ->
               ~ IsSubstring lower (toLowerCase (acc_name acc))) ->
  find_account lower w = None.
Proof.
  intros Hnone. unfold find_account. apply find_nothing.
  intros acc Hin. apply includes_false. now apply Hnone.
Qed.

Lemma find_account_found `{Platform} (lower : string) (w : World) (acc : Account) :
  find_account lower w = Some acc ->
  acc ∈ Object_values (mockAccountData w)
  /\ IsSubstring lower (toLowerCase (acc_name acc)).
Proof.
  unfold find_account. intros Hfind. apply find_some in Hfind as [Hin Hm].
  split; [now apply list_elem_of_In | now apply name_matches_spec].
Qed.

(** No key of the page's table is an array index, so its values come in
    the order in which the table is written. *)
Lemma Object_values_initial :
  Object_values initialAccountData = map snd initialAccountData.
Proof. reflexivity. Qed.

(** On the table of the page, and for an ASCII identifier, the lookup
    can be computed: the platform's [toLowerCase] is then the ASCII fold. *)
Lemma find_account_initial `{Platform} (id : string) (w : World) :
  is_ascii id = true ->
  mockAccountData w = initialAccountData ->
  find_account (toLowerCase id) w
  = find (fun acc => includes (ascii_toLowerCase (acc_name acc)) (ascii_toLowerCase id))
      (Object_values initialAccountData).
Proof.
  intros Hid Htable. unfold find_account, name_matches.
  rewrite Htable, (toLowerCase_on_ascii id Hid), Object_values_initial.
  unfold initialAccountData. cbn [map snd find acc_name].
  rewrite !toLowerCase_on_ascii by reflexivity. reflexivity.
Qed.

Section Executors.

Context `{Platform}.

Lemma highlightAccount_returns (accountId : string) (w : World) :
  result_of (highlightAccount accountId w) = Returned tt.
Proof. reflexivity. Qed.

Lemma getAccountBalance_found (props : list (string * JSValue)) (id : string)
    (w : World) (acc : Account) :
  assoc "accountIdentifier" props = Some (JStr id) ->
  find_account (toLowerCase id) w = Some acc ->
  result_of (getAccountBalance_execute (JObj props) w)
  = Returned (JObj [ ("success", JBool true); ("accountName", JStr (acc_name acc));
                     ("balance", JNum (acc_balance acc)) ]).
Proof.
  intros Hid Hfind.
  unfold getAccountBalance_execute, result_of, bind, get_prop, ret, js_toLowerCase, get_state.
  rewrite Hid. simpl. rewrite Hfind. reflexivity.
Qed.

Lemma getAccountBalance_missing (props : list (string * JSValue)) (id : string) (w : World) :
  assoc "accountIdentifier" props = Some (JStr id) ->
  find_account (toLowerCase id) w = None ->
  getAccountBalance_execute (JObj props) w
  = (Returned (JObj [ ("success", JBool false);
                      ("message", JStr ("Account '" +:+ id +:+ "' not found.")) ]), w).
Proof.
  intros Hid Hfind.
  unfold getAccountBalance_execute, bind, get_prop, ret, js_toLowerCase, get_state.
  rewrite Hid. simpl. rewrite Hfind. reflexivity.
Qed.

(** C7: for an [accountIdentifier] string whose lower-case form occurs in
    the lower-cased name of some account, [getAccountBalance] returns
    [{success: true, accountName, balance}] of the first such account in
    table order; for ["Roth IRA"] on the table of the page that is
    [{success: true, accountName: "Roth IRA", balance: 89500.75}]; when no
    account name contains the identifier, it returns [{success: false}] with
    a not-found message. *)
Theorem getAccountBalance_lookup (props : list (string * JSValue)) (id : string) (w : World) :
  assoc "accountIdentifier" props = Some (JStr id) ->
  (forall pre acc post,
     Object_values (mockAccountData w) = pre ++ acc :: post ->
     IsSubstring (toLowerCase id) (toLowerCase (acc_name acc)) ->
     (forall other, other ∈ pre ->
        ~ IsSubstring (toLowerCase id) (toLowerCase (acc_name other))) ->
     result_of (getAccountBalance_execute (JObj props) w)
     = Returned (JObj [ ("success", JBool true); ("accountName", JStr (acc_name acc));
                        ("balance", JNum (acc_balance acc)) ]))
  /\ (mockAccountData w = initialAccountData -> id = "Roth IRA" ->
      result_of (getAccountBalance_execute (JObj props) w)
      = Returned (JObj [ ("success", JBool true); ("accountName", JStr "Roth IRA");
                         ("balance", JNum 89500.75) ]))
  /\ ((forall acc, acc ∈ Object_values (mockAccountData w) ->
         ~ IsSubstring (toLowerCase id) (toLowerCase (acc_name acc))) ->
      result_of (getAccountBalance_execute (JObj props) w)
      = Returned (JObj [ ("success", JBool false);
                         ("message", JStr ("Account '" +:+ id +:+ "' not found.")) ])
      /\ state_of (getAccountBalance_execute (JObj props) w) = w).
Proof.
  intros Hid. split; [|split].
  - intros pre acc post Htable Hacc Hpre.
    apply (getAccountBalance_found props id w acc Hid).
    now apply (find_account_first _ _ pre post).
  - intros Htable ->.
    rewrite (getAccountBalance_found props "Roth IRA" w
               {| acc_id := "acc_roth_456"; acc_name := "Roth IRA";
                  acc_balance := 89500.75; acc_type := "retirement" |});
      [reflexivity | assumption |].
    now rewrite (find_account_initial "Roth IRA" w eq_refl Htable).
  - intros Hnone.
    rewrite (getAccountBalance_missing props id w); [now split | assumption |].
    now apply find_account_none.
Qed.

End Executors.

(** ** Staging a transfer *)

Lemma alter_present (f : Element -> Element) (i j : string) (doc : gmap string Element) :
  is_Some (alter f i doc !! j) <-> is_Some (doc !! j).
Proof.
  rewrite lookup_alter. case_decide; [subst; apply fmap_is_Some | reflexivity].
Qed.

Section Transfer.

Context `{Platform}.

(** ToString returns the text or raises [TypeError]; it does not touch
    the state. *)
Lemma ToString_cases {S : Type} (v : JSValue) (s : S) :
  (exists text, js_ToString v = Some text /\ ToString v s = (Returned text, s))
  \/ (js_ToString v = None /\ ToString v s = (Thrown TypeError, s)).
Proof. unfold ToString. destruct (js_ToString v); eauto. Qed.

(** What one call of [showTransferModal] does to the page: it is logged,
    the account table is untouched, no element appears or disappears, and
    it raises only when the amount field exists and [amount] is not a
    number. *)
Lemma showTransferModal_run (from to : string) (amount : JSValue) (w : World) :
  exists doc',
    showTransferModal from to amount w
    = (match document w !! "amount", amount with
       | Some _, JNum _ => Returned tt
       | Some _, _ => Thrown TypeError
       | None, _ => Returned tt
       end,
       {| mockAccountData := mockAccountData w;
          document := doc';
          appCalls := appCalls w ++ [CallShowTransferModal from to amount] |})
    /\ forall id, is_Some (doc' !! id) <-> is_Some (document w !! id).
Proof.
  unfold showTransferModal, bind, log_call, when_present, modify, get_state, set_document,
    js_toFixed, ret, throw.
  simpl. destruct (document w !! "amount") as [el|] eqn:Hamount.
  - destruct amount; simpl; eexists; (split; [reflexivity|]);
      intros id; repeat first [rewrite alter_present | progress simpl]; reflexivity.
  - eexists; split; [reflexivity|].
    intros id. repeat first [rewrite alter_present | progress simpl]. reflexivity.
Qed.

(** With two strings for the accounts, the executor first prints its
    arguments, which raises when the amount cannot be printed, then
    resolves the accounts, and stages the transfer or reports which account
    it did not find. *)
Lemma initiateFundTransfer_strings (props : list (string * JSValue)) (from to : string)
    (w : World) :
  assoc "fromAccount" props = Some (JStr from) ->
  assoc "toAccount" props = Some (JStr to) ->
  initiateFundTransfer_execute (JObj props) w
  = match js_ToString (default JUndefined (assoc "amount" props)) with
    | None => (Thrown TypeError, w)
    | Some _ =>
        match find_account (toLowerCase from) w, find_account (toLowerCase to) w with
        | Some source, Some destination =>
            (do! showTransferModal (acc_id source) (acc_id destination)
                   (default JUndefined (assoc "amount" props)) in
             ret (JObj [ ("success", JBool true);
                         ("message", JStr "I've prepared the transfer for you. Please review and click 'Submit' to complete it.") ]))
              w
        | _, _ =>
            (Returned (JObj [ ("success", JBool false);
                              ("message", JStr (not_found_message from to w)) ]), w)
        end
    end.
Proof.
  intros Hfrom Hto.
  unfold initiateFundTransfer_execute, not_found_message, ToString, bind, get_prop,
    js_toLowerCase, get_state, ret, throw.
  rewrite Hfrom, Hto. simpl.
  destruct (js_ToString _); [|reflexivity].
  destruct (find_account (toLowerCase from) w), (find_account (toLowerCase to) w);
    reflexivity.
Qed.

(** Every other invocation raises before it has touched anything. *)
Lemma initiateFundTransfer_cases (args : JSValue) :
  (forall w, initiateFundTransfer_execute args w = (Thrown TypeError, w))
  \/ exists props from to,
       args = JObj props
       /\ assoc "fromAccount" props = Some (JStr from)
       /\ assoc "toAccount" props = Some (JStr to).
Proof.
  destruct args as [| | | | |items|props]; try (left; reflexivity).
  destruct (assoc "fromAccount" props) as [fromAccount|] eqn:Hfrom;
    [destruct fromAccount as [| | | |from| |]|];
    (destruct (assoc "toAccount" props) as [toAccount|] eqn:Hto;
     [destruct toAccount as [| | | |to| |]|]);
    try (right; eauto 6; fail);
    left; intros w;
    unfold initiateFundTransfer_execute, bind, get_prop, ret;
    rewrite Hfrom, Hto; cbn -[js_ToString ToString];
    repeat (match goal with
            | |- context [ToString ?v ?s] =>
                destruct (ToString_cases v s) as [(? & _ & ->) | [_ ->]]
            end; cbn -[js_ToString ToString]);
    reflexivity.
Qed.

(** The shape of every run of the executor: the account table is kept, the
    elements present are the same, and at most one call, of
    [showTransferModal], is added to the call log. *)
Lemma initiateFundTransfer_run (args : JSValue) (w : World) :
  exists doc' staged,
    state_of (initiateFundTransfer_execute args w)
    = {| mockAccountData := mockAccountData w;
         document := doc';
         appCalls := appCalls w ++ staged |}
    /\ (forall id, is_Some (doc' !! id) <-> is_Some (document w !! id))
    /\ (staged = [] \/ exists from to amount, staged = [CallShowTransferModal from to amount]).
Proof.
  assert (Hsame : exists doc' staged,
            w = {| mockAccountData := mockAccountData w; document := doc';
                   appCalls := appCalls w ++ staged |}
            /\ (forall id, is_Some (doc' !! id) <-> is_Some (document w !! id))
            /\ (staged = [] \/ exists from to amount, staged = [CallShowTransferModal from to amount])).
  { exists (document w), []. rewrite app_nil_r. destruct w; simpl. repeat split; tauto. }
  destruct (initiateFundTransfer_cases args)
    as [Hraise | (props & from & to & -> & Hfrom & Hto)]; [now rewrite Hraise|].
  rewrite (initiateFundTransfer_strings props from to w Hfrom Hto).
  destruct (js_ToString _); [|exact Hsame].
  destruct (find_account (toLowerCase from) w) as [fromAcc|];
    [|destruct (find_account (toLowerCase to) w); exact Hsame].
  destruct (find_account (toLowerCase to) w) as [toAcc|]; [|exact Hsame].
  destruct (showTransferModal_run (acc_id fromAcc) (acc_id toAcc)
              (default JUndefined (assoc "amount" props)) w) as (doc' & Hrun & Hdoc).
  unfold bind. rewrite Hrun.
  exists doc', [CallShowTransferModal (acc_id fromAcc) (acc_id toAcc)
                  (default JUndefined (assoc "amount" props))].
  destruct (document w !! "amount"); [destruct (default JUndefined _)|]; simpl; eauto 8.
Qed.

(** The result of a run depends on the page only through the account table
    and the presence of the amount field, and so do the calls it logs. *)
Lemma initiateFundTransfer_same (args : JSValue) (w1 w2 : World) :
  mockAccountData w1 = mockAccountData w2 ->
  (is_Some (document w1 !! "amount") <-> is_Some (document w2 !! "amount")) ->
  result_of (initiateFundTransfer_execute args w1)
  = result_of (initiateFundTransfer_execute args w2)
  /\ exists staged,
       appCalls (state_of (initiateFundTransfer_execute args w1)) = appCalls w1 ++ staged
       /\ appCalls (state_of (initiateFundTransfer_execute args w2)) = appCalls w2 ++ staged.
Proof.
  intros Htable Hamount.
  assert (Hsame : forall (o : Outcome JSValue),
            result_of (o, w1) = result_of (o, w2)
            /\ exists staged, appCalls (state_of (o, w1)) = appCalls w1 ++ staged
                              /\ appCalls (state_of (o, w2)) = appCalls w2 ++ staged).
  { intros o. split; [reflexivity|]. exists []. now rewrite !app_nil_r. }
  assert (Hfind : forall lower, find_account lower w1 = find_account lower w2).
  { intros lower. unfold find_account. now rewrite Htable. }
  destruct (initiateFundTransfer_cases args)
    as [Hraise | (props & from & to & -> & Hfrom & Hto)].
  { rewrite !Hraise. apply Hsame. }
  rewrite (initiateFundTransfer_strings props from to w1 Hfrom Hto),
    (initiateFundTransfer_strings props from to w2 Hfrom Hto).
  unfold not_found_message. rewrite !Hfind.
  destruct (js_ToString _); [|apply Hsame].
  destruct (find_account _ w2) as [fromAcc|]; [|destruct (find_account _ w2); apply Hsame].
  destruct (find_account _ w2) as [toAcc|]; [|apply Hsame].
  destruct (showTransferModal_run (acc_id fromAcc) (acc_id toAcc)
              (default JUndefined (assoc "amount" props)) w1) as (doc1 & Hrun1 & _).
  destruct (showTransferModal_run (acc_id fromAcc) (acc_id toAcc)
              (default JUndefined (assoc "amount" props)) w2) as (doc2 & Hrun2 & _).
  unfold bind. rewrite Hrun1, Hrun2.
  assert (Hcase : (document w1 !! "amount" = None /\ document w2 !! "amount" = None)
                  \/ (exists e1 e2, document w1 !! "amount" = Some e1
                                    /\ document w2 !! "amount" = Some e2)).
  { destruct (document w1 !! "amount") as [e1|], (document w2 !! "amount") as [e2|]; eauto.
    - destruct Hamount as [Hto' _]. destruct Hto' as [e He]; [eauto | discriminate].
    - destruct Hamount as [_ Hfrom']. destruct Hfrom' as [e He]; [eauto | discriminate]. }
  destruct Hcase as [[-> ->] | (e1 & e2 & -> & ->)].
  - simpl. split; [reflexivity|]. eexists. split; reflexivity.
  - destruct (default JUndefined (assoc "amount" props)); simpl;
      (split; [reflexivity|]); eexists; split; reflexivity.
Qed.

(** C1: an invocation of the [initiateFundTransfer] executor leaves the
    account table, and with it every balance, as it was, and so does a
    second invocation with the same arguments; the executor only resolves
    the two accounts and calls the staging function [showTransferModal] (at
    most one logged call, and no other), and the second invocation returns
    what the first returned and stages the same proposal again. *)
Theorem initiateFundTransfer_stages_only (args : JSValue) (w : World) :
  let first := initiateFundTransfer_execute args w in
  let second := initiateFundTransfer_execute args (state_of first) in
  mockAccountData (state_of first) = mockAccountData w
  /\ mockAccountData (state_of second) = mockAccountData w
  /\ result_of second = result_of first
  /\ exists staged,
       (staged = [] \/ exists from to amount, staged = [CallShowTransferModal from to amount])
       /\ appCalls (state_of first) = appCalls w ++ staged
       /\ appCalls (state_of second) = appCalls (state_of first) ++ staged.
Proof.
  intros first second. subst first second.
  destruct (initiateFundTransfer_run args w) as (doc1 & staged & Hst1 & Hdoc1 & Hstaged).
  destruct (initiateFundTransfer_run args (state_of (initiateFundTransfer_execute args w)))
    as (doc2 & staged2 & Hst2 & _ & _).
  destruct (initiateFundTransfer_same args (state_of (initiateFundTransfer_execute args w)) w)
    as (Hres & staged' & Hcalls2 & Hcalls1).
  { now rewrite Hst1. }
  { rewrite Hst1. simpl. apply Hdoc1. }
  assert (staged' = staged) as ->.
  { rewrite Hst1 in Hcalls1. simpl in Hcalls1. now apply app_inv_head in Hcalls1. }
  split; [now rewrite Hst1|]. split; [rewrite Hst2; now rewrite Hst1|].
  split; [exact Hres|]. exists staged. repeat split; assumption.
Qed.

(** The confirm and cancel handlers of the transfer form do not write the
    account table either: in this page nothing commits a transfer. *)
Lemma transfer_click_keeps_accounts (w : World) :
  mockAccountData (state_of (submit_transfer_click w)) = mockAccountData w
  /\ mockAccountData (state_of (cancel_transfer_click w)) = mockAccountData w.
Proof.
  unfold submit_transfer_click, cancel_transfer_click, displayAgentMessage, hideTransferModal,
    must_update, state_of, bind, log_call, modify, get_state, set_document, throw.
  simpl. split.
  - destruct (document w !! "ai-chat-history"); simpl; [|reflexivity].
    repeat (match goal with |- context [match ?m !! ?k with _ => _ end] =>
                              destruct (m !! k); simpl end); reflexivity.
  - destruct (document w !! "ai-chat-history"); simpl; [|reflexivity].
    repeat (match goal with |- context [match ?m !! ?k with _ => _ end] =>
                              destruct (m !! k); simpl end); reflexivity.
Qed.

End Transfer.

Section TransferNotFound.

Context `{Platform}.

(** C8, as the code has it: when the fuzzy match fails for the source
    account, the destination account, or both, [showTransferModal] is not
    called and the page is left as it was.  The executor, which begins by
    printing its three arguments, returns [{success: false, message}] when
    the amount can be printed: the message starts with
    ["Account(s) not found."] and goes on to name both requested accounts,
    each marked as found or not.  When the amount cannot be printed, the
    executor raises before it has looked up any account. *)
Theorem initiateFundTransfer_not_found (props : list (string * JSValue))
    (from to : string) (w : World) :
  assoc "fromAccount" props = Some (JStr from) ->
  assoc "toAccount" props = Some (JStr to) ->
  no_match from w \/ no_match to w ->
  let run := initiateFundTransfer_execute (JObj props) w in
  (forall shown,
     js_ToString (default JUndefined (assoc "amount" props)) = Some shown ->
     result_of run
     = Returned (JObj [ ("success", JBool false);
                        ("message", JStr (not_found_message from to w)) ]))
  /\ (js_ToString (default JUndefined (assoc "amount" props)) = None ->
      result_of run = Thrown TypeError)
  /\ String.prefix "Account(s) not found." (not_found_message from to w) = true
  /\ appCalls (state_of run) = appCalls w
  /\ state_of run = w.
Proof.
  intros Hfrom Hto Hfail run. subst run.
  assert (Hnone : find_account (toLowerCase from) w = None
                  \/ find_account (toLowerCase to) w = None).
  { destruct Hfail as [Hf | Ht]; [left | right]; now apply find_account_none. }
  rewrite (initiateFundTransfer_strings props from to w Hfrom Hto).
  destruct (js_ToString (default JUndefined (assoc "amount" props))) as [shown|].
  - assert (Hrun : match find_account (toLowerCase from) w,
                         find_account (toLowerCase to) w with
                   | Some source, Some destination =>
                       (do! showTransferModal (acc_id source) (acc_id destination)
                              (default JUndefined (assoc "amount" props)) in
                        ret (JObj [ ("success", JBool true);
                                    ("message", JStr "I've prepared the transfer for you. Please review and click 'Submit' to complete it.") ]))
                         w
                   | _, _ =>
                       (Returned (JObj [ ("success", JBool false);
                                         ("message", JStr (not_found_message from to w)) ]), w)
                   end
                   = (Returned (JObj [ ("success", JBool false);
                                       ("message", JStr (not_found_message from to w)) ]), w)).
    { destruct (find_account (toLowerCase from) w) as [fromAcc|],
               (find_account (toLowerCase to) w) as [toAcc|]; try reflexivity.
      destruct Hnone; discriminate. }
    rewrite Hrun. split; [intros _ _; reflexivity|]. split; [discriminate|].
    split; [reflexivity|]. split; reflexivity.
  - split; [discriminate|]. split; [reflexivity|].
    split; [reflexivity|]. split; reflexivity.
Qed.

End TransferNotFound.

(** A transfer from ["Savings"], which no account name contains. *)
Lemma initiateFundTransfer_not_found_witness :
  result_of (@initiateFundTransfer_execute samplePlatform
               (JObj [ ("fromAccount", JStr "Savings"); ("toAccount", JStr "Roth IRA");
                       ("amount", JNum 1000) ]) sampleWorld)
  = Returned (JObj [ ("success", JBool false);
                     ("message", JStr "Account(s) not found. From: Savings ✗, To: Roth IRA ✓") ])
  /\ appCalls (state_of (@initiateFundTransfer_execute samplePlatform
                 (JObj [ ("fromAccount", JStr "Savings"); ("toAccount", JStr "Roth IRA");
                         ("amount", JNum 1000) ]) sampleWorld)) = [].
Proof.
  destruct (@initiateFundTransfer_not_found samplePlatform
              [ ("fromAccount", JStr "Savings"); ("toAccount", JStr "Roth IRA");
                ("amount", JNum 1000) ] "Savings" "Roth IRA" sampleWorld)
    as (Hres & _ & _ & Hcalls & _).
  - reflexivity.
  - reflexivity.
  - left. intros acc Hin. apply includes_false.
    apply list_elem_of_In in Hin. simpl in Hin.
    destruct Hin as [<-|[<-|[<-|[<-|[]]]]]; reflexivity.
  - split; [exact (Hres "0" eq_refl) | exact Hcalls].
Defined.

(** C8, as stated, fails: for a transfer from ["Savings"], which matches no
    account, the message is not the bare text ["Account(s) not found."]. *)
Lemma initiateFundTransfer_message_not_bare :
  result_of (@initiateFundTransfer_execute samplePlatform
               (JObj [ ("fromAccount", JStr "Savings"); ("toAccount", JStr "Roth IRA");
                       ("amount", JNum 1000) ]) sampleWorld)
  = Returned (JObj [ ("success", JBool false);
                     ("message", JStr "Account(s) not found. From: Savings ✗, To: Roth IRA ✓") ])
  /\ result_of (@initiateFundTransfer_execute samplePlatform
                  (JObj [ ("fromAccount", JStr "Savings"); ("toAccount", JStr "Roth IRA");
                          ("amount", JNum 1000) ]) sampleWorld)
     <> Returned (JObj [ ("success", JBool false);
                         ("message", JStr "Account(s) not found.") ]).
Proof.
  split; [reflexivity|]. intros Heq. vm_compute in Heq. discriminate Heq.
Qed.

(** ["roth"] is found in ["Roth IRA"], the second account of the table,
    and not in ["Brokerage Account"] before it. *)
Lemma getAccountBalance_lookup_witness :
  result_of (@getAccountBalance_execute samplePlatform
               (JObj [("accountIdentifier", JStr "roth")]) sampleWorld)
  = Returned (JObj [ ("success", JBool true); ("accountName", JStr "Roth IRA");
                     ("balance", JNum 89500.75) ]).
Proof.
  destruct (@getAccountBalance_lookup samplePlatform
              [("accountIdentifier", JStr "roth")] "roth" sampleWorld) as (Hfirst & _ & _).
  - reflexivity.
  - apply (Hfirst [ {| acc_id := "acc_brokerage_123"; acc_name := "Brokerage Account";
                       acc_balance := 15430.25; acc_type := "taxable" |} ]
             {| acc_id := "acc_roth_456"; acc_name := "Roth IRA";
                acc_balance := 89500.75; acc_type := "retirement" |}
             [ {| acc_id := "acc_401k_789"; acc_name := "401(k) Rollover";
                  acc_balance := 245100.40; acc_type := "retirement" |};
               {| acc_id := "acc_cash_101"; acc_name := "Cash Management";
                  acc_balance := 5200.00; acc_type := "cash" |} ]).
    + reflexivity.
    + apply includes_spec. reflexivity.
    + intros other Hin. apply includes_false.
      apply list_elem_of_In in Hin. simpl in Hin.
      destruct Hin as [<-|[]]. reflexivity.
Defined.

(** ** The gateway's decision *)

Section Decision.

Context `{Platform}.

(** C6: from a reply the gateway produces exactly one decision.  If the
    message carries one or more tool calls, the decision is built from the
    first call and the others are dropped: a function call when the
    arguments of the first call parse as JSON, an error response when they
    do not.  Otherwise the decision is the text of the message's
    content.  Whatever the provider answers, [generateResponse] resolves
    to a decision and does not raise. *)
Theorem processOpenAIResponse_decision (m : AssistantMessage) (s : Agent) :
  let run := processOpenAIResponse (FirstChoice (Some m)) s in
  (forall toolCall rest,
     tool_calls m = Some (toolCall :: rest) ->
     (forall functionArgs,
        JSON_parse (function_arguments toolCall) = Some functionArgs ->
        result_of run
        = Returned (FunctionCall (function_name toolCall) functionArgs (call_id toolCall)))
     /\ (JSON_parse (function_arguments toolCall) = None ->
         result_of run = Returned (ErrorResponse parse_error_text))
     /\ result_of run
        = result_of (processOpenAIResponse
                       (FirstChoice (Some {| content := content m;
                                             tool_calls := Some [toolCall] |})) s))
  /\ (tool_calls m = None \/ tool_calls m = Some [] ->
      result_of run = Returned (Text (content m)))
  /\ (exists decision, result_of run = Returned decision)
  /\ conversationHistory (state_of run) = conversationHistory s ++ [AssistantReply (Some m)]
  /\ (forall config remote userMessage availableTools s0,
        exists decision,
          result_of (generateResponse config remote userMessage availableTools s0)
          = Returned decision).
Proof.
  intros run. subst run.
  unfold processOpenAIResponse, result_of, state_of, bind, push_history, modify, ret.
  simpl. split; [|split; [|split; [|split]]];
    [| | | |intros config remote userMessage availableTools s0;
           unfold generateResponse, try_catch;
           match goal with
           | |- context [let (_, _) := ?run in _] => destruct run as [[d|e] s1]
           end; simpl; eauto].
  - intros toolCall rest Hcalls. rewrite Hcalls. split; [|split].
    + intros functionArgs Hparse. now rewrite Hparse.
    + intros Hparse. now rewrite Hparse.
    + now destruct (JSON_parse (function_arguments toolCall)).
  - intros [Hnone | Hempty]; [rewrite Hnone | rewrite Hempty]; reflexivity.
  - destruct (tool_calls m) as [[|toolCall rest]|]; simpl; eauto.
    destruct (JSON_parse (function_arguments toolCall)); simpl; eauto.
  - destruct (tool_calls m) as [[|toolCall rest]|]; simpl; try reflexivity.
    destruct (JSON_parse (function_arguments toolCall)); reflexivity.
Qed.

End Decision.

(** A reply with two tool calls: only the first one decides. *)
Lemma processOpenAIResponse_decision_witness :
  result_of (@processOpenAIResponse samplePlatform
               (FirstChoice (Some {| content := Some "Checking.";
                                     tool_calls := Some [ listCall;
                                       {| call_id := Some "call_2";
                                          function_name := "getAccountBalance";
                                          function_arguments := "oops" |} ] |}))
               sampleAgent)
  = Returned (FunctionCall "getAccountList" (JObj []) (Some "call_1")).
Proof.
  destruct (@processOpenAIResponse_decision samplePlatform
              {| content := Some "Checking.";
                 tool_calls := Some [ listCall;
                                      {| call_id := Some "call_2";
                                         function_name := "getAccountBalance";
                                         function_arguments := "oops" |} ] |}
              sampleAgent) as (Hcalls & _).
  destruct (Hcalls listCall
              [ {| call_id := Some "call_2"; function_name := "getAccountBalance";
                   function_arguments := "oops" |} ]) as (Hparsed & _).
  - reflexivity.
  - apply (Hparsed (JObj [])). reflexivity.
Defined.

(** ** Effects of the client's steps *)

Lemma stateless_ret {S A : Type} (a : A) : stateless (@ret S A a).
Proof. intros s. reflexivity. Qed.

Lemma stateless_throw {S A : Type} (e : Exn) : stateless (@throw S A e).
Proof. intros s. reflexivity. Qed.

Lemma stateless_bind {S A B : Type} (m : M S A) (k : A -> M S B) :
  stateless m -> (forall a, stateless (k a)) -> stateless (bind m k).
Proof.
  intros Hm Hk s. unfold bind, state_of. specialize (Hm s). unfold state_of in Hm.
  destruct (m s) as [[a|e] s1]; simpl in *; subst s1; [apply Hk | reflexivity].
Qed.

Lemma stateless_get_prop {S : Type} (v : JSValue) (k : string) : stateless (@get_prop S v k).
Proof. intros s. now destruct v. Qed.

Lemma stateless_js_toFixed `{Platform} {S : Type} (v : JSValue) (digits : nat) :
  stateless (@js_toFixed _ S v digits).
Proof. intros s. now destruct v. Qed.

Lemma stateless_getApiKey {S : Type} (config : Config) : stateless (@getApiKey S config).
Proof.
  intros s. unfold getApiKey.
  destruct (negb _); [reflexivity|]. now destruct (enableMockMode config).
Qed.

Lemma getApiKey_run (config : Config) :
  exists o : Outcome string, forall (S : Type) (s : S), @getApiKey S config s = (o, s).
Proof.
  unfold getApiKey. destruct (negb _); [eexists; reflexivity|].
  destruct (enableMockMode config); eexists; reflexivity.
Qed.

Lemma stateless_mapM {S A B : Type} (f : A -> M S B) (l : list A) :
  (forall a, stateless (f a)) -> stateless (mapM f l).
Proof.
  intros Hf. induction l as [|x l IH]; simpl.
  - apply stateless_ret.
  - apply stateless_bind; [apply Hf | intros y].
    apply stateless_bind; [apply IH | intros ys]. apply stateless_ret.
Qed.

Lemma stateless_ToString `{Platform} {S : Type} (v : JSValue) : stateless (@ToString _ S v).
Proof. intros s. unfold ToString. now destruct (js_ToString v). Qed.

Ltac stateless_step :=
  match goal with
  | |- stateless (bind _ _) => apply stateless_bind; [|intros ?]
  | |- stateless (ToString _) => apply stateless_ToString
  | |- stateless (join_item _) => unfold join_item
  | |- stateless (ret _) => apply stateless_ret
  | |- stateless (throw _) => apply stateless_throw
  | |- stateless (get_prop _ _) => apply stateless_get_prop
  | |- stateless (js_toFixed _ _) => apply stateless_js_toFixed
  | |- stateless (mapM _ _) => apply stateless_mapM; intros ?
  | |- stateless (if ?b then _ else _) => destruct b
  | |- stateless (match ?x with _ => _ end) => destruct x
  end.

Lemma stateless_formatFunctionResult `{Platform} {S : Type} (functionName : string)
    (result : JSValue) :
  stateless (@formatFunctionResult _ S functionName result).
Proof. unfold formatFunctionResult. cbv zeta. repeat stateless_step. Qed.

Lemma extends_refl (s : Agent) : extends 0 0 s s.
Proof. exists [], []. rewrite !app_nil_r. simpl. repeat split; lia. Qed.

Lemma extends_trans (a b c d : nat) (s1 s2 s3 : Agent) :
  extends a b s1 s2 -> extends c d s2 s3 -> extends (a + c) (b + d) s1 s3.
Proof.
  intros (lx & lf & Hx & Hlx & Hf & Hlf) (lx' & lf' & Hx' & Hlx' & Hf' & Hlf').
  exists (lx ++ lx'), (lf ++ lf'). rewrite Hx', Hx, Hf', Hf, !app_assoc, !length_app.
  repeat split; lia.
Qed.

Lemma extends_weaken (a b a' b' : nat) (s s' : Agent) :
  (a <= a')%nat -> (b <= b')%nat -> extends a b s s' -> extends a' b' s s'.
Proof.
  intros Ha Hb (lx & lf & Hx & Hlx & Hf & Hlf). exists lx, lf. repeat split; trivial; lia.
Qed.

Lemma bounded_stateless {A : Type} (m : M Agent A) : stateless m -> bounded 0 0 m.
Proof. intros Hm s. rewrite Hm. apply extends_refl. Qed.

Lemma bounded_weaken {A : Type} (a b a' b' : nat) (m : M Agent A) :
  (a <= a')%nat -> (b <= b')%nat -> bounded a b m -> bounded a' b' m.
Proof. intros Ha Hb Hm s. now apply (extends_weaken a b). Qed.

Lemma bounded_bind {A B : Type} (a b c d : nat) (m : M Agent A) (k : A -> M Agent B) :
  bounded a b m -> (forall x, bounded c d (k x)) -> bounded (a + c) (b + d) (bind m k).
Proof.
  intros Hm Hk s. unfold bind, state_of. specialize (Hm s). unfold state_of in Hm.
  destruct (m s) as [[x|e] s1]; simpl in *.
  - apply (extends_trans a b c d s s1); [assumption | apply Hk].
  - apply (extends_weaken a b); [lia | lia | assumption].
Qed.

Lemma bounded_try_catch {A : Type} (a b c d : nat) (m : M Agent A) (h : Exn -> M Agent A) :
  bounded a b m -> (forall e, bounded c d (h e)) -> bounded (a + c) (b + d) (try_catch m h).
Proof.
  intros Hm Hh s. unfold try_catch, state_of. specialize (Hm s). unfold state_of in Hm.
  destruct (m s) as [[x|e] s1]; simpl in *.
  - apply (extends_weaken a b); [lia | lia | assumption].
  - apply (extends_trans a b c d s s1); [assumption | apply Hh].
Qed.

Lemma bounded_push_history (m : ChatMessage) : bounded 0 0 (push_history m).
Proof.
  intros s. exists [], []. simpl. rewrite !app_nil_r. repeat split; lia.
Qed.

Lemma bounded_fetch (remote : Provider) (rq : HttpRequest) : bounded 0 1 (fetch remote rq).
Proof.
  intros s. exists [], [rq]. simpl. rewrite !app_nil_r. repeat split; lia.
Qed.

(** One call of [invokeTool] invokes at most one executor, and returns. *)
Lemma invokeTool_run (tools : Registry) (toolName : string) (parameters : JSValue)
    (b : Browser) :
  exists result w' lx,
    invokeTool tools toolName parameters b
    = (Returned result, {| page := w'; executed := executed b ++ lx |})
    /\ (lx = [] \/ lx = [(toolName, parameters)]).
Proof.
  unfold invokeTool, try_catch, bind, log_execute, modify, lift_page, ret.
  destruct (JSMap.get toolName tools) as [tool|]; simpl.
  - destruct (execute tool parameters (page b)) as [[result|e] w']; simpl; eauto 8.
  - exists unknown_action, (page b), []. rewrite app_nil_r. destruct b; eauto.
Qed.

Lemma bounded_invokeTool (tools : Registry) (toolName : string) (parameters : JSValue) :
  bounded 1 0 (lift_browser (invokeTool tools toolName parameters)).
Proof.
  intros s. unfold lift_browser, state_of.
  destruct (invokeTool_run tools toolName parameters (browser s))
    as (result & w' & lx & Hrun & Hlx).
  rewrite Hrun. simpl. exists lx, []. rewrite app_nil_r.
  repeat split; [destruct Hlx; subst; simpl; lia | simpl; lia].
Qed.

Section Orchestrator.

Context `{Platform}.
Variable config : Config.
Variable remote : Provider.

Lemma bounded_ret {A : Type} (a : A) : bounded 0 0 (@ret Agent A a).
Proof. apply bounded_stateless, stateless_ret. Qed.

Lemma bounded_throw {A : Type} (e : Exn) : bounded 0 0 (@throw Agent A e).
Proof. apply bounded_stateless, stateless_throw. Qed.

Lemma bounded_processOpenAIResponse (data : ApiResponse) :
  bounded 0 0 (processOpenAIResponse data).
Proof.
  unfold processOpenAIResponse. destruct data as [|message]; [apply bounded_throw|].
  apply (bounded_bind 0 0 0 0); [apply bounded_push_history | intros _].
  destruct message as [m|]; [|apply bounded_throw].
  destruct (tool_calls m) as [[|toolCall rest]|]; try apply bounded_ret.
  destruct (JSON_parse _); apply bounded_ret.
Qed.

Lemma bounded_callOpenAI (userMessage : string) (availableTools : Registry) (key : string) :
  bounded 0 1 (callOpenAI config remote userMessage availableTools key).
Proof.
  unfold callOpenAI. cbv zeta.
  apply (bounded_bind 0 0 0 1); [apply bounded_stateless; now intros s | intros s0].
  apply (bounded_bind 0 1 0 0); [apply bounded_fetch | intros response].
  destruct response; try apply bounded_throw. apply bounded_processOpenAIResponse.
Qed.

Lemma bounded_generateResponse (userMessage : string) (availableTools : Registry) :
  bounded 0 1 (generateResponse config remote userMessage availableTools).
Proof.
  unfold generateResponse.
  apply (bounded_try_catch 0 1 0 0); [|intros e; apply bounded_ret].
  destruct (enableMockMode config); [apply (bounded_weaken 0 0); [lia | lia | apply bounded_ret]|].
  apply (bounded_bind 0 0 0 1);
    [apply bounded_stateless, stateless_getApiKey | intros key].
  apply (bounded_bind 0 0 0 1); [apply bounded_push_history | intros _].
  destruct (String.eqb _ "openai"); [apply bounded_callOpenAI|].
  apply (bounded_weaken 0 0); [lia | lia |].
  destruct (String.eqb _ "anthropic"); apply bounded_throw.
Qed.

Lemma bounded_handleFunctionResult (toolCallId : option string) (functionName : string)
    (functionResult : JSValue) :
  bounded 0 1 (handleFunctionResult config remote toolCallId functionName functionResult).
Proof.
  unfold handleFunctionResult.
  apply (bounded_bind 0 0 0 1); [apply bounded_push_history | intros _].
  apply (bounded_bind 0 0 0 1);
    [apply bounded_stateless, stateless_getApiKey | intros key].
  apply bounded_callOpenAI.
Qed.

(** One submission invokes at most one executor and sends at most two
    requests to the provider, whatever the provider answers. *)
Lemma bounded_processUserPromptWithLLM (tools : Registry) (prompt : string) :
  bounded 1 2 (processUserPromptWithLLM config remote tools prompt).
Proof.
  unfold processUserPromptWithLLM. cbv zeta.
  apply (bounded_try_catch 1 2 0 0).
  - apply (bounded_bind 0 1 1 1); [apply bounded_generateResponse | intros llmResponse].
    destruct llmResponse as [functionName arguments toolCallId | message | message];
      try (apply (bounded_weaken 0 0); [lia | lia | apply bounded_ret]).
    apply (bounded_bind 1 0 0 1); [apply bounded_invokeTool | intros functionResult].
    destruct (id_truthy toolCallId).
    + apply (bounded_bind 0 1 0 0); [apply bounded_handleFunctionResult | intros r].
      apply bounded_ret.
    + apply (bounded_weaken 0 0); [lia | lia |].
      apply bounded_stateless, stateless_formatFunctionResult.
  - intros e. destruct (enableMockMode config); apply bounded_ret.
Qed.

(** The request [callOpenAI] sends: it declares the tools of the registry
    it was given, and none when that registry is empty. *)
Lemma callOpenAI_request (userMessage : string) (availableTools : Registry) (key : string)
    (s : Agent) :
  exists rq,
    fetched (state_of (callOpenAI config remote userMessage availableTools key s))
    = fetched s ++ [rq]
    /\ browser (state_of (callOpenAI config remote userMessage availableTools key s))
       = browser s
    /\ rq_tools (body rq)
       = (if (0 <? length (formatToolsForOpenAI availableTools))%nat
          then Some (formatToolsForOpenAI availableTools) else None)
    /\ rq_tool_choice (body rq)
       = (if (0 <? length (formatToolsForOpenAI availableTools))%nat
          then Some "auto" else None).
Proof.
  exists {| url := baseUrl (llm config) +:+ "/chat/completions";
            authorization := "Bearer " +:+ key;
            body := {| rq_model := model (llm config);
                       rq_messages :=
                         SystemMessage
                           (systemPrompt (map fn_name (formatToolsForOpenAI availableTools)))
                         :: conversationHistory s;
                       rq_tools :=
                         if (0 <? length (formatToolsForOpenAI availableTools))%nat
                         then Some (formatToolsForOpenAI availableTools) else None;
                       rq_tool_choice :=
                         if (0 <? length (formatToolsForOpenAI availableTools))%nat
                         then Some "auto" else None;
                       rq_max_tokens := maxTokens (llm config);
                       rq_temperature := temperature (llm config) |} |}.
  unfold callOpenAI, state_of, bind, get_state, fetch, throw. cbv zeta. simpl.
  split; [|split; [|split; reflexivity]].
  - destruct (remote _ _) as [| | |data]; simpl; try reflexivity.
    unfold processOpenAIResponse, bind, push_history, modify, throw, ret.
    destruct data as [|[m|]]; simpl; try reflexivity.
    destruct (tool_calls m) as [[|toolCall rest]|]; simpl; try reflexivity.
    destruct (JSON_parse _); reflexivity.
  - destruct (remote _ _) as [| | |data]; simpl; try reflexivity.
    unfold processOpenAIResponse, bind, push_history, modify, throw, ret.
    destruct data as [|[m|]]; simpl; try reflexivity.
    destruct (tool_calls m) as [[|toolCall rest]|]; simpl; try reflexivity.
    destruct (JSON_parse _); reflexivity.
Qed.

(** The follow-up after a tool result: the browser side is not touched,
    and the one request it may send declares no tool. *)
Lemma handleFunctionResult_request (toolCallId : option string) (functionName : string)
    (functionResult : JSValue) (s : Agent) :
  let follow := handleFunctionResult config remote toolCallId functionName functionResult s in
  browser (state_of follow) = browser s
  /\ (fetched (state_of follow) = fetched s
      \/ exists rq, fetched (state_of follow) = fetched s ++ [rq] /\ declares_no_tool rq).
Proof.
  intros follow. subst follow.
  destruct (getApiKey_run config) as [o Ho].
  unfold handleFunctionResult, bind, push_history, modify. rewrite Ho.
  destruct o as [key|e]; [|split; [reflexivity | now left]].
  destruct (callOpenAI_request "" JSMap.empty key
              {| browser := browser s;
                 conversationHistory :=
                   conversationHistory s
                   ++ [ToolMessage (JSON_stringify functionResult) toolCallId];
                 fetched := fetched s |}) as (rq & Hf & Hb & Htools & Hchoice).
  split; [exact Hb|]. right. exists rq. split; [exact Hf|]. split; assumption.
Qed.

End Orchestrator.

(** ** Live configurations *)

Lemma getApiKey_live {S : Type} (config : Config) (s : S) :
  live config -> getApiKey config s = (Returned (apiKey (llm config)), s).
Proof.
  intros (_ & Hkey & _). unfold getApiKey.
  apply String.eqb_neq in Hkey. now rewrite Hkey.
Qed.

Lemma defaultConfig_live : live defaultConfig.
Proof. repeat split. intros Hkey. discriminate Hkey. Defined.

(** ** One exchange, step by step *)

Section Exchange.

Context `{Platform}.
Variable config : Config.
Variable remote : Provider.

Lemma advanced_nil (s : Agent) : advanced [] [] s = s.
Proof. unfold advanced. rewrite !app_nil_r. now destruct s. Qed.

Lemma advanced_advanced (t1 t2 : list ChatMessage) (r1 r2 : list HttpRequest) (s : Agent) :
  advanced t2 r2 (advanced t1 r1 s) = advanced (t1 ++ t2) (r1 ++ r2) s.
Proof. unfold advanced. simpl. now rewrite !app_assoc. Qed.

Lemma with_browser_advanced (b : Browser) (t : list ChatMessage) (r : list HttpRequest)
    (s : Agent) :
  advanced t r (with_browser b s) = with_browser b (advanced t r s).
Proof. reflexivity. Qed.

(** [callOpenAI] sends one request, built from the history as it stands,
    and then either raises or processes the reply. *)
Lemma callOpenAI_sends (userMessage : string) (availableTools : Registry) (key : string)
    (s : Agent) :
  callOpenAI config remote userMessage availableTools key s
  = match remote (length (fetched s))
            (openai_request config availableTools key (conversationHistory s)) with
    | NetworkError =>
        (Thrown TypeError,
         advanced [] [openai_request config availableTools key (conversationHistory s)] s)
    | HttpFailure status statusText errorMessage =>
        (Thrown (OpenAIApiError status
                   (match errorMessage with
                    | Some text => if String.eqb text "" then statusText else text
                    | None => statusText
                    end)),
         advanced [] [openai_request config availableTools key (conversationHistory s)] s)
    | HttpOkBadJson =>
        (Thrown SyntaxError,
         advanced [] [openai_request config availableTools key (conversationHistory s)] s)
    | HttpOk data =>
        processOpenAIResponse data
          (advanced [] [openai_request config availableTools key (conversationHistory s)] s)
    end.
Proof.
  unfold callOpenAI, bind, get_state, fetch, throw, advanced, openai_request. cbv zeta.
  rewrite app_nil_r.
  destruct (remote _ _); reflexivity.
Qed.

Lemma processOpenAIResponse_plain (m : AssistantMessage) (s : Agent) :
  plain_message m ->
  processOpenAIResponse (FirstChoice (Some m)) s
  = (Returned (Text (content m)), advanced [AssistantReply (Some m)] [] s).
Proof.
  intros Hplain.
  unfold processOpenAIResponse, bind, push_history, modify, ret, advanced.
  rewrite app_nil_r. destruct Hplain as [-> | ->]; reflexivity.
Qed.

Lemma processOpenAIResponse_call (m : AssistantMessage) (toolCall : ToolCallRequest)
    (rest : list ToolCallRequest) (s : Agent) :
  tool_calls m = Some (toolCall :: rest) ->
  processOpenAIResponse (FirstChoice (Some m)) s
  = (Returned (match JSON_parse (function_arguments toolCall) with
               | Some args => FunctionCall (function_name toolCall) args (call_id toolCall)
               | None => ErrorResponse parse_error_text
               end),
     advanced [AssistantReply (Some m)] [] s).
Proof.
  intros Hcalls.
  unfold processOpenAIResponse, bind, push_history, modify, ret, advanced.
  rewrite app_nil_r, Hcalls. now destruct (JSON_parse _).
Qed.

(** Under a live configuration [generateResponse] records the user's turn,
    calls the provider, and turns whatever is raised into the gateway's
    error response. *)
Lemma generateResponse_live (prompt : string) (tools : Registry) (s : Agent) :
  live config ->
  generateResponse config remote prompt tools s
  = match callOpenAI config remote prompt tools (apiKey (llm config))
            {| browser := browser s;
               conversationHistory := conversationHistory s ++ [UserMessage prompt];
               fetched := fetched s |} with
    | (Returned decision, s') => (Returned decision, s')
    | (Thrown _, s') => (Returned (ErrorResponse gateway_error_text), s')
    end.
Proof.
  intros Hlive. pose proof Hlive as (Hmock & _ & Hprovider).
  unfold generateResponse, try_catch, bind, push_history, modify.
  rewrite Hmock, (getApiKey_live config s Hlive), Hprovider, String.eqb_refl.
  reflexivity.
Qed.

(** The first call of a submission, under a live configuration: one
    request is sent behind the user's turn. *)
Lemma generateResponse_first (prompt : string) (tools : Registry) (s : Agent) :
  live config ->
  generateResponse config remote prompt tools s
  = match remote (length (fetched s)) (first_request config tools prompt s) with
    | HttpOk (FirstChoice message) =>
        match processOpenAIResponse (FirstChoice message)
                (advanced [UserMessage prompt] [first_request config tools prompt s] s) with
        | (Returned decision, s') => (Returned decision, s')
        | (Thrown _, s') => (Returned (ErrorResponse gateway_error_text), s')
        end
    | _ => (Returned (ErrorResponse gateway_error_text),
            advanced [UserMessage prompt] [first_request config tools prompt s] s)
    end.
Proof.
  intros Hlive. rewrite (generateResponse_live prompt tools s Hlive), callOpenAI_sends.
  unfold first_request, advanced. simpl. rewrite !app_nil_r.
  destruct (remote _ _) as [| | |[|message]]; reflexivity.
Qed.

Lemma transport_failed_raises (userMessage : string) (availableTools : Registry)
    (key : string) (s : Agent) :
  transport_failed (remote (length (fetched s))
                      (openai_request config availableTools key (conversationHistory s))) ->
  exists e,
    callOpenAI config remote userMessage availableTools key s
    = (Thrown e,
       advanced [] [openai_request config availableTools key (conversationHistory s)] s).
Proof.
  intros Hfailed. rewrite callOpenAI_sends.
  destruct (remote _ _) as [| | |[|message]]; simpl in Hfailed; try contradiction; eauto.
Qed.

End Exchange.

Section Outcomes.

Context `{Platform}.
Variable config : Config.
Variable remote : Provider.

Lemma handleFunctionResult_failed (toolCallId : option string) (functionName : string)
    (functionResult : JSValue) (s : Agent) :
  live config ->
  transport_failed
    (remote (length (fetched s))
       (follow_up_request config
          (conversationHistory s ++ [ToolMessage (JSON_stringify functionResult) toolCallId]))) ->
  exists e,
    handleFunctionResult config remote toolCallId functionName functionResult s
    = (Thrown e,
       advanced [ToolMessage (JSON_stringify functionResult) toolCallId]
         [follow_up_request config
            (conversationHistory s
             ++ [ToolMessage (JSON_stringify functionResult) toolCallId])] s).
Proof.
  intros Hlive Hfailed.
  unfold handleFunctionResult, bind, push_history, modify.
  rewrite (getApiKey_live config _ Hlive), callOpenAI_sends.
  unfold follow_up_request, advanced in *. simpl in *. rewrite !app_nil_r.
  destruct (remote _ _) as [| | |[|message]]; simpl in Hfailed; try contradiction; eauto.
Qed.

Lemma handleFunctionResult_reply (toolCallId : option string) (functionName : string)
    (functionResult : JSValue) (message : option AssistantMessage) (s : Agent) :
  live config ->
  remote (length (fetched s))
    (follow_up_request config
       (conversationHistory s ++ [ToolMessage (JSON_stringify functionResult) toolCallId]))
  = HttpOk (FirstChoice message) ->
  handleFunctionResult config remote toolCallId functionName functionResult s
  = processOpenAIResponse (FirstChoice message)
      (advanced [ToolMessage (JSON_stringify functionResult) toolCallId]
         [follow_up_request config
            (conversationHistory s
             ++ [ToolMessage (JSON_stringify functionResult) toolCallId])] s).
Proof.
  intros Hlive Hreply.
  unfold handleFunctionResult, bind, push_history, modify.
  rewrite (getApiKey_live config _ Hlive), callOpenAI_sends.
  unfold follow_up_request, advanced in *. simpl in *. rewrite !app_nil_r, Hreply.
  reflexivity.
Qed.

(** X1: when the first request of a submission fails in transport (network
    error, non-2xx status, body that is not JSON or has no first choice),
    the submission answers with the gateway's fixed error text; the user's
    turn stays in the history, one request was sent, and the browser side,
    executors included, is untouched. *)
Theorem submission_transport_failure (tools : Registry) (prompt : string) (s : Agent) :
  live config ->
  transport_failed (remote (length (fetched s)) (first_request config tools prompt s)) ->
  processUserPromptWithLLM config remote tools prompt s
  = (Returned (ResponseMessage (JStr gateway_error_text)),
     advanced [UserMessage prompt] [first_request config tools prompt s] s).
Proof.
  intros Hlive Hfailed.
  unfold processUserPromptWithLLM, try_catch. cbv zeta. unfold bind at 1.
  rewrite (generateResponse_first config remote prompt tools s Hlive).
  destruct (remote _ _) as [| | |[|message]]; simpl in Hfailed; try contradiction;
    reflexivity.
Qed.

(** X2: when the model answers the first request with a plain message (no
    tool call), the submission returns the message's content, sends exactly
    that one request, appends the user's and the assistant's turn to the
    history, and runs no executor. *)
Theorem submission_text_reply (tools : Registry) (prompt : string) (s : Agent)
    (m : AssistantMessage) :
  live config ->
  remote (length (fetched s)) (first_request config tools prompt s)
  = HttpOk (FirstChoice (Some m)) ->
  plain_message m ->
  processUserPromptWithLLM config remote tools prompt s
  = (Returned (ResponseMessage (option_to_js (content m))),
     advanced [UserMessage prompt; AssistantReply (Some m)]
       [first_request config tools prompt s] s).
Proof.
  intros Hlive Hreply Hplain.
  unfold processUserPromptWithLLM, try_catch. cbv zeta. unfold bind at 1.
  rewrite (generateResponse_first config remote prompt tools s Hlive), Hreply.
  rewrite (processOpenAIResponse_plain m _ Hplain), advanced_advanced. reflexivity.
Qed.

(** X3: when the first tool call of the reply has arguments that do not
    parse as JSON, no executor is invoked and no follow-up is sent: the
    submission answers with the fixed parameter-error text after its one
    request. *)
Theorem submission_unparsable_arguments (tools : Registry) (prompt : string) (s : Agent)
    (m : AssistantMessage) (toolCall : ToolCallRequest) (rest : list ToolCallRequest) :
  live config ->
  remote (length (fetched s)) (first_request config tools prompt s)
  = HttpOk (FirstChoice (Some m)) ->
  tool_calls m = Some (toolCall :: rest) ->
  JSON_parse (function_arguments toolCall) = None ->
  processUserPromptWithLLM config remote tools prompt s
  = (Returned (ResponseMessage (JStr parse_error_text)),
     advanced [UserMessage prompt; AssistantReply (Some m)]
       [first_request config tools prompt s] s).
Proof.
  intros Hlive Hreply Hcalls Hparse.
  unfold processUserPromptWithLLM, try_catch. cbv zeta. unfold bind at 1.
  rewrite (generateResponse_first config remote prompt tools s Hlive), Hreply.
  rewrite (processOpenAIResponse_call m toolCall rest _ Hcalls), Hparse, advanced_advanced.
  reflexivity.
Qed.

(** The state after the first reply was a tool call and the tool ran. *)
Lemma submission_after_tool (tools : Registry) (prompt : string) (s : Agent)
    (m : AssistantMessage) (toolCall : ToolCallRequest) (rest : list ToolCallRequest)
    (args result : JSValue) (b' : Browser) :
  live config ->
  remote (length (fetched s)) (first_request config tools prompt s)
  = HttpOk (FirstChoice (Some m)) ->
  tool_calls m = Some (toolCall :: rest) ->
  JSON_parse (function_arguments toolCall) = Some args ->
  invokeTool tools (function_name toolCall) args (browser s) = (Returned result, b') ->
  processUserPromptWithLLM config remote tools prompt s
  = try_catch
      (if id_truthy (call_id toolCall) then
         let! finalResponse :=
           handleFunctionResult config remote (call_id toolCall) (function_name toolCall)
             result in
         ret (ResponseLLM finalResponse)
       else formatFunctionResult (function_name toolCall) result)
      (fun _ =>
         if enableMockMode config then processUserPromptMock prompt
         else ret (ResponseMessage (JStr error_message)))
      (with_browser b'
         (advanced [UserMessage prompt; AssistantReply (Some m)]
            [first_request config tools prompt s] s)).
Proof.
  intros Hlive Hreply Hcalls Hparse Hinvoke.
  unfold processUserPromptWithLLM, try_catch. cbv zeta. unfold bind at 1.
  rewrite (generateResponse_first config remote prompt tools s Hlive), Hreply.
  rewrite (processOpenAIResponse_call m toolCall rest _ Hcalls), Hparse, advanced_advanced.
  unfold bind at 1, lift_browser. simpl browser. rewrite Hinvoke. reflexivity.
Qed.

End Outcomes.

Section RoundTrip.

Context `{Platform}.
Variable config : Config.
Variable remote : Provider.

Lemma second_index (rq : HttpRequest) (s : Agent) :
  length (fetched s ++ [rq]) = S (length (fetched s)).
Proof. rewrite length_app. simpl. lia. Qed.

(** X4: the full round trip.  When the model asks for a tool (with a call
    id and arguments that parse), the tool's result, as [invokeTool]
    returned it, is sent back to the model in a second request: behind the
    user's turn and the assistant's tool call comes a tool turn holding the
    stringified result under the call id, and no tool is declared.  When the
    model then answers with a plain message, that text is the final
    response, and the history has grown by exactly those four turns. *)
Theorem submission_tool_round_trip (tools : Registry) (prompt : string) (s : Agent)
    (m m2 : AssistantMessage) (toolCall : ToolCallRequest) (rest : list ToolCallRequest)
    (args result : JSValue) (b' : Browser) :
  live config ->
  remote (length (fetched s)) (first_request config tools prompt s)
  = HttpOk (FirstChoice (Some m)) ->
  tool_calls m = Some (toolCall :: rest) ->
  JSON_parse (function_arguments toolCall) = Some args ->
  id_truthy (call_id toolCall) = true ->
  invokeTool tools (function_name toolCall) args (browser s) = (Returned result, b') ->
  remote (S (length (fetched s)))
    (follow_up_request config
       (conversationHistory s
        ++ [ UserMessage prompt; AssistantReply (Some m);
             ToolMessage (JSON_stringify result) (call_id toolCall) ]))
  = HttpOk (FirstChoice (Some m2)) ->
  plain_message m2 ->
  processUserPromptWithLLM config remote tools prompt s
  = (Returned (ResponseLLM (Text (content m2))),
     with_browser b'
       (advanced [ UserMessage prompt; AssistantReply (Some m);
                   ToolMessage (JSON_stringify result) (call_id toolCall);
                   AssistantReply (Some m2) ]
          [ first_request config tools prompt s;
            follow_up_request config
              (conversationHistory s
               ++ [ UserMessage prompt; AssistantReply (Some m);
                    ToolMessage (JSON_stringify result) (call_id toolCall) ]) ] s))
  /\ declares_no_tool
       (follow_up_request config
          (conversationHistory s
           ++ [ UserMessage prompt; AssistantReply (Some m);
                ToolMessage (JSON_stringify result) (call_id toolCall) ])).
Proof.
  intros Hlive Hreply Hcalls Hparse Hid Hinvoke Hreply2 Hplain.
  split; [|now split].
  rewrite (submission_after_tool config remote tools prompt s m toolCall rest args result b'
             Hlive Hreply Hcalls Hparse Hinvoke).
  rewrite Hid. unfold try_catch, bind.
  rewrite (handleFunctionResult_reply config remote _ _ _ (Some m2) _ Hlive).
  - rewrite (processOpenAIResponse_plain m2 _ Hplain).
    unfold ret, with_browser, advanced. simpl. rewrite <- !app_assoc. reflexivity.
  - simpl. rewrite second_index, <- app_assoc. exact Hreply2.
Qed.

(** X5: when the follow-up request fails in transport, the failure is not
    caught by the gateway but by the client: the submission answers with
    the client's own error text (not the gateway's), and what the tool did
    stays done; the tool turn is already in the history. *)
Theorem submission_follow_up_failure (tools : Registry) (prompt : string) (s : Agent)
    (m : AssistantMessage) (toolCall : ToolCallRequest) (rest : list ToolCallRequest)
    (args result : JSValue) (b' : Browser) :
  live config ->
  remote (length (fetched s)) (first_request config tools prompt s)
  = HttpOk (FirstChoice (Some m)) ->
  tool_calls m = Some (toolCall :: rest) ->
  JSON_parse (function_arguments toolCall) = Some args ->
  id_truthy (call_id toolCall) = true ->
  invokeTool tools (function_name toolCall) args (browser s) = (Returned result, b') ->
  transport_failed
    (remote (S (length (fetched s)))
       (follow_up_request config
          (conversationHistory s
           ++ [ UserMessage prompt; AssistantReply (Some m);
                ToolMessage (JSON_stringify result) (call_id toolCall) ]))) ->
  processUserPromptWithLLM config remote tools prompt s
  = (Returned (ResponseMessage (JStr error_message)),
     with_browser b'
       (advanced [ UserMessage prompt; AssistantReply (Some m);
                   ToolMessage (JSON_stringify result) (call_id toolCall) ]
          [ first_request config tools prompt s;
            follow_up_request config
              (conversationHistory s
               ++ [ UserMessage prompt; AssistantReply (Some m);
                    ToolMessage (JSON_stringify result) (call_id toolCall) ]) ] s))
  /\ error_message <> gateway_error_text.
Proof.
  intros Hlive Hreply Hcalls Hparse Hid Hinvoke Hfailed.
  split; [|discriminate].
  rewrite (submission_after_tool config remote tools prompt s m toolCall rest args result b'
             Hlive Hreply Hcalls Hparse Hinvoke).
  rewrite Hid. unfold try_catch, bind.
  destruct (handleFunctionResult_failed config remote (call_id toolCall)
              (function_name toolCall) result
              (with_browser b'
                 (advanced [UserMessage prompt; AssistantReply (Some m)]
                    [first_request config tools prompt s] s)) Hlive) as [e He].
  - simpl. rewrite second_index, <- app_assoc. exact Hfailed.
  - rewrite He. pose proof Hlive as (Hmock & _). rewrite Hmock.
    unfold ret, with_browser, advanced. simpl. rewrite <- !app_assoc. reflexivity.
Qed.

(** X6: a tool call without a call id takes the legacy path: the tool
    runs, no follow-up request is sent, and the response is what
    [formatFunctionResult] makes of the result, or the client's error text
    when formatting raises. *)
Theorem submission_without_call_id (tools : Registry) (prompt : string) (s : Agent)
    (m : AssistantMessage) (toolCall : ToolCallRequest) (rest : list ToolCallRequest)
    (args result : JSValue) (b' : Browser) :
  live config ->
  remote (length (fetched s)) (first_request config tools prompt s)
  = HttpOk (FirstChoice (Some m)) ->
  tool_calls m = Some (toolCall :: rest) ->
  JSON_parse (function_arguments toolCall) = Some args ->
  id_truthy (call_id toolCall) = false ->
  invokeTool tools (function_name toolCall) args (browser s) = (Returned result, b') ->
  let after := with_browser b'
                 (advanced [UserMessage prompt; AssistantReply (Some m)]
                    [first_request config tools prompt s] s) in
  state_of (processUserPromptWithLLM config remote tools prompt s) = after
  /\ result_of (processUserPromptWithLLM config remote tools prompt s)
     = match result_of (formatFunctionResult (function_name toolCall) result after) with
       | Returned response => Returned response
       | Thrown _ => Returned (ResponseMessage (JStr error_message))
       end.
Proof.
  intros Hlive Hreply Hcalls Hparse Hid Hinvoke after.
  rewrite (submission_after_tool config remote tools prompt s m toolCall rest args result b'
             Hlive Hreply Hcalls Hparse Hinvoke).
  rewrite Hid. fold after. unfold try_catch, state_of, result_of.
  pose proof (stateless_formatFunctionResult (function_name toolCall) result after) as Hst.
  unfold state_of in Hst.
  destruct (formatFunctionResult (function_name toolCall) result after) as [[response|e] s'];
    simpl in *; subst s'.
  - now split.
  - pose proof Hlive as (Hmock & _). rewrite Hmock. now split.
Qed.

End RoundTrip.

(** ** A submission answered by tool calls *)

Lemma alwaysToolCall_calls (n : nat) : @calls_at samplePlatform alwaysToolCall n has_call_id.
Proof.
  intros rq. destruct n as [|n].
  - exists listCall, (JObj []). split; [|reflexivity].
    exists {| content := None; tool_calls := Some [listCall] |}, [].
    repeat split; reflexivity.
  - exists balanceCall, (JObj []). split; [|reflexivity].
    exists {| content := None; tool_calls := Some [balanceCall] |}, [].
    repeat split; reflexivity.
Defined.

Section Submission.

Context `{Platform}.
Variable config : Config.
Variable remote : Provider.

(** When the model asks for a tool, with a call id and arguments that
    parse, and answers the follow-up request with a tool call again, that
    second call is not executed: it is the response of the submission, and
    the client is left as the first tool left it, with the four turns and
    the two requests of the round trip recorded. *)
Lemma submission_second_call (tools : Registry) (prompt : string) (s : Agent)
    (m m2 : AssistantMessage) (toolCall call2 : ToolCallRequest)
    (rest rest2 : list ToolCallRequest) (args args2 result : JSValue) (b' : Browser) :
  live config ->
  remote (length (fetched s)) (first_request config tools prompt s)
  = HttpOk (FirstChoice (Some m)) ->
  tool_calls m = Some (toolCall :: rest) ->
  JSON_parse (function_arguments toolCall) = Some args ->
  id_truthy (call_id toolCall) = true ->
  invokeTool tools (function_name toolCall) args (browser s) = (Returned result, b') ->
  remote (S (length (fetched s)))
    (follow_up_request config
       (conversationHistory s
        ++ [ UserMessage prompt; AssistantReply (Some m);
             ToolMessage (JSON_stringify result) (call_id toolCall) ]))
  = HttpOk (FirstChoice (Some m2)) ->
  tool_calls m2 = Some (call2 :: rest2) ->
  JSON_parse (function_arguments call2) = Some args2 ->
  processUserPromptWithLLM config remote tools prompt s
  = (Returned (ResponseLLM (FunctionCall (function_name call2) args2 (call_id call2))),
     with_browser b'
       (advanced [ UserMessage prompt; AssistantReply (Some m);
                   ToolMessage (JSON_stringify result) (call_id toolCall);
                   AssistantReply (Some m2) ]
          [ first_request config tools prompt s;
            follow_up_request config
              (conversationHistory s
               ++ [ UserMessage prompt; AssistantReply (Some m);
                    ToolMessage (JSON_stringify result) (call_id toolCall) ]) ] s)).
Proof.
  intros Hlive Hreply Hcalls Hparse Hid Hinvoke Hreply2 Hcalls2 Hparse2.
  rewrite (submission_after_tool config remote tools prompt s m toolCall rest args result b'
             Hlive Hreply Hcalls Hparse Hinvoke).
  rewrite Hid. unfold try_catch, bind.
  rewrite (handleFunctionResult_reply config remote _ _ _ (Some m2) _ Hlive).
  - rewrite (processOpenAIResponse_call m2 call2 rest2 _ Hcalls2), Hparse2.
    unfold ret, with_browser, advanced. simpl. rewrite <- !app_assoc. reflexivity.
  - simpl. rewrite second_index, <- app_assoc. exact Hreply2.
Qed.

(** C2, as the code has it: there is no loop to cap.  Against a provider
    stub that answers every request with a tool call, one submission
    returns after one round trip.  The tool of the first reply is
    invoked through [invokeTool], its result is sent back in a second
    request that declares no tool, and the tool call of the second reply is
    handed back as the final response without being executed: at most one
    executor has run, exactly two requests were sent, and four turns were
    recorded.  That response is not an errored outcome, and it carries no
    message. *)
Theorem always_tool_call_single_round_trip (tools : Registry) (prompt : string) (s : Agent) :
  live config ->
  always_calls_tool remote ->
  exists (m m2 : AssistantMessage) (toolCall call2 : ToolCallRequest)
         (rest rest2 : list ToolCallRequest) (args args2 result : JSValue) (b' : Browser),
    let rq1 := first_request config tools prompt s in
    let turns := [ UserMessage prompt; AssistantReply (Some m);
                   ToolMessage (JSON_stringify result) (call_id toolCall) ] in
    let rq2 := follow_up_request config (conversationHistory s ++ turns) in
    let response := ResponseLLM (FunctionCall (function_name call2) args2 (call_id call2)) in
    (remote (length (fetched s)) rq1 = HttpOk (FirstChoice (Some m))
     /\ tool_calls m = Some (toolCall :: rest)
     /\ JSON_parse (function_arguments toolCall) = Some args)
    /\ invokeTool tools (function_name toolCall) args (browser s) = (Returned result, b')
    /\ (remote (S (length (fetched s))) rq2 = HttpOk (FirstChoice (Some m2))
        /\ tool_calls m2 = Some (call2 :: rest2)
        /\ JSON_parse (function_arguments call2) = Some args2)
    /\ processUserPromptWithLLM config remote tools prompt s
       = (Returned response,
          with_browser b' (advanced (turns ++ [AssistantReply (Some m2)]) [rq1; rq2] s))
    /\ declares_no_tool rq2
    /\ (executed b' = executed (browser s) ++ [(function_name toolCall, args)]
        \/ executed b' = executed (browser s))
    /\ is_errored response = false
    /\ response_message response = JUndefined.
Proof.
  intros Hlive Halways.
  destruct (Halways (length (fetched s)) (first_request config tools prompt s))
    as (toolCall & args & (m & rest & Hreply & Hcalls & Hparse) & Hid).
  destruct (invokeTool_run tools (function_name toolCall) args (browser s))
    as (result & w' & lx & Hinvoke & Hlx).
  destruct (Halways (S (length (fetched s)))
              (follow_up_request config
                 (conversationHistory s
                  ++ [ UserMessage prompt; AssistantReply (Some m);
                       ToolMessage (JSON_stringify result) (call_id toolCall) ])))
    as (call2 & args2 & (m2 & rest2 & Hreply2 & Hcalls2 & Hparse2) & _).
  exists m, m2, toolCall, call2, rest, rest2, args, args2, result,
    {| page := w'; executed := executed (browser s) ++ lx |}.
  cbv zeta. split; [now repeat split|]. split; [exact Hinvoke|].
  split; [now repeat split|]. split.
  - apply (submission_second_call tools prompt s m m2 toolCall call2 rest rest2 args args2
             result _ Hlive Hreply Hcalls Hparse Hid Hinvoke Hreply2 Hcalls2 Hparse2).
  - split; [now split|]. split; [|now split].
    simpl. destruct Hlx as [-> | ->]; [right; apply app_nil_r | now left].
Qed.

(** C10: one submission invokes at most one tool executor.  The follow-up
    request that [handleFunctionResult] sends after a tool result is built
    from an empty tool set and declares no tool, and when the follow-up
    reply is a tool call all the same, that second call is returned as the
    final response and is not executed: the browser side is left as the
    first tool left it. *)
Theorem at_most_one_executor (tools : Registry) (prompt : string) (s : Agent) :
  let run := processUserPromptWithLLM config remote tools prompt s in
  (exists lx, executed (browser (state_of run)) = executed (browser s) ++ lx
              /\ (length lx <= 1)%nat)
  /\ (forall toolCallId functionName functionResult s0,
        let follow :=
          handleFunctionResult config remote toolCallId functionName functionResult s0 in
        browser (state_of follow) = browser s0
        /\ (fetched (state_of follow) = fetched s0
            \/ exists rq, fetched (state_of follow) = fetched s0 ++ [rq]
                          /\ declares_no_tool rq))
  /\ (live config ->
      forall (m m2 : AssistantMessage) (toolCall call2 : ToolCallRequest)
             (rest rest2 : list ToolCallRequest) (args args2 result : JSValue) (b' : Browser),
        let turns := [ UserMessage prompt; AssistantReply (Some m);
                       ToolMessage (JSON_stringify result) (call_id toolCall) ] in
        let rq2 := follow_up_request config (conversationHistory s ++ turns) in
        remote (length (fetched s)) (first_request config tools prompt s)
        = HttpOk (FirstChoice (Some m)) ->
        tool_calls m = Some (toolCall :: rest) ->
        JSON_parse (function_arguments toolCall) = Some args ->
        id_truthy (call_id toolCall) = true ->
        invokeTool tools (function_name toolCall) args (browser s) = (Returned result, b') ->
        remote (S (length (fetched s))) rq2 = HttpOk (FirstChoice (Some m2)) ->
        tool_calls m2 = Some (call2 :: rest2) ->
        JSON_parse (function_arguments call2) = Some args2 ->
        run = (Returned (ResponseLLM
                           (FunctionCall (function_name call2) args2 (call_id call2))),
               with_browser b'
                 (advanced (turns ++ [AssistantReply (Some m2)])
                    [first_request config tools prompt s; rq2] s))
        /\ declares_no_tool rq2
        /\ (executed b' = executed (browser s) ++ [(function_name toolCall, args)]
            \/ executed b' = executed (browser s))).
Proof.
  intros run. subst run. split; [|split].
  - destruct (bounded_processUserPromptWithLLM config remote tools prompt s)
      as (lx & lf & Hx & Hlx & _). eauto.
  - intros toolCallId functionName functionResult s0.
    apply handleFunctionResult_request.
  - intros Hlive m m2 toolCall call2 rest rest2 args args2 result b' turns rq2
      Hreply Hcalls Hparse Hid Hinvoke Hreply2 Hcalls2 Hparse2.
    split; [|split; [now split|]].
    + apply (submission_second_call tools prompt s m m2 toolCall call2 rest rest2 args args2
               result b' Hlive Hreply Hcalls Hparse Hid Hinvoke Hreply2 Hcalls2 Hparse2).
    + destruct (invokeTool_run tools (function_name toolCall) args (browser s))
        as (result' & w' & lx & Hinvoke' & Hlx).
      rewrite Hinvoke in Hinvoke'. injection Hinvoke' as _ ->. simpl.
      destruct Hlx as [-> | ->]; [right; apply app_nil_r | now left].
Qed.

End Submission.

(** The sample submission against [alwaysToolCall]: the model first asks
    for the account list and then, in its follow-up reply, for a balance;
    the list is fetched, and the second call is the response. *)
Lemma always_tool_call_single_round_trip_witness :
  result_of sampleSubmission
  = Returned (ResponseLLM (FunctionCall "getAccountBalance" (JObj []) (Some "call_2")))
  /\ executed (browser (state_of sampleSubmission)) = [("getAccountList", JObj [])]
  /\ length (fetched (state_of sampleSubmission)) = 2%nat.
Proof.
  destruct (@always_tool_call_single_round_trip samplePlatform defaultConfig alwaysToolCall
              sampleRegistry "What's my Roth IRA balance?" sampleAgent
              defaultConfig_live alwaysToolCall_calls)
    as (m & m2 & toolCall & call2 & rest & rest2 & args & args2 & result & b'
        & (Hreply & Hcalls & Hparse) & Hinvoke & (Hreply2 & Hcalls2 & Hparse2) & Hrun & _).
  cbv zeta in Hrun. unfold sampleSubmission. rewrite Hrun.
  injection Hreply as <-. injection Hcalls as <- <-.
  injection Hparse as <-. injection Hinvoke as <- <-.
  injection Hreply2 as <-. injection Hcalls2 as <- <-. injection Hparse2 as <-.
  repeat split.
Defined.

(** C2, as stated, fails: against the stub that always answers with a tool
    call, the submission ends with the tool call of the follow-up reply as
    its response, after one executor invocation and two requests; that is
    not an errored outcome, and the response carries no message. *)
Lemma always_tool_call_not_errored :
  @always_calls_tool samplePlatform alwaysToolCall
  /\ result_of sampleSubmission
     = Returned (ResponseLLM (FunctionCall "getAccountBalance" (JObj []) (Some "call_2")))
  /\ is_errored (ResponseLLM (FunctionCall "getAccountBalance" (JObj []) (Some "call_2")))
     = false
  /\ response_message
       (ResponseLLM (FunctionCall "getAccountBalance" (JObj []) (Some "call_2")))
     = JUndefined
  /\ executed (browser (state_of sampleSubmission)) = [("getAccountList", JObj [])]
  /\ length (fetched (state_of sampleSubmission)) = 2%nat.
Proof.
  split; [exact alwaysToolCall_calls|].
  repeat split; vm_compute; reflexivity.
Qed.

(** The sample submission invokes one executor, although both replies
    are tool calls, and returns the second call. *)
Lemma at_most_one_executor_witness :
  (exists lx, executed (browser (state_of sampleSubmission)) = executed sampleBrowser ++ lx
              /\ (length lx <= 1)%nat)
  /\ result_of sampleSubmission
     = Returned (ResponseLLM (FunctionCall "getAccountBalance" (JObj []) (Some "call_2")))
  /\ executed (browser (state_of sampleSubmission)) = [("getAccountList", JObj [])].
Proof.
  destruct (@at_most_one_executor samplePlatform defaultConfig alwaysToolCall
              sampleRegistry "What's my Roth IRA balance?" sampleAgent)
    as (Hone & _ & Hlast).
  split; [exact Hone|].
  destruct (Hlast defaultConfig_live
              {| content := None; tool_calls := Some [listCall] |}
              {| content := None; tool_calls := Some [balanceCall] |}
              listCall balanceCall [] [] (JObj []) (JObj []) sampleListResult
              sampleBrowserAfterList eq_refl eq_refl eq_refl eq_refl eq_refl eq_refl eq_refl
              eq_refl) as (Hrun & _).
  unfold sampleSubmission. rewrite Hrun. split; reflexivity.
Defined.

(** ** Configurations that never reach the provider *)

Section Offline.

Context `{Platform}.
Variable config : Config.
Variable remote : Provider.

(** X7: in mock mode a submission touches nothing: no request is sent, no
    turn is recorded, no tool runs, and the response is the canned text
    that quotes the prompt. *)
Theorem submission_mock_mode (tools : Registry) (prompt : string) (s : Agent) :
  enableMockMode config = true ->
  processUserPromptWithLLM config remote tools prompt s
  = (Returned (ResponseMessage (JStr
       ("Mock LLM response to: " +:+ dquote +:+ prompt +:+ dquote
        +:+ ". Enable a real LLM provider in config.js for actual AI responses."))), s).
Proof.
  intros Hmock.
  unfold processUserPromptWithLLM, generateResponse, try_catch, bind. cbv zeta.
  rewrite Hmock. reflexivity.
Qed.

(** X8: with no API key (and mock mode off) the gateway fails before it
    records anything: the response is the gateway's error text and the
    client is exactly as before, the history included. *)
Theorem submission_missing_key (tools : Registry) (prompt : string) (s : Agent) :
  enableMockMode config = false ->
  apiKey (llm config) = "" ->
  processUserPromptWithLLM config remote tools prompt s
  = (Returned (ResponseMessage (JStr gateway_error_text)), s).
Proof.
  intros Hmock Hkey.
  unfold processUserPromptWithLLM, generateResponse, try_catch, bind, getApiKey. cbv zeta.
  rewrite Hmock, Hkey. reflexivity.
Qed.

(** X9: with a provider other than OpenAI (Anthropic included) the gateway
    fails after it recorded the user's turn: the response is the gateway's
    error text, nothing is sent, and the history keeps a user turn that no
    reply follows. *)
Theorem submission_unsupported_provider (tools : Registry) (prompt : string) (s : Agent) :
  enableMockMode config = false ->
  apiKey (llm config) <> "" ->
  provider (llm config) <> "openai" ->
  processUserPromptWithLLM config remote tools prompt s
  = (Returned (ResponseMessage (JStr gateway_error_text)),
     advanced [UserMessage prompt] [] s).
Proof.
  intros Hmock Hkey Hprovider.
  apply String.eqb_neq in Hkey, Hprovider.
  unfold processUserPromptWithLLM, generateResponse, try_catch, bind, getApiKey,
    push_history, modify, callAnthropic, throw, advanced. cbv zeta.
  rewrite Hmock, Hkey, Hprovider, app_nil_r. simpl.
  destruct (String.eqb (provider (llm config)) "anthropic"); reflexivity.
Qed.

End Offline.

(** ** The history only grows *)

Lemma appends_stateless {A : Type} (m : M Agent A) : stateless m -> appends 0 m.
Proof. intros Hm s. rewrite Hm. exists []. now rewrite app_nil_r. Qed.

Lemma appends_weaken {A : Type} (n n' : nat) (m : M Agent A) :
  (n <= n')%nat -> appends n m -> appends n' m.
Proof. intros Hn Hm s. destruct (Hm s) as (turns & Hturns & Hlen). exists turns. split; [trivial | lia]. Qed.

Lemma appends_bind {A B : Type} (n k : nat) (m : M Agent A) (f : A -> M Agent B) :
  appends n m -> (forall a, appends k (f a)) -> appends (n + k) (bind m f).
Proof.
  intros Hm Hf s. unfold bind, state_of.
  destruct (Hm s) as (turns & Hturns & Hlen). unfold state_of in Hturns.
  destruct (m s) as [[a|e] s1]; simpl in *.
  - destruct (Hf a s1) as (turns' & Hturns' & Hlen'). unfold state_of in Hturns'.
    exists (turns ++ turns'). rewrite Hturns', Hturns, app_assoc, length_app.
    split; [reflexivity | lia].
  - exists turns. split; [assumption | lia].
Qed.

Lemma appends_try_catch {A : Type} (n k : nat) (m : M Agent A) (h : Exn -> M Agent A) :
  appends n m -> (forall e, appends k (h e)) -> appends (n + k) (try_catch m h).
Proof.
  intros Hm Hh s. unfold try_catch, state_of.
  destruct (Hm s) as (turns & Hturns & Hlen). unfold state_of in Hturns.
  destruct (m s) as [[a|e] s1]; simpl in *.
  - exists turns. split; [assumption | lia].
  - destruct (Hh e s1) as (turns' & Hturns' & Hlen'). unfold state_of in Hturns'.
    exists (turns ++ turns'). rewrite Hturns', Hturns, app_assoc, length_app.
    split; [reflexivity | lia].
Qed.

Lemma appends_push_history (m : ChatMessage) : appends 1 (push_history m).
Proof. intros s. exists [m]. split; [reflexivity | simpl; lia]. Qed.

Lemma appends_fetch (remote : Provider) (rq : HttpRequest) : appends 0 (fetch remote rq).
Proof. intros s. exists []. simpl. now rewrite app_nil_r. Qed.

Lemma appends_lift_browser {A : Type} (m : M Browser A) : appends 0 (lift_browser m).
Proof.
  intros s. unfold lift_browser, state_of. destruct (m (browser s)) as [o b].
  exists []. simpl. now rewrite app_nil_r.
Qed.

Section History.

Context `{Platform}.
Variable config : Config.
Variable remote : Provider.

Lemma appends_processOpenAIResponse (data : ApiResponse) :
  appends 1 (processOpenAIResponse data).
Proof.
  unfold processOpenAIResponse.
  destruct data as [|message];
    [apply (appends_weaken 0); [lia | apply appends_stateless, stateless_throw]|].
  apply (appends_bind 1 0); [apply appends_push_history | intros _].
  apply appends_stateless.
  destruct message as [m|]; [|apply stateless_throw].
  destruct (tool_calls m) as [[|toolCall rest]|]; try apply stateless_ret.
  destruct (JSON_parse _); apply stateless_ret.
Qed.

Lemma appends_callOpenAI (userMessage : string) (availableTools : Registry) (key : string) :
  appends 1 (callOpenAI config remote userMessage availableTools key).
Proof.
  unfold callOpenAI. cbv zeta.
  apply (appends_bind 0 1); [apply appends_stateless; now intros s | intros s0].
  apply (appends_bind 0 1); [apply appends_fetch | intros response].
  destruct response;
    try (apply (appends_weaken 0); [lia | apply appends_stateless, stateless_throw]).
  apply appends_processOpenAIResponse.
Qed.

Lemma appends_generateResponse (userMessage : string) (availableTools : Registry) :
  appends 2 (generateResponse config remote userMessage availableTools).
Proof.
  unfold generateResponse.
  apply (appends_try_catch 2 0); [|intros e; apply appends_stateless, stateless_ret].
  destruct (enableMockMode config);
    [apply (appends_weaken 0); [lia | apply appends_stateless, stateless_ret]|].
  apply (appends_bind 0 2); [apply appends_stateless, stateless_getApiKey | intros key].
  apply (appends_bind 1 1); [apply appends_push_history | intros _].
  destruct (String.eqb _ "openai"); [apply appends_callOpenAI|].
  apply (appends_weaken 0); [lia|]. apply appends_stateless.
  destruct (String.eqb _ "anthropic"); apply stateless_throw.
Qed.

Lemma appends_handleFunctionResult (toolCallId : option string) (functionName : string)
    (functionResult : JSValue) :
  appends 2 (handleFunctionResult config remote toolCallId functionName functionResult).
Proof.
  unfold handleFunctionResult.
  apply (appends_bind 1 1); [apply appends_push_history | intros _].
  apply (appends_bind 0 1); [apply appends_stateless, stateless_getApiKey | intros key].
  apply appends_callOpenAI.
Qed.

(** X10: the conversation history is append-only.  Whatever the
    configuration, the provider and the tools do, a submission keeps every
    earlier turn in place and adds at most four turns behind them (user,
    assistant, tool result, assistant). *)
Theorem submission_history_append_only (tools : Registry) (prompt : string) (s : Agent) :
  exists turns,
    conversationHistory (state_of (processUserPromptWithLLM config remote tools prompt s))
    = conversationHistory s ++ turns
    /\ (length turns <= 4)%nat.
Proof.
  revert s. change (appends 4 (processUserPromptWithLLM config remote tools prompt)).
  unfold processUserPromptWithLLM. cbv zeta.
  apply (appends_try_catch 4 0).
  - apply (appends_bind 2 2); [apply appends_generateResponse | intros llmResponse].
    destruct llmResponse as [functionName arguments toolCallId | message | message];
      try (apply (appends_weaken 0); [lia | apply appends_stateless, stateless_ret]).
    apply (appends_bind 0 2); [apply appends_lift_browser | intros functionResult].
    destruct (id_truthy toolCallId).
    + apply (appends_bind 2 0); [apply appends_handleFunctionResult | intros r].
      apply appends_stateless, stateless_ret.
    + apply (appends_weaken 0); [lia|].
      apply appends_stateless, stateless_formatFunctionResult.
  - intros e. apply appends_stateless.
    destruct (enableMockMode config); [now intros s | apply stateless_ret].
Qed.

End History.

(** ** The registry as a list of tools *)

Lemma get_none_keys {V : Type} (k : string) (m : JSMap.t V) :
  JSMap.get k m = None <-> k ∉ JSMap.keys m.
Proof.
  unfold JSMap.get, JSMap.keys. induction m as [|[k' v'] m IH]; simpl.
  - split; [intros _; apply not_elem_of_nil | reflexivity].
  - rewrite not_elem_of_cons. destruct (String.eqb_spec k k') as [->|Hne].
    + split; [discriminate | intros [Hne _]; congruence].
    + rewrite IH. tauto.
Qed.

(** [set] on a fresh key appends the entry; on a known key it keeps the
    keys, and their order, as they are. *)
Lemma keys_set {V : Type} (k : string) (v : V) (m : JSMap.t V) :
  JSMap.keys (JSMap.set k v m)
  = if JSMap.has k m then JSMap.keys m else JSMap.keys m ++ [k].
Proof.
  unfold JSMap.has, JSMap.get, JSMap.keys. induction m as [|[k' v'] m IH]; simpl.
  - reflexivity.
  - destruct (String.eqb_spec k k') as [->|Hne]; simpl; [reflexivity|].
    rewrite IH. now destruct (assoc k m).
Qed.

Lemma set_fresh {V : Type} (k : string) (v : V) (m : JSMap.t V) :
  JSMap.get k m = None -> JSMap.set k v m = m ++ [(k, v)].
Proof.
  unfold JSMap.get. induction m as [|[k' v'] m IH]; simpl; [reflexivity|].
  destruct (String.eqb k k'); [discriminate|]. intros Hnone. now rewrite IH.
Qed.

Lemma keys_set_NoDup {V : Type} (k : string) (v : V) (m : JSMap.t V) :
  NoDup (JSMap.keys m) -> NoDup (JSMap.keys (JSMap.set k v m)).
Proof.
  intros Hnd. rewrite keys_set. unfold JSMap.has.
  destruct (JSMap.get k m) eqn:Hget; [assumption|].
  apply NoDup_app. split; [assumption|]. split.
  - intros x Hx Hin. apply list_elem_of_singleton in Hin. subst x.
    now apply get_none_keys in Hget.
  - apply NoDup_singleton.
Qed.

Lemma set_all_keys (batch : list Tool) (m : Registry) :
  NoDup (JSMap.keys m) ->
  NoDup (JSMap.keys (fold_left (fun m tool => JSMap.set (name tool) tool m) batch m))
  /\ (length (fold_left (fun m tool => JSMap.set (name tool) tool m) batch m)
      <= length m + length batch)%nat.
Proof.
  revert m. induction batch as [|tool rest IH]; intros m Hnd; simpl.
  - split; [assumption | lia].
  - destruct (IH (JSMap.set (name tool) tool m)) as [Hkeys Hlen].
    + now apply keys_set_NoDup.
    + split; [assumption|].
      assert (length (JSMap.set (name tool) tool m) <= S (length m))%nat.
      { pose proof (keys_set (name tool) tool m) as Hk.
        apply (f_equal (@length string)) in Hk. unfold JSMap.keys in Hk.
        rewrite length_map in Hk. rewrite Hk.
        destruct (JSMap.has (name tool) m); rewrite ?length_app, length_map; simpl; lia. }
      lia.
Qed.

(** X11: whatever batch is registered, duplicates included, the registry
    never holds two tools under one name: after [provideContext] its keys
    are pairwise distinct, they are exactly the names of the batch, and
    there are at most as many as tools in the batch. *)
Theorem provideContext_keys (old : Registry) (batch : list Tool) :
  let tools := state_of (provideContext batch old) in
  NoDup (JSMap.keys tools)
  /\ (forall n, n ∈ JSMap.keys tools <-> n ∈ map name batch)
  /\ (JSMap.size tools <= length batch)%nat.
Proof.
  intros tools. subst tools. split; [|split].
  - unfold provideContext, state_of, bind, modify, JSMap.clear. simpl.
    apply (set_all_keys batch []). apply NoDup_nil_2.
  - intros n. split.
    + intros Hin. destruct (decide (n ∈ map name batch)) as [|Hout]; [assumption|].
      exfalso. apply last_named_absent in Hout.
      rewrite <- (provideContext_get batch old) in Hout.
      apply get_none_keys in Hout. contradiction.
    + intros Hin. destruct (decide (n ∈ JSMap.keys (state_of (provideContext batch old))))
        as [|Hout]; [assumption|].
      exfalso. apply get_none_keys in Hout. rewrite provideContext_get in Hout.
      clear old. induction batch as [|tool rest IH]; simpl in *.
      * now apply elem_of_nil in Hin.
      * destruct (last_named n rest); [discriminate|].
        destruct (String.eqb_spec (name tool) n) as [Heq|Hne]; [discriminate|].
        apply elem_of_cons in Hin as [Hin|Hin]; [congruence | now apply IH].
  - unfold provideContext, state_of, bind, modify, JSMap.clear, JSMap.size. simpl.
    destruct (set_all_keys batch []) as [_ Hlen]; [apply NoDup_nil_2 | exact Hlen].
Qed.

Lemma get_app_fresh {V : Type} (k k' : string) (v : V) (m : JSMap.t V) :
  k <> k' -> JSMap.get k m = None -> JSMap.get k (m ++ [(k', v)]) = None.
Proof.
  intros Hne. unfold JSMap.get. induction m as [|[k0 v0] m IH]; simpl.
  - apply String.eqb_neq in Hne. now rewrite Hne.
  - destruct (String.eqb k k0); [discriminate | exact IH].
Qed.

Lemma set_all_unique (batch : list Tool) (m : Registry) :
  NoDup (map name batch) ->
  (forall tool, tool ∈ batch -> JSMap.get (name tool) m = None) ->
  fold_left (fun m tool => JSMap.set (name tool) tool m) batch m
  = m ++ map (fun tool => (name tool, tool)) batch.
Proof.
  revert m. induction batch as [|tool rest IH]; intros m Hnd Hfresh; simpl.
  - now rewrite app_nil_r.
  - apply NoDup_cons in Hnd as [Hhead Hrest].
    rewrite set_fresh by (apply Hfresh, elem_of_cons; now left).
    rewrite IH; [now rewrite <- app_assoc | assumption |].
    intros t Ht. apply get_app_fresh.
    + intros Heq. apply Hhead. rewrite <- Heq.
      apply list_elem_of_In, in_map, list_elem_of_In, Ht.
    + apply Hfresh, elem_of_cons. now right.
Qed.

(** X12: tools registered under unique names are listed in registration
    order: the registry's values are the batch itself, and the function
    declarations sent to the model carry the batch's names in the same
    order. *)
Theorem provideContext_registration_order (old : Registry) (batch : list Tool) :
  NoDup (map name batch) ->
  JSMap.values (state_of (provideContext batch old)) = batch
  /\ map fn_name (formatToolsForOpenAI (state_of (provideContext batch old)))
     = map name batch
  /\ JSMap.size (state_of (provideContext batch old)) = length batch.
Proof.
  intros Hnd.
  assert (Hreg : state_of (provideContext batch old)
                 = map (fun tool => (name tool, tool)) batch).
  { unfold provideContext, state_of, bind, modify, JSMap.clear. simpl.
    now rewrite set_all_unique. }
  rewrite Hreg. unfold formatToolsForOpenAI, JSMap.values, JSMap.size.
  rewrite !map_map, length_map. simpl. rewrite map_id. repeat split.
Qed.

(** ** The transfer form *)

Section TransferForm.

Context `{Platform}.

(** What [showTransferModal] writes, for a numeric amount, in terms of
    [account_name_or_NA]. *)
Lemma showTransferModal_writes (from to : string) (n : float) (w : World) :
  let run := showTransferModal from to (JNum n) w in
  result_of run = Returned tt
  /\ document (state_of run) !! "fromAccount"
     = set_value (account_name_or_NA w from) <$> document w !! "fromAccount"
  /\ document (state_of run) !! "toAccount"
     = set_value (account_name_or_NA w to) <$> document w !! "toAccount"
  /\ document (state_of run) !! "amount"
     = set_value (toFixed n 2) <$> document w !! "amount"
  /\ document (state_of run) !! "portfolio-summary"
     = set_display "none" <$> document w !! "portfolio-summary"
  /\ document (state_of run) !! "transfer-module"
     = set_display "block" <$> document w !! "transfer-module"
  /\ (forall id,
        id <> "fromAccount" -> id <> "toAccount" -> id <> "amount" ->
        id <> "portfolio-summary" -> id <> "transfer-module" ->
        document (state_of run) !! id = document w !! id).
Proof.
  intros run. subst run.
  unfold showTransferModal, result_of, state_of, bind, log_call, when_present, modify,
    get_state, set_document, js_toFixed, ret.
  simpl. destruct (document w !! "amount") as [el|] eqn:Hamount; simpl.
  - repeat split;
      try (intros id ? ? ? ? ?);
      repeat first [ rewrite lookup_alter_eq | rewrite lookup_alter_ne by done ];
      try reflexivity.
    now rewrite Hamount.
  - repeat split;
      try (intros id ? ? ? ? ?);
      repeat first [ rewrite lookup_alter_eq | rewrite lookup_alter_ne by done ];
      try reflexivity.
    now rewrite Hamount.
Qed.

(** The text shown for an id: the name of the account stored under it, if
    that name is not empty; the name of the function that
    [Object.prototype] holds under it, if the table has no such key; and
    ["N/A"] otherwise. *)
Lemma account_name_or_NA_cases (w : World) (id : string) :
  (forall acc, assoc id (mockAccountData w) = Some acc -> acc_name acc <> "" ->
               account_name_or_NA w id = acc_name acc)
  /\ (forall acc, assoc id (mockAccountData w) = Some acc -> acc_name acc = "" ->
                  account_name_or_NA w id = "N/A")
  /\ (forall inherited, assoc id (mockAccountData w) = None ->
                        Object_prototype_function_name id = Some inherited ->
                        account_name_or_NA w id = inherited)
  /\ (assoc id (mockAccountData w) = None -> Object_prototype_function_name id = None ->
      account_name_or_NA w id = "N/A").
Proof.
  unfold account_name_or_NA. repeat split.
  - intros acc -> Hname. apply String.eqb_neq in Hname. now rewrite Hname.
  - intros acc -> ->. reflexivity.
  - intros inherited -> ->. reflexivity.
  - intros -> ->. reflexivity.
Qed.

(** X13: what [showTransferModal] writes, for a numeric amount.  It
    returns; the source and the destination field take the text shown for
    the given id, the amount field takes the amount with two decimals, the
    portfolio summary is hidden and the transfer module shown; an element
    that is missing is skipped, and every other element of the document is
    left as it was.  The text shown for an id is the name of the account the
    table holds under it, or ["N/A"] when that name is empty; an id that is
    not a key of the table is not simply unknown, since the table is an
    object literal: [constructor] shows as ["Object"], the name of any other
    method of [Object.prototype] as itself, and only an id found nowhere as
    ["N/A"]. *)
Theorem showTransferModal_prefills (from to : string) (n : float) (w : World) :
  let run := showTransferModal from to (JNum n) w in
  let shows (id field : string) :=
    exists text,
      document (state_of run) !! field = set_value text <$> document w !! field
      /\ (forall acc, assoc id (mockAccountData w) = Some acc -> acc_name acc <> "" ->
                      text = acc_name acc)
      /\ (forall acc, assoc id (mockAccountData w) = Some acc -> acc_name acc = "" ->
                      text = "N/A")
      /\ (assoc id (mockAccountData w) = None -> id = "constructor" -> text = "Object")
      /\ (forall inherited, assoc id (mockAccountData w) = None ->
                            Object_prototype_function_name id = Some inherited ->
                            text = inherited)
      /\ (assoc id (mockAccountData w) = None ->
          Object_prototype_function_name id = None -> text = "N/A") in
  result_of run = Returned tt
  /\ shows from "fromAccount"
  /\ shows to "toAccount"
  /\ document (state_of run) !! "amount"
     = set_value (toFixed n 2) <$> document w !! "amount"
  /\ document (state_of run) !! "portfolio-summary"
     = set_display "none" <$> document w !! "portfolio-summary"
  /\ document (state_of run) !! "transfer-module"
     = set_display "block" <$> document w !! "transfer-module"
  /\ (forall id,
        id <> "fromAccount" -> id <> "toAccount" -> id <> "amount" ->
        id <> "portfolio-summary" -> id <> "transfer-module" ->
        document (state_of run) !! id = document w !! id).
Proof.
  intros run shows.
  destruct (showTransferModal_writes from to n w)
    as (Hres & Hfrom & Hto & Hamount & Hsummary & Hmodule & Hother).
  assert (Hshows : forall id field,
            document (state_of run) !! field
            = set_value (account_name_or_NA w id) <$> document w !! field ->
            shows id field).
  { intros id field Hfield. exists (account_name_or_NA w id).
    destruct (account_name_or_NA_cases w id) as (Hown & Hempty & Hinherited & Hnone).
    split; [exact Hfield|]. split; [exact Hown|]. split; [exact Hempty|].
    split; [|split; [exact Hinherited | exact Hnone]].
    intros Habsent ->. now apply Hinherited. }
  split; [exact Hres|]. split; [now apply Hshows|]. split; [now apply Hshows|].
  repeat split; assumption.
Qed.

(** X14: a transfer whose two accounts resolve and whose amount is a
    number is staged and nothing more: the executor returns the
    review-and-submit message, and its whole effect on the page is one call
    of [showTransferModal] with the ids of the resolved accounts and the
    amount as given.  Neither the amount (negative, larger than the
    balance, not finite) nor the pair of accounts (the same account twice)
    is checked. *)
Theorem initiateFundTransfer_stages_resolved (props : list (string * JSValue))
    (from to : string) (n : float) (w : World) (source destination : Account) :
  assoc "fromAccount" props = Some (JStr from) ->
  assoc "toAccount" props = Some (JStr to) ->
  assoc "amount" props = Some (JNum n) ->
  find_account (toLowerCase from) w = Some source ->
  find_account (toLowerCase to) w = Some destination ->
  initiateFundTransfer_execute (JObj props) w
  = (Returned (JObj [ ("success", JBool true);
                      ("message", JStr "I've prepared the transfer for you. Please review and click 'Submit' to complete it.") ]),
     state_of (showTransferModal (acc_id source) (acc_id destination) (JNum n) w))
  /\ appCalls (state_of (initiateFundTransfer_execute (JObj props) w))
     = appCalls w ++ [CallShowTransferModal (acc_id source) (acc_id destination) (JNum n)].
Proof.
  intros Hfrom Hto Hamount Hsource Hdestination.
  assert (Hrun : initiateFundTransfer_execute (JObj props) w
                 = (Returned (JObj [ ("success", JBool true);
                                     ("message", JStr "I've prepared the transfer for you. Please review and click 'Submit' to complete it.") ]),
                    state_of (showTransferModal (acc_id source) (acc_id destination)
                                (JNum n) w))).
  { unfold initiateFundTransfer_execute, state_of, bind, get_prop, js_toLowerCase,
      get_state, ret.
    rewrite Hfrom, Hto, Hamount. simpl. rewrite Hsource, Hdestination.
    destruct (showTransferModal_run (acc_id source) (acc_id destination) (JNum n) w)
      as (doc' & Hshow & _).
    rewrite Hshow. now destruct (document w !! "amount"). }
  split; [exact Hrun|]. rewrite Hrun. unfold state_of. simpl.
  destruct (showTransferModal_run (acc_id source) (acc_id destination) (JNum n) w)
    as (doc' & Hshow & _).
  now rewrite Hshow.
Qed.

(** X15: a transfer whose accounts resolve but whose amount is not a
    number fails on a page that has the amount field, and [invokeTool]
    reports the generic internal error.  How far it got depends on the
    amount.  One that can be printed (a string, [undefined] for a missing
    amount, ...) passes the executor's log line and fails half-way through
    [showTransferModal]: the source and destination fields are already
    overwritten when [toFixed] raises, and the transfer module is not
    shown.  One that cannot be printed (an object with a [toString]
    property) fails at the log line, and the page is untouched. *)
Theorem initiateFundTransfer_bad_amount (tools : Registry) (props : list (string * JSValue))
    (from to : string) (b : Browser) (source destination : Account) (field : Element) :
  JSMap.get "initiateFundTransfer" tools = Some initiateFundTransfer ->
  assoc "fromAccount" props = Some (JStr from) ->
  assoc "toAccount" props = Some (JStr to) ->
  (forall n, default JUndefined (assoc "amount" props) <> JNum n) ->
  find_account (toLowerCase from) (page b) = Some source ->
  find_account (toLowerCase to) (page b) = Some destination ->
  document (page b) !! "amount" = Some field ->
  let run := invokeTool tools "initiateFundTransfer" (JObj props) b in
  result_of run = Returned internal_error
  /\ (forall shown,
        js_ToString (default JUndefined (assoc "amount" props)) = Some shown ->
        document (page (state_of run)) !! "fromAccount"
        = set_value (account_name_or_NA (page b) (acc_id source))
          <$> document (page b) !! "fromAccount"
        /\ document (page (state_of run)) !! "toAccount"
           = set_value (account_name_or_NA (page b) (acc_id destination))
             <$> document (page b) !! "toAccount"
        /\ document (page (state_of run)) !! "amount" = Some field
        /\ document (page (state_of run)) !! "transfer-module"
           = document (page b) !! "transfer-module"
        /\ document (page (state_of run)) !! "portfolio-summary"
           = document (page b) !! "portfolio-summary"
        /\ appCalls (page (state_of run))
           = appCalls (page b)
             ++ [CallShowTransferModal (acc_id source) (acc_id destination)
                   (default JUndefined (assoc "amount" props))])
  /\ (js_ToString (default JUndefined (assoc "amount" props)) = None ->
      page (state_of run) = page b).
Proof.
  intros Hget Hfrom Hto Hamount Hsource Hdestination Hfield run. subst run.
  unfold invokeTool. rewrite Hget.
  unfold try_catch, bind, log_execute, modify, lift_page, result_of, state_of.
  cbn [execute initiateFundTransfer page executed].
  rewrite (initiateFundTransfer_strings props from to (page b) Hfrom Hto).
  destruct (js_ToString (default JUndefined (assoc "amount" props))) as [shown|].
  - rewrite Hsource, Hdestination.
    unfold showTransferModal, bind, log_call, when_present, modify, get_state, set_document,
      js_toFixed, ret, throw.
    simpl. rewrite Hfield.
    destruct (default JUndefined (assoc "amount" props)) as [| | |n| | |] eqn:Hvalue;
      try (exfalso; exact (Hamount n eq_refl));
      simpl;
      (split; [reflexivity|]); (split; [|discriminate]); intros shown' _;
      repeat split;
      repeat first [ rewrite lookup_alter_eq | rewrite lookup_alter_ne by done ];
      solve [reflexivity | assumption].
  - simpl. split; [reflexivity|]. split; [discriminate|]. reflexivity.
Qed.

End TransferForm.

(** ** Edge cases of the account lookup *)

Lemma includes_empty (s : string) : includes s "" = true.
Proof. apply includes_spec. exists "", s. reflexivity. Qed.

Lemma has_class_removed (c : string) (l : list string) :
  existsb (String.eqb c) (classList_remove c l) = false.
Proof.
  unfold classList_remove. induction l as [|c' l IH]; [reflexivity|].
  rewrite filter_cons. destruct (decide _) as [Hkeep|Hdrop]; [|exact IH].
  simpl. rewrite IH, orb_false_r.
  now destruct (String.eqb c c').
Qed.

Lemma has_class_added (c : string) (l : list string) :
  existsb (String.eqb c) (classList_add c l) = true.
Proof.
  unfold classList_add. destruct (existsb (String.eqb c) l) eqn:E; [exact E|].
  rewrite existsb_app. simpl. rewrite String.eqb_refl. now rewrite orb_true_r.
Qed.

Section Lookup.

Context `{Platform}.

(** X16: the empty identifier matches everything, so on a table that is
    not empty [getAccountBalance] answers it with the first account of the
    table; on an empty table every identifier is reported as not found. *)
Theorem getAccountBalance_empty_identifier (props : list (string * JSValue)) (w : World) :
  (forall first rest,
     assoc "accountIdentifier" props = Some (JStr "") ->
     Object_values (mockAccountData w) = first :: rest ->
     result_of (getAccountBalance_execute (JObj props) w)
     = Returned (JObj [ ("success", JBool true); ("accountName", JStr (acc_name first));
                        ("balance", JNum (acc_balance first)) ]))
  /\ (forall id,
        assoc "accountIdentifier" props = Some (JStr id) ->
        mockAccountData w = [] ->
        getAccountBalance_execute (JObj props) w
        = (Returned (JObj [ ("success", JBool false);
                            ("message", JStr ("Account '" +:+ id +:+ "' not found.")) ]), w)).
Proof.
  split.
  - intros first rest Hid Htable.
    apply (getAccountBalance_found props "" w first Hid).
    unfold find_account. rewrite Htable, (toLowerCase_on_ascii "" eq_refl).
    cbn [find ascii_toLowerCase]. unfold name_matches. now rewrite includes_empty.
  - intros id Hid Htable.
    apply (getAccountBalance_missing props id w Hid).
    unfold find_account. now rewrite Htable.
Qed.

(** What [highlightAccount] leaves behind: no element is added or removed,
    the item of the account carries the highlight when it exists, and no
    other account item does. *)
Lemma highlightAccount_exclusive (accountId : string) (w : World) :
  let doc' := document (state_of (highlightAccount accountId w)) in
  (forall k el,
     doc' !! k = Some el ->
     has_class "account-item" el = true -> has_class "highlight" el = true ->
     k = "account-" +:+ accountId)
  /\ (forall el,
        document w !! ("account-" +:+ accountId) = Some el ->
        exists el', doc' !! ("account-" +:+ accountId) = Some el'
                    /\ has_class "highlight" el' = true)
  /\ (forall k, is_Some (doc' !! k) <-> is_Some (document w !! k)).
Proof.
  intros doc'. subst doc'.
  unfold highlightAccount, state_of, bind, log_call, when_present, modify, set_document.
  simpl. split; [|split].
  - intros k el Hel Hitem Hlit.
    destruct (decide (k = "account-" +:+ accountId)) as [|Hne]; [assumption|].
    exfalso. rewrite lookup_alter_ne, lookup_fmap in Hel by congruence.
    destruct (document w !! k) as [el0|]; simpl in Hel; [|discriminate].
    injection Hel as <-.
    destruct (has_class "account-item" el0 && has_class "highlight" el0) eqn:Hboth.
    + change (existsb (String.eqb "highlight")
                (classList_remove "highlight" (classList el0)) = true) in Hlit.
      rewrite has_class_removed in Hlit. discriminate.
    + rewrite Hitem, Hlit in Hboth. discriminate.
  - intros el Hel. rewrite lookup_alter_eq, lookup_fmap, Hel. simpl.
    eexists. split; [reflexivity|].
    match goal with
    | |- has_class _ (set_classList _ ?e) = true =>
        change (existsb (String.eqb "highlight")
                  (classList_add "highlight" (classList e)) = true)
    end.
    apply has_class_added.
  - intros k. rewrite lookup_alter_is_Some, lookup_fmap. apply fmap_is_Some.
Qed.

(** X17: a successful balance query moves the highlight.  Afterwards the
    item of the account found carries the [highlight] class (when the page
    has that item) and no other account item does; the account table is
    unchanged, no element appears or disappears, and the one call into the
    application is [highlightAccount] with the account's id. *)
Theorem getAccountBalance_highlights (props : list (string * JSValue)) (id : string)
    (w : World) (acc : Account) :
  assoc "accountIdentifier" props = Some (JStr id) ->
  find_account (toLowerCase id) w = Some acc ->
  let w' := state_of (getAccountBalance_execute (JObj props) w) in
  (forall k el,
     document w' !! k = Some el ->
     has_class "account-item" el = true -> has_class "highlight" el = true ->
     k = "account-" +:+ acc_id acc)
  /\ (forall el,
        document w !! ("account-" +:+ acc_id acc) = Some el ->
        exists el', document w' !! ("account-" +:+ acc_id acc) = Some el'
                    /\ has_class "highlight" el' = true)
  /\ (forall k, is_Some (document w' !! k) <-> is_Some (document w !! k))
  /\ mockAccountData w' = mockAccountData w
  /\ appCalls w' = appCalls w ++ [CallHighlightAccount (acc_id acc)].
Proof.
  intros Hid Hfind w'.
  assert (Hw' : w' = state_of (highlightAccount (acc_id acc) w)).
  { subst w'. unfold getAccountBalance_execute, state_of, bind, get_prop, js_toLowerCase,
      get_state, ret.
    rewrite Hid. simpl. rewrite Hfind. reflexivity. }
  rewrite Hw'. clear Hw' w'.
  destruct (highlightAccount_exclusive (acc_id acc) w) as (Hexcl & Hlit & Hsame).
  repeat split; try assumption; try apply Hsame.
Qed.

(** X18: the confirm and cancel buttons of the transfer form, on a page
    that has the chat history, the transfer module and the portfolio
    summary: the click appends its message as the last entry of the chat,
    hides the transfer module and shows the portfolio summary again; the
    account table is not written, so confirming moves no money. *)
Theorem transfer_click_closes_form (w : World) (chat module summary : Element) :
  document w !! "ai-chat-history" = Some chat ->
  document w !! "transfer-module" = Some module ->
  document w !! "portfolio-summary" = Some summary ->
  let said text :=
    appendChild {| className := "message agent-message"; textContent := text |} chat in
  (result_of (submit_transfer_click w) = Returned tt
   /\ document (state_of (submit_transfer_click w)) !! "ai-chat-history"
      = Some (said "Transfer submitted successfully!")
   /\ document (state_of (submit_transfer_click w)) !! "transfer-module"
      = Some (set_display "none" module)
   /\ document (state_of (submit_transfer_click w)) !! "portfolio-summary"
      = Some (set_display "block" summary)
   /\ mockAccountData (state_of (submit_transfer_click w)) = mockAccountData w)
  /\ (result_of (cancel_transfer_click w) = Returned tt
      /\ document (state_of (cancel_transfer_click w)) !! "ai-chat-history"
         = Some (said "Transfer canceled.")
      /\ document (state_of (cancel_transfer_click w)) !! "transfer-module"
         = Some (set_display "none" module)
      /\ document (state_of (cancel_transfer_click w)) !! "portfolio-summary"
         = Some (set_display "block" summary)
      /\ mockAccountData (state_of (cancel_transfer_click w)) = mockAccountData w).
Proof.
  intros Hchat Hmodule Hsummary said. subst said.
  unfold submit_transfer_click, cancel_transfer_click, displayAgentMessage,
    hideTransferModal, must_update, result_of, state_of, bind, log_call, modify, get_state,
    set_document, throw.
  simpl. rewrite Hchat. simpl.
  rewrite !lookup_alter_ne by done. rewrite Hmodule. simpl.
  rewrite !lookup_alter_ne by done. rewrite Hsummary. simpl.
  repeat split;
    repeat first [ rewrite lookup_alter_eq | rewrite lookup_alter_ne by done ];
    first [ now rewrite Hchat | now rewrite Hmodule | now rewrite Hsummary ].
Qed.

(** X19: on a page without the chat history element the confirm click
    raises before it reaches the form: the transfer module stays as it is,
    and so does every other element. *)
Theorem transfer_click_without_chat (w : World) :
  document w !! "ai-chat-history" = None ->
  result_of (submit_transfer_click w) = Thrown TypeError
  /\ document (state_of (submit_transfer_click w)) = document w
  /\ appCalls (state_of (submit_transfer_click w))
     = appCalls w ++ [CallDisplayAgentMessage "Transfer submitted successfully!"].
Proof.
  intros Hchat.
  unfold submit_transfer_click, displayAgentMessage, must_update, result_of, state_of,
    bind, log_call, modify, get_state, set_document, throw.
  simpl. rewrite Hchat. repeat split.
Qed.

(** X20: staging and then closing.  After [showTransferModal] with a
    numeric amount and then [hideTransferModal], on a page that has the
    transfer module and the portfolio summary, the module is hidden and
    the summary shown again, while the three fields keep what was
    pre-filled. *)
Theorem show_then_hide (from to : string) (n : float) (w : World)
    (module summary : Element) :
  document w !! "transfer-module" = Some module ->
  document w !! "portfolio-summary" = Some summary ->
  let shown := state_of (showTransferModal from to (JNum n) w) in
  let hidden := state_of (hideTransferModal shown) in
  result_of (hideTransferModal shown) = Returned tt
  /\ document hidden !! "transfer-module" = Some (set_display "none" module)
  /\ document hidden !! "portfolio-summary" = Some (set_display "block" summary)
  /\ document hidden !! "fromAccount" = document shown !! "fromAccount"
  /\ document hidden !! "toAccount" = document shown !! "toAccount"
  /\ document hidden !! "amount" = document shown !! "amount".
Proof.
  intros Hmodule Hsummary shown hidden.
  destruct (showTransferModal_writes from to n w)
    as (_ & _ & _ & _ & Hs & Hm & _). fold shown in Hs, Hm.
  rewrite Hmodule in Hm. rewrite Hsummary in Hs. simpl in Hm, Hs.
  subst hidden.
  unfold hideTransferModal, must_update, result_of, state_of, bind, log_call, modify,
    get_state, set_document, throw.
  simpl. rewrite Hm. simpl. rewrite !lookup_alter_ne by done. rewrite Hs. simpl.
  repeat split;
    repeat first [ rewrite lookup_alter_eq | rewrite lookup_alter_ne by done ];
    first [ now rewrite Hm | now rewrite Hs | reflexivity ].
Qed.

End Lookup.

(** ** Formatting a tool result without the model *)

Lemma mapM_pure {S A B : Type} (f : A -> M S B) (g : A -> B) (l : list A) (s : S) :
  (forall a, a ∈ l -> forall s', f a s' = (Returned (g a), s')) ->
  mapM f l s = (Returned (map g l), s).
Proof.
  revert s. induction l as [|x l IH]; intros s Hf; simpl; [reflexivity|].
  unfold bind. rewrite (Hf x) by (apply elem_of_cons; now left).
  rewrite IH; [reflexivity|].
  intros a Ha. apply Hf, elem_of_cons. now right.
Qed.

Section Formatting.

Context `{Platform}.

(** X21: how a failed tool result is worded on the legacy path.  For a
    result object whose [success] is falsy, the message is passed through
    as it is for [initiateFundTransfer] and [getPortfolioPerformance]; for
    every other function name it is printed behind ["Error: "], and
    formatting raises when the message cannot be printed (an object with a
    [toString] property, or an array that holds one). *)
Theorem formatFunctionResult_failure {S : Type} (functionName : string)
    (props : list (string * JSValue)) (s : S) :
  truthy (default JUndefined (assoc "success" props)) = false ->
  formatFunctionResult functionName (JObj props) s
  = (if String.eqb functionName "initiateFundTransfer"
        || String.eqb functionName "getPortfolioPerformance"
     then Returned (ResponseMessage (default JUndefined (assoc "message" props)))
     else match js_ToString (default JUndefined (assoc "message" props)) with
          | Some shown => Returned (ResponseMessage (JStr ("Error: " +:+ shown)))
          | None => Thrown TypeError
          end,
     s).
Proof.
  intros Hfalsy.
  assert (Hfallback :
            (let! success := get_prop (JObj props) "success" in
             let! message := get_prop (JObj props) "message" in
             if truthy success then ret (ResponseMessage message)
             else
               let! shown := ToString message in
               ret (ResponseMessage (JStr ("Error: " +:+ shown)))) s
            = (match js_ToString (default JUndefined (assoc "message" props)) with
               | Some shown => Returned (ResponseMessage (JStr ("Error: " +:+ shown)))
               | None => Thrown TypeError
               end, s)).
  { unfold bind, get_prop, ret, ToString. rewrite Hfalsy.
    now destruct (js_ToString (default JUndefined (assoc "message" props))). }
  unfold formatFunctionResult. cbv zeta.
  destruct (String.eqb functionName "getAccountBalance") eqn:Hbalance.
  { apply String.eqb_eq in Hbalance. subst functionName. cbn [String.eqb Ascii.eqb Bool.eqb orb].
    unfold bind at 1, get_prop at 1, ret at 1. rewrite Hfalsy. exact Hfallback. }
  destruct (String.eqb functionName "getAccountList") eqn:Hlist.
  { apply String.eqb_eq in Hlist. subst functionName. cbn [String.eqb Ascii.eqb Bool.eqb orb].
    unfold bind at 1, get_prop at 1, ret at 1. rewrite Hfalsy. exact Hfallback. }
  destruct (String.eqb functionName "initiateFundTransfer"); [reflexivity|].
  destruct (String.eqb functionName "getPortfolioPerformance"); [reflexivity|].
  exact Hfallback.
Qed.

(** X22: a balance found by [getAccountBalance], formatted without the
    model, reads ["The balance for <name> is $<balance>."] with the
    balance in two decimals; a balance that is not found reads
    ["Error: Account '<id>' not found."]. *)
Theorem formatFunctionResult_balance {S : Type} (props : list (string * JSValue))
    (id : string) (w : World) (s : S) :
  assoc "accountIdentifier" props = Some (JStr id) ->
  forall result, result_of (getAccountBalance_execute (JObj props) w) = Returned result ->
  formatFunctionResult "getAccountBalance" result s
  = (Returned
       (ResponseMessage
          (JStr (match find_account (toLowerCase id) w with
                 | Some acc =>
                     "The balance for " +:+ acc_name acc +:+ " is $"
                     +:+ toFixed (acc_balance acc) 2 +:+ "."
                 | None => "Error: Account '" +:+ id +:+ "' not found."
                 end))), s).
Proof.
  intros Hid result Hresult.
  destruct (find_account (toLowerCase id) w) as [acc|] eqn:Hfind.
  - rewrite (getAccountBalance_found props id w acc Hid Hfind) in Hresult.
    injection Hresult as <-. reflexivity.
  - rewrite (getAccountBalance_missing props id w Hid Hfind) in Hresult.
    injection Hresult as <-. reflexivity.
Qed.

(** X23: the account list, formatted without the model, names every
    account of the table in table order, separated by commas:
    ["Here are your accounts: <name>, <name>, ... ."]. *)
Theorem formatFunctionResult_account_list {S : Type} (args result : JSValue) (w : World)
    (s : S) :
  result_of (getAccountList_execute args w) = Returned result ->
  formatFunctionResult "getAccountList" result s
  = (Returned
       (ResponseMessage
          (JStr ("Here are your accounts: "
                 +:+ join ", " (map acc_name (Object_values (mockAccountData w)))
                 +:+ "."))), s)
  /\ state_of (getAccountList_execute args w) = w.
Proof.
  intros Hresult. split; [|reflexivity].
  unfold getAccountList_execute, result_of, bind, get_state, ret in Hresult.
  simpl in Hresult. injection Hresult as <-.
  unfold formatFunctionResult, bind, get_prop, ret. simpl.
  rewrite (mapM_pure _ (fun a => match a with
                                 | JObj fields => default JUndefined (assoc "name" fields)
                                 | _ => JUndefined
                                 end)).
  - rewrite !map_map. simpl.
    rewrite (mapM_pure _ (fun v => match v with JStr text => text | _ => "" end)).
    + rewrite map_map. reflexivity.
    + intros v Hv s'. apply list_elem_of_In, in_map_iff in Hv as (acc & <- & _).
      reflexivity.
  - intros a Ha s'. apply list_elem_of_In, in_map_iff in Ha as (acc & <- & _). reflexivity.
Qed.

(** X24: a tool that returns nothing ([undefined] or [null]) cannot be
    formatted: reading a property of the result raises, for every function
    name. *)
Theorem formatFunctionResult_no_result {S : Type} (functionName : string) (result : JSValue)
    (s : S) :
  result = JUndefined \/ result = JNull ->
  formatFunctionResult functionName result s = (Thrown TypeError, s).
Proof.
  intros Hresult.
  unfold formatFunctionResult, bind, get_prop, throw. cbv zeta.
  destruct Hresult as [-> | ->];
    repeat match goal with
           | |- context [if ?c then _ else _] => destruct c
           end; reflexivity.
Qed.

End Formatting.

(** ** The page during a submission *)

Lemma keeps_browser_stateless {A : Type} (m : M Agent A) : stateless m -> keeps_browser m.
Proof. intros Hm s. now rewrite Hm. Qed.

Lemma keeps_browser_bind {A B : Type} (m : M Agent A) (k : A -> M Agent B) :
  keeps_browser m -> (forall a, keeps_browser (k a)) -> keeps_browser (bind m k).
Proof.
  intros Hm Hk s. unfold bind, state_of. specialize (Hm s). unfold state_of in Hm.
  destruct (m s) as [[a|e] s1]; simpl in *; [|exact Hm].
  rewrite <- Hm. apply Hk.
Qed.

Lemma keeps_browser_try_catch {A : Type} (m : M Agent A) (h : Exn -> M Agent A) :
  keeps_browser m -> (forall e, keeps_browser (h e)) -> keeps_browser (try_catch m h).
Proof.
  intros Hm Hh s. unfold try_catch, state_of. specialize (Hm s). unfold state_of in Hm.
  destruct (m s) as [[a|e] s1]; simpl in *; [exact Hm|].
  rewrite <- Hm. apply Hh.
Qed.

Lemma keeps_browser_push_history (m : ChatMessage) : keeps_browser (push_history m).
Proof. now intros s. Qed.

Lemma keeps_browser_fetch (remote : Provider) (rq : HttpRequest) :
  keeps_browser (fetch remote rq).
Proof. now intros s. Qed.

(** What [invokeTool] does to the page is what the executor of the tool
    does to it, whether it returns or raises. *)
Lemma invokeTool_page (tools : Registry) (toolName : string) (parameters : JSValue)
    (b : Browser) :
  page (state_of (invokeTool tools toolName parameters b))
  = match JSMap.get toolName tools with
    | Some tool => state_of (execute tool parameters (page b))
    | None => page b
    end.
Proof.
  unfold invokeTool, try_catch, bind, log_execute, modify, lift_page, state_of, ret.
  destruct (JSMap.get toolName tools) as [tool|]; simpl; [|reflexivity].
  now destruct (execute tool parameters (page b)) as [[result|e] w'].
Qed.

Section Page.

Context `{Platform}.
Variable config : Config.
Variable remote : Provider.

Lemma keeps_browser_processOpenAIResponse (data : ApiResponse) :
  keeps_browser (processOpenAIResponse data).
Proof.
  unfold processOpenAIResponse.
  destruct data as [|message]; [apply keeps_browser_stateless, stateless_throw|].
  apply keeps_browser_bind; [apply keeps_browser_push_history | intros _].
  apply keeps_browser_stateless.
  destruct message as [m|]; [|apply stateless_throw].
  destruct (tool_calls m) as [[|toolCall rest]|]; try apply stateless_ret.
  destruct (JSON_parse _); apply stateless_ret.
Qed.

Lemma keeps_browser_callOpenAI (userMessage : string) (availableTools : Registry)
    (key : string) :
  keeps_browser (callOpenAI config remote userMessage availableTools key).
Proof.
  unfold callOpenAI. cbv zeta.
  apply keeps_browser_bind; [apply keeps_browser_stateless; now intros s | intros s0].
  apply keeps_browser_bind; [apply keeps_browser_fetch | intros response].
  destruct response; try apply keeps_browser_stateless, stateless_throw.
  apply keeps_browser_processOpenAIResponse.
Qed.

Lemma keeps_browser_generateResponse (userMessage : string) (availableTools : Registry) :
  keeps_browser (generateResponse config remote userMessage availableTools).
Proof.
  unfold generateResponse.
  apply keeps_browser_try_catch;
    [|intros e; apply keeps_browser_stateless, stateless_ret].
  destruct (enableMockMode config); [apply keeps_browser_stateless, stateless_ret|].
  apply keeps_browser_bind; [apply keeps_browser_stateless, stateless_getApiKey | intros key].
  apply keeps_browser_bind; [apply keeps_browser_push_history | intros _].
  destruct (String.eqb _ "openai"); [apply keeps_browser_callOpenAI|].
  apply keeps_browser_stateless.
  destruct (String.eqb _ "anthropic"); apply stateless_throw.
Qed.

Lemma keeps_browser_handleFunctionResult (toolCallId : option string) (functionName : string)
    (functionResult : JSValue) :
  keeps_browser (handleFunctionResult config remote toolCallId functionName functionResult).
Proof.
  unfold handleFunctionResult.
  apply keeps_browser_bind; [apply keeps_browser_push_history | intros _].
  apply keeps_browser_bind; [apply keeps_browser_stateless, stateless_getApiKey | intros key].
  apply keeps_browser_callOpenAI.
Qed.

(** During a submission the page is written by the executor of one
    registered tool, run once, or not at all. *)
Lemma submission_page (tools : Registry) (prompt : string) (s : Agent) :
  page (browser (state_of (processUserPromptWithLLM config remote tools prompt s)))
  = page (browser s)
  \/ exists toolName tool args,
       JSMap.get toolName tools = Some tool
       /\ page (browser (state_of (processUserPromptWithLLM config remote tools prompt s)))
          = state_of (execute tool args (page (browser s))).
Proof.
  assert (Hhandler : forall (e : Exn) (s' : Agent),
            state_of ((if enableMockMode config then processUserPromptMock prompt
                       else ret (ResponseMessage (JStr error_message))) s') = s').
  { intros e s'. now destruct (enableMockMode config). }
  unfold processUserPromptWithLLM, try_catch, bind. cbv zeta.
  pose proof (keeps_browser_generateResponse prompt tools s) as Hfirst.
  unfold state_of in Hfirst |- *.
  destruct (generateResponse config remote prompt tools s) as [[decision|e] s1];
    simpl in Hfirst; [|left; rewrite <- Hfirst; f_equal; f_equal; now apply Hhandler].
  destruct decision as [functionName arguments toolCallId | message | message];
    try (left; now rewrite <- Hfirst).
  pose proof (invokeTool_page tools functionName arguments (browser s1)) as Hpage.
  unfold lift_browser, state_of in Hpage |- *.
  destruct (invokeTool_run tools functionName arguments (browser s1))
    as (result & w' & lx & Hinvoke & _).
  rewrite Hinvoke in Hpage |- *. simpl in Hpage. rewrite Hfirst in Hpage.
  set (s2 := {| browser := {| page := w'; executed := executed (browser s1) ++ lx |};
                conversationHistory := conversationHistory s1; fetched := fetched s1 |}).
  assert (Hend : forall s3 : Agent,
            browser s3 = browser s2 ->
            page (browser s3) = page (browser s)
            \/ exists toolName tool args,
                 JSMap.get toolName tools = Some tool
                 /\ page (browser s3) = state_of (execute tool args (page (browser s)))).
  { intros s3 ->. subst s2. simpl. rewrite Hpage.
    destruct (JSMap.get functionName tools) as [tool|] eqn:Hget; [right | now left].
    exists functionName, tool, arguments. now split. }
  destruct (id_truthy toolCallId).
  - pose proof (keeps_browser_handleFunctionResult toolCallId functionName result s2)
      as Hfollow.
    unfold state_of in Hfollow.
    destruct (handleFunctionResult config remote toolCallId functionName result s2)
      as [[finalResponse|e] s3]; simpl in Hfollow |- *.
    + now apply Hend.
    + apply Hend. pose proof (Hhandler e s3) as Hs3. unfold state_of in Hs3.
      now rewrite Hs3.
  - pose proof (stateless_formatFunctionResult functionName result s2) as Hformat.
    unfold state_of in Hformat.
    destruct (formatFunctionResult functionName result s2) as [[response|e] s3];
      simpl in Hformat |- *; subst s3.
    + now apply Hend.
    + apply Hend. pose proof (Hhandler e s2) as Hs2. unfold state_of in Hs2.
      now rewrite Hs2.
Qed.

End Page.

(** ** The chat form *)

Lemma ascii_trim_blank (s : string) : all_space s = true -> ascii_trim s = "".
Proof.
  unfold ascii_trim. induction s as [|c s IH]; simpl; [reflexivity|].
  intros Hall. apply andb_prop in Hall as [Hc Hs]. rewrite Hc. now apply IH.
Qed.

Lemma remove_first_last (ns : list Node) (n : Node) :
  (forall x, x ∈ ns -> is_typingNode x = false) ->
  is_typingNode n = true ->
  remove_first is_typingNode (ns ++ [n]) = ns.
Proof.
  intros Hns Hn. induction ns as [|x ns IH]; simpl.
  - now rewrite Hn.
  - rewrite (Hns x) by (apply elem_of_cons; now left).
    rewrite IH; [reflexivity|]. intros y Hy. apply Hns, elem_of_cons. now right.
Qed.

Lemma keeps_controls_refl (w : World) : keeps_controls w w.
Proof. now split. Qed.

Lemma keeps_controls_trans (w1 w2 w3 : World) :
  keeps_controls w1 w2 -> keeps_controls w2 w3 -> keeps_controls w1 w3.
Proof. intros [Hb1 Hv1] [Hb2 Hv2]. split; [auto | now rewrite Hv2]. Qed.

Lemma keeps_controls_chat (f : Element -> Element) (w : World) :
  keeps_controls w (set_document (alter f "ai-chat-history") w).
Proof. split; simpl; now rewrite lookup_alter_ne by done. Qed.

Lemma gentle_stateless {A : Type} (m : M World A) : stateless m -> gentle m.
Proof. intros Hm w. rewrite Hm. apply keeps_controls_refl. Qed.

Lemma gentle_bind {A B : Type} (m : M World A) (k : A -> M World B) :
  gentle m -> (forall a, gentle (k a)) -> gentle (bind m k).
Proof.
  intros Hm Hk w. unfold bind, state_of. specialize (Hm w). unfold state_of in Hm.
  destruct (m w) as [[a|e] w1]; simpl in *; [|exact Hm].
  apply (keeps_controls_trans w w1); [exact Hm | apply Hk].
Qed.

Lemma gentle_must_update_chat (f : Element -> Element) :
  gentle (must_update "ai-chat-history" f).
Proof.
  intros w. unfold must_update, bind, get_state, modify, throw, state_of.
  destruct (document w !! "ai-chat-history"); simpl;
    [apply keeps_controls_chat | apply keeps_controls_refl].
Qed.

Lemma gentle_when_present_chat (f : Element -> Element) :
  gentle (when_present "ai-chat-history" f).
Proof. intros w. apply keeps_controls_chat. Qed.

Lemma gentle_addMessage `{Platform} (text : JSValue) (sender : string) :
  gentle (addMessage text sender).
Proof.
  unfold addMessage. apply gentle_bind; [|intros shown; apply gentle_must_update_chat].
  apply gentle_stateless, stateless_ToString.
Qed.

(** *** The tools of the page leave the controls alone *)

Lemma keeps_controls_alter (f : Element -> Element) (id : string) (w : World) :
  id <> "ai-user-prompt" \/ (forall el, value (f el) = value el) ->
  keeps_controls w (set_document (alter f id) w).
Proof.
  intros Hf. split; cbn [document set_document].
  - intros Hpresent. now apply alter_present.
  - destruct (decide (id = "ai-user-prompt")) as [-> | Hne];
      [|now rewrite lookup_alter_ne].
    destruct Hf as [Hne | Hf]; [contradiction|].
    rewrite lookup_alter_eq. destruct (document w !! "ai-user-prompt"); [|reflexivity].
    cbn [fmap option_fmap option_map]. now rewrite Hf.
Qed.

Lemma keeps_controls_fmap (g : Element -> Element) (w : World) :
  (forall el, value (g el) = value el) ->
  keeps_controls w (set_document (fmap g) w).
Proof.
  intros Hg. split; cbn [document set_document]; rewrite lookup_fmap.
  - apply fmap_is_Some.
  - destruct (document w !! "ai-user-prompt"); [|reflexivity].
    cbn [fmap option_fmap option_map]. now rewrite Hg.
Qed.

Lemma gentle_log_call (call : AppCall) : gentle (log_call call).
Proof. intros w. now split. Qed.

Lemma gentle_when_present (id : string) (f : Element -> Element) :
  id <> "ai-user-prompt" \/ (forall el, value (f el) = value el) ->
  gentle (when_present id f).
Proof. intros Hf w. now apply keeps_controls_alter. Qed.

Lemma stateless_js_toLowerCase `{Platform} {S : Type} (v : JSValue) :
  stateless (@js_toLowerCase _ S v).
Proof. intros s. now destruct v. Qed.

Ltac gentle_step :=
  match goal with
  | |- gentle (bind _ _) => apply gentle_bind; [|intros ?]
  | |- gentle (ret _) => apply gentle_stateless, stateless_ret
  | |- gentle (throw _) => apply gentle_stateless, stateless_throw
  | |- gentle (get_prop _ _) => apply gentle_stateless, stateless_get_prop
  | |- gentle (ToString _) => apply gentle_stateless, stateless_ToString
  | |- gentle (js_toFixed _ _) => apply gentle_stateless, stateless_js_toFixed
  | |- gentle (js_toLowerCase _) => apply gentle_stateless, stateless_js_toLowerCase
  | |- gentle get_state => apply gentle_stateless; intros ?; reflexivity
  | |- gentle (log_call _) => apply gentle_log_call
  | |- gentle (when_present _ _) =>
      apply gentle_when_present; first [left; done | right; intros ?; reflexivity]
  | |- gentle (match ?x with _ => _ end) => destruct x
  end.

Section ToolsAndControls.

Context `{Platform}.

Lemma gentle_highlightAccount (accountId : string) : gentle (highlightAccount accountId).
Proof.
  unfold highlightAccount. repeat gentle_step.
  intros w. apply keeps_controls_fmap. intros el.
  now destruct (has_class "account-item" el && has_class "highlight" el).
Qed.

Lemma gentle_showTransferModal (from to : string) (amount : JSValue) :
  gentle (showTransferModal from to amount).
Proof. unfold showTransferModal. cbv zeta. repeat gentle_step. Qed.

(** The four tools of the page keep the send button in the page and do
    not write the prompt input, provided the chart renderer does not. *)
Lemma fidelityTools_keep_controls :
  (forall timePeriod, gentle (updatePerformanceChart timePeriod)) ->
  tools_keep_controls (state_of (registerFidelityTools JSMap.empty)).
Proof.
  intros Hchart toolName tool args w Hget.
  assert (Hgentle : gentle (execute tool args)); [|apply Hgentle].
  unfold registerFidelityTools, provideContext, fidelityTools, state_of, bind, modify,
    JSMap.clear, JSMap.get in Hget.
  cbn [snd fold_left JSMap.set name getAccountList getAccountBalance getPortfolioPerformance
         initiateFundTransfer String.eqb Ascii.eqb Bool.eqb assoc] in Hget.
  repeat match type of Hget with
         | context [if ?b then _ else _] => destruct b
         end;
    try discriminate Hget; injection Hget as <-.
  - change (gentle (getAccountList_execute args)).
    unfold getAccountList_execute. repeat gentle_step.
  - change (gentle (getAccountBalance_execute args)).
    unfold getAccountBalance_execute. repeat gentle_step. apply gentle_highlightAccount.
  - change (gentle (getPortfolioPerformance_execute args)).
    unfold getPortfolioPerformance_execute. repeat gentle_step. apply Hchart.
  - change (gentle (initiateFundTransfer_execute args)).
    unfold initiateFundTransfer_execute. cbv zeta. repeat gentle_step.
    apply gentle_showTransferModal.
Qed.

End ToolsAndControls.

Lemma respects_ret {A : Type} (a : A) : respects (@ret ChatClient A a).
Proof. intros c. apply keeps_controls_refl. Qed.

Lemma respects_bind {A B : Type} (m : M ChatClient A) (k : A -> M ChatClient B) :
  respects m -> (forall a, respects (k a)) -> respects (bind m k).
Proof.
  intros Hm Hk c. unfold bind, state_of. specialize (Hm c). unfold state_of in Hm.
  destruct (m c) as [[a|e] c1]; simpl in *; [|exact Hm].
  apply (keeps_controls_trans _ (page_of c1)); [exact Hm | apply Hk].
Qed.

Lemma respects_try_catch {A : Type} (m : M ChatClient A) (h : Exn -> M ChatClient A) :
  respects m -> (forall e, respects (h e)) -> respects (try_catch m h).
Proof.
  intros Hm Hh c. unfold try_catch, state_of. specialize (Hm c). unfold state_of in Hm.
  destruct (m c) as [[a|e] c1]; simpl in *; [exact Hm|].
  apply (keeps_controls_trans _ (page_of c1)); [exact Hm | apply Hh].
Qed.

Lemma respects_lift_world {A : Type} (m : M World A) : gentle m -> respects (lift_world m).
Proof.
  intros Hm c. specialize (Hm (page_of c)).
  unfold lift_world, lift_agent, lift_browser, lift_page, page_of, state_of in *.
  now destruct (m (page (browser (client c)))) as [o w'].
Qed.

Lemma chat_on_chat (f : Element -> Element) (c : ChatClient) :
  document (page_of (on_chat f c)) !! "ai-chat-history"
  = f <$> document (page_of c) !! "ai-chat-history".
Proof. unfold on_chat, with_client, with_browser, page_of. simpl. apply lookup_alter_eq. Qed.

Lemma lift_addMessage `{Platform} (text sender : string) (c : ChatClient) (chat : Element) :
  document (page_of c) !! "ai-chat-history" = Some chat ->
  lift_world (addMessage (JStr text) sender) c
  = (Returned tt,
     on_chat (appendChild {| className := "message " +:+ sender +:+ "-message";
                             textContent := text |}) c).
Proof.
  intros Hchat.
  unfold lift_world, lift_agent, lift_browser, lift_page, addMessage, ToString, must_update,
    bind, get_state, modify, ret, page_of in *.
  cbn [js_ToString]. now rewrite Hchat.
Qed.

Lemma lift_addMessage_absent `{Platform} (text sender : string) (c : ChatClient) :
  document (page_of c) !! "ai-chat-history" = None ->
  lift_world (addMessage (JStr text) sender) c = (Thrown TypeError, c).
Proof.
  intros Hchat.
  unfold lift_world, lift_agent, lift_browser, lift_page, addMessage, ToString, must_update,
    bind, get_state, throw, ret, page_of in *.
  cbn [js_ToString]. rewrite Hchat. now destruct c as [busy [[w x] h f]].
Qed.

Lemma lift_showTypingIndicator (c : ChatClient) (chat : Element) :
  document (page_of c) !! "ai-chat-history" = Some chat ->
  lift_world showTypingIndicator c
  = (Returned "typing-indicator", on_chat (appendChild typingNode) c).
Proof.
  intros Hchat.
  unfold lift_world, lift_agent, lift_browser, lift_page, showTypingIndicator, must_update,
    bind, get_state, modify, ret, page_of in *.
  now rewrite Hchat.
Qed.

Lemma lift_removeTypingIndicator (typingId : string) (c : ChatClient) :
  lift_world (removeTypingIndicator typingId) c
  = (Returned tt, on_chat (set_childNodes (remove_first is_typingNode)) c).
Proof. reflexivity. Qed.

Lemma lift_promptInput_value (c : ChatClient) (input : Element) :
  document (page_of c) !! "ai-user-prompt" = Some input ->
  lift_world promptInput_value c = (Returned (value input), c).
Proof.
  intros Hinput.
  unfold lift_world, lift_agent, lift_browser, lift_page, promptInput_value, bind, get_state,
    ret, page_of in *.
  rewrite Hinput. now destruct c as [busy [[w x] h f]].
Qed.

Lemma lift_must_update_present (id : string) (f : Element -> Element) (c : ChatClient)
    (el : Element) :
  document (page_of c) !! id = Some el ->
  lift_world (must_update id f) c
  = (Returned tt, with_page (set_document (alter f id) (page_of c)) c).
Proof.
  intros Hpresent.
  unfold lift_world, lift_agent, lift_browser, lift_page, must_update, bind, get_state,
    modify, page_of in *.
  now rewrite Hpresent.
Qed.

Section ChatFormProperties.

Context `{Platform}.
Variable config : Config.
Variable remote : Provider.

Lemma respects_submission (tools : Registry) (prompt : string) :
  tools_keep_controls tools ->
  respects (lift_agent (processUserPromptWithLLM config remote tools prompt)).
Proof.
  intros Htools c. unfold lift_agent, page_of, state_of.
  pose proof (submission_page config remote tools prompt (client c)) as Hpage.
  unfold state_of in Hpage.
  destruct (processUserPromptWithLLM config remote tools prompt (client c)) as [o s'].
  simpl in *. destruct Hpage as [-> | (toolName & tool & args & Hget & ->)].
  - apply keeps_controls_refl.
  - now apply (Htools toolName).
Qed.

(** Between the typing indicator and the reply, the controls are only
    touched by what the tools do to them. *)
Lemma respects_exchange (tools : Registry) (prompt : string) :
  tools_keep_controls tools ->
  respects (handleSend_exchange config remote tools prompt).
Proof.
  intros Htools. unfold handleSend_exchange.
  apply respects_try_catch;
    [|intros e; apply respects_lift_world, gentle_addMessage].
  apply respects_bind.
  { apply respects_lift_world. unfold showTypingIndicator.
    apply gentle_bind; [apply gentle_must_update_chat | intros _].
    apply gentle_stateless, stateless_ret. }
  intros typingId. apply respects_bind; [now apply respects_submission | intros response].
  apply respects_bind;
    [apply respects_lift_world, gentle_when_present_chat | intros _].
  destruct (truthy (response_message response));
    [apply respects_lift_world, gentle_addMessage | apply respects_ret].
Qed.

(** X25: a send is ignored, and changes nothing at all, while an earlier
    one is being processed, and when the prompt typed in trims to the empty
    text, as one that is empty or holds ASCII blanks only does. *)
Theorem handleSend_ignored (tools : Registry) (c : ChatClient) :
  isProcessing c = true
  \/ (exists input,
        document (page_of c) !! "ai-user-prompt" = Some input
        /\ (trim (value input) = ""
            \/ (is_ascii (value input) = true /\ all_space (value input) = true))) ->
  handleSend config remote tools c = (Returned tt, c).
Proof.
  intros Hskip. unfold handleSend, bind, get_state. cbv zeta.
  destruct (isProcessing c) eqn:Hbusy; [reflexivity|].
  destruct Hskip as [Hidle | (input & Hinput & Hblank)]; [discriminate|].
  assert (Htrim : trim (value input) = "").
  { destruct Hblank as [Htrim | [Hascii Hall]]; [exact Htrim|].
    rewrite (trim_on_ascii _ Hascii). now apply ascii_trim_blank. }
  unfold lift_world, lift_agent, lift_browser, lift_page, promptInput_value, bind, get_state,
    ret, page_of in *.
  rewrite Hinput, Htrim. destruct c as [busy [[w x] h f]]. reflexivity.
Qed.

(** The [finally] block of [handleSend] runs whatever happened before: it
    clears the busy flag, and then enables the send button, which raises
    when the button is gone. *)
Lemma finally_run {A : Type} (m : M ChatClient A) (c : ChatClient) :
  try_finally m handleSend_finally c
  = match document (page_of (state_of (m c))) !! "ai-send-btn" with
    | Some _ =>
        (result_of (m c),
         {| isProcessing := false;
            client :=
              client (with_page
                        (set_document (alter (set_button false "Send") "ai-send-btn")
                           (page_of (state_of (m c))))
                        (state_of (m c))) |})
    | None => (Thrown TypeError, {| isProcessing := false; client := client (state_of (m c)) |})
    end.
Proof.
  unfold try_finally, handleSend_finally, set_isProcessing, lift_world,
    lift_agent, lift_browser, lift_page, updateSendButton, must_update, bind, get_state,
    modify, throw, page_of, state_of, result_of, with_page, with_client, with_browser.
  destruct (m c) as [o [busy [[w x] h f]]]. simpl.
  destruct (document w !! "ai-send-btn"); reflexivity.
Qed.

(** A send that is taken up, on a page with the chat history: the user's
    message is shown, the prompt input emptied, the button disabled, and
    the exchange runs inside [try] and [finally]. *)
Lemma handleSend_taken (tools : Registry) (c : ChatClient) (input chat button : Element) :
  isProcessing c = false ->
  document (page_of c) !! "ai-user-prompt" = Some input ->
  trim (value input) <> "" ->
  document (page_of c) !! "ai-chat-history" = Some chat ->
  document (page_of c) !! "ai-send-btn" = Some button ->
  handleSend config remote tools c
  = try_finally (handleSend_exchange config remote tools (trim (value input)))
      handleSend_finally
      {| isProcessing := true;
         client := client (with_page (send_started (trim (value input)) (page_of c)) c) |}.
Proof.
  intros Hidle Hinput Hprompt Hchat Hbutton. apply String.eqb_neq in Hprompt.
  unfold handleSend. unfold bind at 1, get_state. rewrite Hidle.
  unfold bind at 1. rewrite (lift_promptInput_value c input Hinput).
  cbv beta iota zeta. rewrite Hprompt.
  unfold bind at 1, set_isProcessing, modify. cbv beta iota.
  unfold bind at 1. erewrite lift_addMessage by exact Hchat. cbv beta iota.
  unfold bind at 1. erewrite lift_must_update_present;
    [|unfold on_chat, with_client, with_browser, page_of in *; cbn [client browser page];
      cbn [document set_document]; rewrite lookup_alter_ne by done; exact Hinput].
  cbv beta iota.
  unfold bind at 1, updateSendButton. erewrite lift_must_update_present;
    [|unfold on_chat, with_page, with_client, with_browser, page_of in *;
      cbn [client browser page]; cbn [document set_document];
      rewrite !lookup_alter_ne by done; exact Hbutton].
  reflexivity.
Qed.

(** X26: every send that is taken up ends with the client idle again.
    When the page has the prompt input, the send button and the chat
    history, the client is idle and the prompt is not blank, then after
    [handleSend], whatever the provider answered and whatever the tool
    did, the busy flag is off.  If no tool of the registry removes the
    send button or writes the prompt input, the button is enabled and
    labelled ["Send"] again, and the prompt input is empty. *)
Theorem handleSend_resets (tools : Registry) (c : ChatClient) (input chat button : Element) :
  isProcessing c = false ->
  document (page_of c) !! "ai-user-prompt" = Some input ->
  trim (value input) <> "" ->
  document (page_of c) !! "ai-chat-history" = Some chat ->
  document (page_of c) !! "ai-send-btn" = Some button ->
  let c' := state_of (handleSend config remote tools c) in
  isProcessing c' = false
  /\ (tools_keep_controls tools ->
      (exists button',
         document (page_of c') !! "ai-send-btn" = Some button'
         /\ disabled button' = false /\ el_textContent button' = "Send")
      /\ value <$> document (page_of c') !! "ai-user-prompt" = Some "").
Proof.
  intros Hidle Hinput Hprompt Hchat Hbutton c'. subst c'.
  rewrite (handleSend_taken tools c input chat button Hidle Hinput Hprompt Hchat Hbutton).
  set (c1 := {| isProcessing := true; client := _ |}).
  rewrite finally_run.
  pose proof (respects_exchange tools (trim (value input))) as Hexchange.
  set (c2 := state_of (handleSend_exchange config remote tools (trim (value input)) c1)) in *.
  split.
  - destruct (document (page_of c2) !! "ai-send-btn"); reflexivity.
  - intros Htools.
    destruct (Hexchange Htools c1) as [Hkeep Hvalue]. fold c2 in Hkeep, Hvalue.
    assert (Hstarted : page_of c1 = send_started (trim (value input)) (page_of c)).
    { reflexivity. }
    rewrite Hstarted in Hkeep, Hvalue. unfold send_started in Hkeep, Hvalue.
    cbn [document set_document] in Hkeep, Hvalue.
    rewrite lookup_alter_eq, lookup_alter_ne, lookup_alter_ne, Hbutton in Hkeep by done.
    rewrite lookup_alter_ne, lookup_alter_eq, lookup_alter_ne, Hinput in Hvalue by done.
    destruct Hkeep as [button1 Hbutton1]; [now eexists|].
    rewrite Hbutton1. unfold state_of, page_of, with_page, with_client, with_browser.
    cbn [client browser page document set_document snd].
    split.
    + rewrite lookup_alter_eq.
      unfold page_of in Hbutton1. rewrite Hbutton1.
      eexists. split; [reflexivity|]. now split.
    + rewrite lookup_alter_ne by done. exact Hvalue.
Qed.

(** X27: on a page without the chat history element the first send that
    is taken up raises while showing the user's message, before the [try]:
    the busy flag is left on, the prompt stays as typed and the button
    enabled, and every later send is ignored. *)
Theorem handleSend_locks (tools : Registry) (c : ChatClient) (input : Element) :
  isProcessing c = false ->
  document (page_of c) !! "ai-user-prompt" = Some input ->
  trim (value input) <> "" ->
  document (page_of c) !! "ai-chat-history" = None ->
  let c' := state_of (handleSend config remote tools c) in
  result_of (handleSend config remote tools c) = Thrown TypeError
  /\ isProcessing c' = true
  /\ client c' = client c
  /\ handleSend config remote tools c' = (Returned tt, c').
Proof.
  intros Hidle Hinput Hprompt Hchat c'.
  assert (Hrun : handleSend config remote tools c
                 = (Thrown TypeError, {| isProcessing := true; client := client c |})).
  { apply String.eqb_neq in Hprompt.
    unfold handleSend. unfold bind at 1, get_state. rewrite Hidle.
    unfold bind at 1. rewrite (lift_promptInput_value c input Hinput).
    cbv beta iota zeta. rewrite Hprompt.
    unfold bind at 1, set_isProcessing, modify. cbv beta iota.
    unfold bind at 1. now rewrite lift_addMessage_absent by exact Hchat. }
  subst c'. rewrite Hrun. unfold result_of, state_of. simpl.
  split; [reflexivity|]. split; [reflexivity|]. split; [reflexivity|].
  unfold handleSend, bind, get_state. reflexivity.
Qed.

End ChatFormProperties.

Lemma childNodes_set_childNodes (f : list Node -> list Node) (el : option Element) :
  childNodes <$> (set_childNodes f <$> el) = f <$> (childNodes <$> el).
Proof. now destruct el. Qed.

Section ChatFormReply.

Context `{Platform}.
Variable config : Config.
Variable remote : Provider.

(** The page of the client when the exchange starts, and its chat history
    while the model is asked. *)
Lemma exchange_started (c : ChatClient) (prompt : string) (chat : Element) :
  document (page_of c) !! "ai-chat-history" = Some chat ->
  let c1 := {| isProcessing := true;
               client := client (with_page (send_started prompt (page_of c)) c) |} in
  document (page_of c1) !! "ai-chat-history"
  = Some (appendChild {| className := "message user-message"; textContent := prompt |} chat)
  /\ on_chat (appendChild typingNode) c1
     = {| isProcessing := true;
          client := client (with_page (awaiting prompt (page_of c)) c) |}.
Proof.
  intros Hchat c1. split; [|reflexivity].
  unfold page_of in *. subst c1. cbn [client with_page with_client with_browser browser page].
  unfold send_started. cbn [document set_document].
  now rewrite !lookup_alter_ne, lookup_alter_eq, Hchat by done.
Qed.

(** X28: a send answered in plain text, from end to end.  On a page with
    the prompt input, the send button and the chat history, under a live
    configuration, when the model answers the prompt with a plain message
    whose content is not empty, the chat gains exactly two entries, the
    user's trimmed prompt and then the model's text; the typing indicator
    shown in between is gone again, no executor ran, and the form is ready
    for the next prompt: idle, the input empty, the button enabled. *)
Theorem handleSend_shows_reply (tools : Registry) (c : ChatClient)
    (input chat button : Element) (m : AssistantMessage) (text : string) :
  isProcessing c = false ->
  document (page_of c) !! "ai-user-prompt" = Some input ->
  trim (value input) <> "" ->
  document (page_of c) !! "ai-chat-history" = Some chat ->
  document (page_of c) !! "ai-send-btn" = Some button ->
  (forall n, n ∈ childNodes chat -> is_typingNode n = false) ->
  live config ->
  remote (length (fetched (client c)))
    (first_request config tools (trim (value input)) (client c))
  = HttpOk (FirstChoice (Some m)) ->
  plain_message m ->
  content m = Some text ->
  text <> "" ->
  let c' := state_of (handleSend config remote tools c) in
  result_of (handleSend config remote tools c) = Returned tt
  /\ chat_nodes c'
     = Some (childNodes chat
             ++ [ {| className := "message user-message";
                     textContent := trim (value input) |};
                  {| className := "message agent-message"; textContent := text |} ])
  /\ executed (browser (client c')) = executed (browser (client c))
  /\ isProcessing c' = false
  /\ document (page_of c') !! "ai-user-prompt" = Some (set_value "" input)
  /\ document (page_of c') !! "ai-send-btn" = Some (set_button false "Send" button).
Proof.
  intros Hidle Hinput Hprompt Hchat Hbutton Hnodes Hlive Hreply Hplain Hcontent Htext c'.
  subst c'.
  rewrite (handleSend_taken config remote tools c input chat button
             Hidle Hinput Hprompt Hchat Hbutton).
  set (prompt := trim (value input)) in *.
  set (user := {| className := "message user-message"; textContent := prompt |}).
  set (agent := {| className := "message agent-message"; textContent := text |}).
  destruct (exchange_started c prompt chat Hchat) as [Hchat1 Hc2].
  set (c1 := {| isProcessing := true; client := _ |}) in *.
  set (c2 := on_chat (appendChild typingNode) c1) in *.
  set (c4 := on_chat (appendChild agent)
               (on_chat (set_childNodes (remove_first is_typingNode))
                  (with_client
                     (advanced [UserMessage prompt; AssistantReply (Some m)]
                        [first_request config tools prompt (client c)] (client c2)) c2))).
  assert (Hsubmission :
            processUserPromptWithLLM config remote tools prompt (client c2)
            = (Returned (ResponseMessage (JStr text)),
               advanced [UserMessage prompt; AssistantReply (Some m)]
                 [first_request config tools prompt (client c)] (client c2))).
  { unfold processUserPromptWithLLM, try_catch. cbv zeta. unfold bind at 1.
    rewrite (generateResponse_first config remote prompt tools (client c2) Hlive).
    change (remote (length (fetched (client c2)))
              (first_request config tools prompt (client c2)))
      with (remote (length (fetched (client c)))
              (first_request config tools prompt (client c))).
    rewrite Hreply, (processOpenAIResponse_plain m _ Hplain), advanced_advanced, Hcontent.
    reflexivity. }
  assert (Hbody : handleSend_exchange config remote tools prompt c1 = (Returned tt, c4)).
  { unfold handleSend_exchange, try_catch.
    unfold bind at 1. rewrite (lift_showTypingIndicator c1 _ Hchat1). fold c2.
    unfold bind at 1, lift_agent at 1. rewrite Hsubmission.
    unfold bind at 1. rewrite lift_removeTypingIndicator.
    apply String.eqb_neq in Htext.
    cbn [response_message truthy]. rewrite Htext. cbn [negb].
    erewrite lift_addMessage; [reflexivity|]. rewrite chat_on_chat.
    unfold with_client, page_of. cbn [client browser advanced].
    fold (page_of c2). subst c2. now rewrite chat_on_chat, Hchat1. }
  rewrite finally_run, Hbody.
  assert (Hdoc4 : document (page_of c4)
                  = alter (appendChild agent) "ai-chat-history"
                      (alter (set_childNodes (remove_first is_typingNode)) "ai-chat-history"
                         (document (awaiting prompt (page_of c))))).
  { reflexivity. }
  unfold state_of, result_of. cbn [fst snd]. rewrite Hdoc4.
  unfold awaiting, send_started. cbn [document set_document].
  repeat first [ rewrite lookup_alter_eq | rewrite lookup_alter_ne by done ].
  rewrite Hbutton. cbn [fmap option_fmap option_map].
  split; [reflexivity|].
  unfold chat_nodes, page_of, with_page, with_client, with_browser.
  cbn [fst snd client browser page document set_document executed isProcessing].
  change (page (browser (client c4))) with (page_of c4). rewrite Hdoc4.
  unfold awaiting, send_started. cbn [document set_document].
  split; [|split; [reflexivity|split; [reflexivity|split]]].
  - repeat first [ rewrite lookup_alter_eq | rewrite lookup_alter_ne by done ].
    rewrite Hchat. cbn [fmap option_fmap option_map].
    cbn [childNodes appendChild set_childNodes].
    fold user. f_equal.
    rewrite (remove_first_last (childNodes chat ++ [user]) typingNode).
    + now rewrite <- app_assoc.
    + intros n Hn. apply elem_of_app in Hn as [Hn|Hn]; [now apply Hnodes|].
      apply list_elem_of_singleton in Hn. now subst n.
    + reflexivity.
  - repeat first [ rewrite lookup_alter_eq | rewrite lookup_alter_ne by done ].
    now rewrite Hinput.
  - repeat first [ rewrite lookup_alter_eq | rewrite lookup_alter_ne by done ].
    now rewrite Hbutton.
Qed.

(** X29: a send answered by tool calls shows no reply.  When the model
    answers the prompt with a tool call (with a call id and arguments that
    parse) and the follow-up with a tool call again, [handleSend] takes the
    typing indicator away and adds nothing to the chat: the chat history is
    what the one tool that ran left of it, and if that tool left it alone
    the chat shows the user's message and no answer behind it, neither
    text nor error.  The client is idle again. *)
Theorem handleSend_tool_calls_show_nothing (tools : Registry) (c : ChatClient)
    (input chat button : Element) (m m2 : AssistantMessage) (toolCall call2 : ToolCallRequest)
    (rest rest2 : list ToolCallRequest) (args args2 result : JSValue) (b' : Browser) :
  isProcessing c = false ->
  document (page_of c) !! "ai-user-prompt" = Some input ->
  trim (value input) <> "" ->
  document (page_of c) !! "ai-chat-history" = Some chat ->
  document (page_of c) !! "ai-send-btn" = Some button ->
  live config ->
  let prompt := trim (value input) in
  let user := {| className := "message user-message"; textContent := prompt |} in
  remote (length (fetched (client c))) (first_request config tools prompt (client c))
  = HttpOk (FirstChoice (Some m)) ->
  tool_calls m = Some (toolCall :: rest) ->
  JSON_parse (function_arguments toolCall) = Some args ->
  id_truthy (call_id toolCall) = true ->
  invokeTool tools (function_name toolCall) args
    {| page := awaiting prompt (page_of c); executed := executed (browser (client c)) |}
  = (Returned result, b') ->
  remote (S (length (fetched (client c))))
    (follow_up_request config
       (conversationHistory (client c)
        ++ [ UserMessage prompt; AssistantReply (Some m);
             ToolMessage (JSON_stringify result) (call_id toolCall) ]))
  = HttpOk (FirstChoice (Some m2)) ->
  tool_calls m2 = Some (call2 :: rest2) ->
  JSON_parse (function_arguments call2) = Some args2 ->
  let c' := state_of (handleSend config remote tools c) in
  chat_nodes c'
  = remove_first is_typingNode <$> (childNodes <$> document (page b') !! "ai-chat-history")
  /\ (document (page b') !! "ai-chat-history"
      = Some (appendChild typingNode (appendChild user chat)) ->
      (forall n, n ∈ childNodes chat -> is_typingNode n = false) ->
      chat_nodes c' = Some (childNodes chat ++ [user]))
  /\ isProcessing c' = false
  /\ executed (browser (client c')) = executed b'
  /\ length (fetched (client c')) = S (S (length (fetched (client c)))).
Proof.
  intros Hidle Hinput Hprompt Hchat Hbutton Hlive prompt user Hreply Hcalls Hparse Hid
    Hinvoke Hreply2 Hcalls2 Hparse2 c'.
  subst c'.
  rewrite (handleSend_taken config remote tools c input chat button
             Hidle Hinput Hprompt Hchat Hbutton).
  fold prompt.
  destruct (exchange_started c prompt chat Hchat) as [Hchat1 Hc2].
  set (c1 := {| isProcessing := true; client := _ |}) in *.
  set (c2 := on_chat (appendChild typingNode) c1) in *.
  set (s3 := with_browser b'
               (advanced [ UserMessage prompt; AssistantReply (Some m);
                           ToolMessage (JSON_stringify result) (call_id toolCall);
                           AssistantReply (Some m2) ]
                  [ first_request config tools prompt (client c);
                    follow_up_request config
                      (conversationHistory (client c)
                       ++ [ UserMessage prompt; AssistantReply (Some m);
                            ToolMessage (JSON_stringify result) (call_id toolCall) ]) ]
                  (client c2))).
  assert (Hsubmission :
            processUserPromptWithLLM config remote tools prompt (client c2)
            = (Returned (ResponseLLM
                           (FunctionCall (function_name call2) args2 (call_id call2))), s3)).
  { apply (submission_second_call config remote tools prompt (client c2) m m2 toolCall call2
             rest rest2 args args2 result b' Hlive Hreply Hcalls Hparse Hid Hinvoke Hreply2
             Hcalls2 Hparse2). }
  set (c3 := on_chat (set_childNodes (remove_first is_typingNode)) (with_client s3 c2)).
  assert (Hbody : handleSend_exchange config remote tools prompt c1 = (Returned tt, c3)).
  { unfold handleSend_exchange, try_catch.
    unfold bind at 1. rewrite (lift_showTypingIndicator c1 _ Hchat1). fold c2.
    unfold bind at 1, lift_agent at 1. rewrite Hsubmission.
    unfold bind at 1. rewrite lift_removeTypingIndicator. reflexivity. }
  rewrite finally_run, Hbody.
  assert (Hdoc3 : document (page_of c3)
                  = alter (set_childNodes (remove_first is_typingNode)) "ai-chat-history"
                      (document (page b'))).
  { reflexivity. }
  assert (Hnodes :
            chat_nodes
              (state_of
                 match document (page_of (state_of (Returned tt, c3))) !! "ai-send-btn" with
                 | Some _ =>
                     (result_of (Returned tt, c3),
                      {| isProcessing := false;
                         client :=
                           client (with_page
                                     (set_document
                                        (alter (set_button false "Send") "ai-send-btn")
                                        (page_of (state_of (Returned tt, c3))))
                                     (state_of (Returned tt, c3))) |})
                 | None =>
                     (Thrown TypeError,
                      {| isProcessing := false; client := client (state_of (Returned tt, c3)) |})
                 end)
            = remove_first is_typingNode
              <$> (childNodes <$> document (page b') !! "ai-chat-history")).
  { unfold state_of, result_of. cbn [fst snd].
    destruct (document (page_of c3) !! "ai-send-btn");
      unfold chat_nodes, page_of, with_page, with_client, with_browser;
      cbn [client browser page document set_document snd];
      fold (page_of c3); rewrite Hdoc3;
      repeat first [ rewrite lookup_alter_eq | rewrite lookup_alter_ne by done ];
      apply childNodes_set_childNodes. }
  split; [exact Hnodes|]. split; [|split; [|split]].
  - intros Hleft Htyping. rewrite Hnodes, Hleft. cbn [fmap option_fmap option_map].
    cbn [childNodes appendChild]. f_equal.
    apply remove_first_last; [|reflexivity].
    intros n Hn. apply elem_of_app in Hn as [Hn|Hn]; [now apply Htyping|].
    apply list_elem_of_singleton in Hn. now subst n.
  - unfold state_of. cbn [snd]. now destruct (document (page_of c3) !! "ai-send-btn").
  - unfold state_of. cbn [snd]. now destruct (document (page_of c3) !! "ai-send-btn").
  - assert (Hfetched : length (fetched (client c3)) = S (S (length (fetched (client c))))).
    { subst c3 s3 c2 c1. cbn [client on_chat with_page with_client with_browser advanced fetched].
      rewrite length_app. cbn [length]. lia. }
    unfold state_of, result_of. cbn [fst snd].
    destruct (document (page_of c3) !! "ai-send-btn");
      cbn [snd client with_page with_client with_browser fetched]; exact Hfetched.
Qed.

End ChatFormReply.

(** ** The properties above on the sample page *)

Lemma submission_transport_failure_witness :
  result_of (@processUserPromptWithLLM samplePlatform defaultConfig networkDown
               sampleRegistry "Hi" sampleAgent)
  = Returned (ResponseMessage (JStr gateway_error_text)).
Proof.
  rewrite (@submission_transport_failure samplePlatform defaultConfig networkDown
             sampleRegistry "Hi" sampleAgent defaultConfig_live I).
  reflexivity.
Defined.

Lemma submission_text_reply_witness :
  result_of (@processUserPromptWithLLM samplePlatform defaultConfig plainReply
               sampleRegistry "Hi" sampleAgent)
  = Returned (ResponseMessage (JStr "Hello.")).
Proof.
  rewrite (@submission_text_reply samplePlatform defaultConfig plainReply
             sampleRegistry "Hi" sampleAgent helloMessage defaultConfig_live eq_refl
             (or_introl eq_refl)).
  reflexivity.
Defined.

Lemma submission_unparsable_arguments_witness :
  result_of (@processUserPromptWithLLM samplePlatform defaultConfig garbledReply
               sampleRegistry "Hi" sampleAgent)
  = Returned (ResponseMessage (JStr parse_error_text)).
Proof.
  rewrite (@submission_unparsable_arguments samplePlatform defaultConfig garbledReply
             sampleRegistry "Hi" sampleAgent garbledMessage garbledCall []
             defaultConfig_live eq_refl eq_refl eq_refl).
  reflexivity.
Defined.

Lemma submission_tool_round_trip_witness :
  result_of (@processUserPromptWithLLM samplePlatform defaultConfig callThenText
               sampleRegistry "Hi" sampleAgent)
  = Returned (ResponseLLM (Text (Some "Hello."))).
Proof.
  destruct (@submission_tool_round_trip samplePlatform defaultConfig callThenText
              sampleRegistry "Hi" sampleAgent listMessage helloMessage listCall []
              (JObj []) sampleListResult sampleBrowserAfterList
              defaultConfig_live eq_refl eq_refl eq_refl eq_refl eq_refl eq_refl
              (or_introl eq_refl)) as [Hrun _].
  rewrite Hrun. reflexivity.
Defined.

Lemma submission_follow_up_failure_witness :
  result_of (@processUserPromptWithLLM samplePlatform defaultConfig callThenDown
               sampleRegistry "Hi" sampleAgent)
  = Returned (ResponseMessage (JStr error_message)).
Proof.
  destruct (@submission_follow_up_failure samplePlatform defaultConfig callThenDown
              sampleRegistry "Hi" sampleAgent listMessage listCall []
              (JObj []) sampleListResult sampleBrowserAfterList
              defaultConfig_live eq_refl eq_refl eq_refl eq_refl eq_refl I) as [Hrun _].
  rewrite Hrun. reflexivity.
Defined.

Lemma submission_without_call_id_witness :
  result_of (@processUserPromptWithLLM samplePlatform defaultConfig legacyReply
               sampleRegistry "Hi" sampleAgent)
  = Returned (ResponseMessage (JStr
      "Here are your accounts: Brokerage Account, Roth IRA, 401(k) Rollover, Cash Management."))
  /\ length (fetched (state_of (@processUserPromptWithLLM samplePlatform defaultConfig
                                  legacyReply sampleRegistry "Hi" sampleAgent))) = 1%nat.
Proof.
  destruct (@submission_without_call_id samplePlatform defaultConfig legacyReply
              sampleRegistry "Hi" sampleAgent legacyMessage legacyCall []
              (JObj []) sampleListResult sampleBrowserAfterList
              defaultConfig_live eq_refl eq_refl eq_refl eq_refl eq_refl)
    as [Hstate Hresult].
  rewrite Hresult, Hstate. split; reflexivity.
Defined.

Lemma submission_mock_mode_witness :
  state_of (@processUserPromptWithLLM samplePlatform mockConfig networkDown
              sampleRegistry "Hi" sampleAgent) = sampleAgent.
Proof.
  rewrite (@submission_mock_mode samplePlatform mockConfig networkDown sampleRegistry
             "Hi" sampleAgent eq_refl).
  reflexivity.
Defined.

Lemma submission_missing_key_witness :
  @processUserPromptWithLLM samplePlatform noKeyConfig plainReply sampleRegistry "Hi"
    sampleAgent
  = (Returned (ResponseMessage (JStr gateway_error_text)), sampleAgent).
Proof.
  exact (@submission_missing_key samplePlatform noKeyConfig plainReply sampleRegistry
           "Hi" sampleAgent eq_refl eq_refl).
Defined.

Lemma submission_unsupported_provider_witness :
  conversationHistory
    (state_of (@processUserPromptWithLLM samplePlatform anthropicConfig plainReply
                 sampleRegistry "Hi" sampleAgent))
  = [UserMessage "Hi"]
  /\ fetched (state_of (@processUserPromptWithLLM samplePlatform anthropicConfig plainReply
                          sampleRegistry "Hi" sampleAgent)) = [].
Proof.
  rewrite (@submission_unsupported_provider samplePlatform anthropicConfig plainReply
             sampleRegistry "Hi" sampleAgent);
    [split; reflexivity | reflexivity | discriminate | discriminate].
Defined.

Lemma provideContext_registration_order_witness :
  map fn_name (formatToolsForOpenAI sampleRegistry)
  = ["getAccountList"; "getAccountBalance"; "getPortfolioPerformance"; "initiateFundTransfer"].
Proof.
  destruct (provideContext_registration_order JSMap.empty (@fidelityTools samplePlatform))
    as (_ & Hnames & _).
  - apply (bool_decide_unpack _). vm_compute. exact I.
  - exact Hnames.
Defined.

Lemma initiateFundTransfer_stages_resolved_witness :
  appCalls (state_of (@initiateFundTransfer_execute samplePlatform
                        (JObj (transferArgs (JNum 250))) sampleWorld))
  = [CallShowTransferModal "acc_brokerage_123" "acc_roth_456" (JNum 250)].
Proof.
  destruct (@initiateFundTransfer_stages_resolved samplePlatform (transferArgs (JNum 250))
              "Brokerage" "roth" 250 sampleWorld sampleBrokerage sampleRoth
              eq_refl eq_refl eq_refl eq_refl eq_refl) as [_ Hcalls].
  exact Hcalls.
Defined.

Lemma initiateFundTransfer_bad_amount_witness :
  result_of (invokeTool sampleRegistry "initiateFundTransfer"
               (JObj (transferArgs (JStr "250"))) sampleBrowser)
  = Returned internal_error
  /\ document (page (state_of (invokeTool sampleRegistry "initiateFundTransfer"
                                 (JObj (transferArgs (JStr "250"))) sampleBrowser)))
       !! "transfer-module"
     = document sampleWorld !! "transfer-module"
  /\ value <$> document (page (state_of (invokeTool sampleRegistry "initiateFundTransfer"
                                           (JObj (transferArgs (JStr "250"))) sampleBrowser)))
                 !! "fromAccount"
     = Some "Brokerage Account".
Proof.
  destruct (@initiateFundTransfer_bad_amount samplePlatform sampleRegistry
              (transferArgs (JStr "250")) "Brokerage" "roth" sampleBrowser
              sampleBrokerage sampleRoth blankElement)
    as (Hres & Hprinted & _).
  - reflexivity.
  - reflexivity.
  - reflexivity.
  - intros n. discriminate.
  - reflexivity.
  - reflexivity.
  - reflexivity.
  - destruct (Hprinted "250" eq_refl) as (Hfrom & _ & _ & Hmodule & _).
    split; [exact Hres|]. split; [exact Hmodule|]. now rewrite Hfrom.
Defined.

Lemma getAccountBalance_empty_identifier_witness :
  result_of (@getAccountBalance_execute samplePlatform
               (JObj [("accountIdentifier", JStr "")]) sampleWorld)
  = Returned (JObj [ ("success", JBool true); ("accountName", JStr "Brokerage Account");
                     ("balance", JNum 15430.25) ]).
Proof.
  destruct (@getAccountBalance_empty_identifier samplePlatform
              [("accountIdentifier", JStr "")] sampleWorld) as [Hfirst _].
  apply (Hfirst sampleBrokerage (tl (Object_values initialAccountData))); reflexivity.
Defined.

Lemma getAccountBalance_highlights_witness :
  exists el',
    document (state_of (@getAccountBalance_execute samplePlatform
                          (JObj [("accountIdentifier", JStr "roth")]) sampleWorld))
      !! "account-acc_roth_456" = Some el'
    /\ has_class "highlight" el' = true.
Proof.
  pose proof (@getAccountBalance_highlights samplePlatform
                [("accountIdentifier", JStr "roth")] "roth" sampleWorld sampleRoth
                eq_refl eq_refl) as Hlit.
  cbv zeta in Hlit. destruct Hlit as (_ & Hlit & _).
  apply (Hlit accountItem). reflexivity.
Defined.

Lemma transfer_click_closes_form_witness :
  result_of (@submit_transfer_click sampleWorld) = Returned tt
  /\ style_display <$> document (state_of (@submit_transfer_click sampleWorld))
                         !! "transfer-module" = Some "none".
Proof.
  pose proof (transfer_click_closes_form sampleWorld blankElement
                (set_display "none" blankElement) blankElement eq_refl eq_refl eq_refl)
    as Hclick.
  cbv zeta in Hclick. destruct Hclick as ((Hres & _ & Hmodule & _) & _).
  split; [exact Hres | now rewrite Hmodule].
Defined.

Lemma transfer_click_without_chat_witness :
  result_of (submit_transfer_click bareWorld) = Thrown TypeError.
Proof.
  destruct (transfer_click_without_chat bareWorld eq_refl) as (Hres & _).
  exact Hres.
Defined.

Lemma show_then_hide_witness :
  style_display
    <$> document (state_of (hideTransferModal
                              (state_of (@showTransferModal samplePlatform
                                           "acc_brokerage_123" "acc_roth_456" (JNum 250)
                                           sampleWorld))))
          !! "transfer-module"
  = Some "none".
Proof.
  pose proof (@show_then_hide samplePlatform "acc_brokerage_123" "acc_roth_456" 250
                sampleWorld (set_display "none" blankElement) blankElement
                eq_refl eq_refl) as Hround.
  cbv zeta in Hround. destruct Hround as (_ & Hmodule & _).
  now rewrite Hmodule.
Defined.

Lemma formatFunctionResult_failure_witness :
  @formatFunctionResult samplePlatform unit "getAccountBalance"
    (JObj [("success", JBool false); ("message", JStr "Account 'x' not found.")]) tt
  = (Returned (ResponseMessage (JStr "Error: Account 'x' not found.")), tt).
Proof.
  exact (@formatFunctionResult_failure samplePlatform unit "getAccountBalance"
           [("success", JBool false); ("message", JStr "Account 'x' not found.")] tt
           eq_refl).
Defined.

Lemma formatFunctionResult_balance_witness :
  @formatFunctionResult samplePlatform unit "getAccountBalance"
    (JObj [ ("success", JBool true); ("accountName", JStr "Roth IRA");
            ("balance", JNum 89500.75) ]) tt
  = (Returned (ResponseMessage (JStr "The balance for Roth IRA is $89500.75.")), tt).
Proof.
  exact (@formatFunctionResult_balance samplePlatform unit
           [("accountIdentifier", JStr "roth")] "roth" sampleWorld tt eq_refl
           (JObj [ ("success", JBool true); ("accountName", JStr "Roth IRA");
                   ("balance", JNum 89500.75) ]) eq_refl).
Defined.

Lemma formatFunctionResult_account_list_witness :
  @formatFunctionResult samplePlatform unit "getAccountList" sampleListResult tt
  = (Returned (ResponseMessage (JStr
       "Here are your accounts: Brokerage Account, Roth IRA, 401(k) Rollover, Cash Management.")),
     tt).
Proof.
  destruct (@formatFunctionResult_account_list samplePlatform unit (JObj [])
              sampleListResult sampleWorld tt eq_refl) as [Hformat _].
  exact Hformat.
Defined.

Lemma formatFunctionResult_no_result_witness :
  @formatFunctionResult samplePlatform unit "getAccountList" JUndefined tt
  = (Thrown TypeError, tt).
Proof.
  exact (@formatFunctionResult_no_result samplePlatform unit "getAccountList" JUndefined tt
           (or_introl eq_refl)).
Defined.

Lemma handleSend_ignored_witness :
  @handleSend samplePlatform defaultConfig plainReply sampleRegistry
    (chat_on (typed "   " sampleWorld))
  = (Returned tt, chat_on (typed "   " sampleWorld)).
Proof.
  apply (@handleSend_ignored samplePlatform). right.
  exists (set_value "   " blankElement). split; [reflexivity|]. now left.
Defined.

(** On the sample page, whose four tools leave the controls alone, against
    a provider that asks for the account list. *)
Lemma handleSend_resets_witness :
  isProcessing (state_of (@handleSend samplePlatform defaultConfig callThenText
                            sampleRegistry sampleChat)) = false
  /\ value <$> document (page_of (state_of (@handleSend samplePlatform defaultConfig
                                              callThenText sampleRegistry sampleChat)))
                 !! "ai-user-prompt" = Some "".
Proof.
  pose proof (@handleSend_resets samplePlatform defaultConfig callThenText sampleRegistry
                sampleChat (set_value "  Hi there " blankElement) blankElement sendButton
                eq_refl eq_refl) as Hreset.
  cbv zeta in Hreset. destruct Hreset as (Hidle & Hcontrols).
  - intros Hblank. vm_compute in Hblank. discriminate Hblank.
  - reflexivity.
  - reflexivity.
  - split; [exact Hidle|]. apply Hcontrols.
    apply (@fidelityTools_keep_controls samplePlatform).
    intros timePeriod w. apply keeps_controls_refl.
Defined.

Lemma handleSend_locks_witness :
  result_of (@handleSend samplePlatform defaultConfig plainReply sampleRegistry bareChat)
  = Thrown TypeError
  /\ isProcessing (state_of (@handleSend samplePlatform defaultConfig plainReply
                               sampleRegistry bareChat)) = true.
Proof.
  pose proof (@handleSend_locks samplePlatform defaultConfig plainReply sampleRegistry
                bareChat (set_value "Hi" blankElement) eq_refl eq_refl) as Hlock.
  cbv zeta in Hlock. destruct Hlock as (Hres & Hbusy & _).
  - intros Hblank. vm_compute in Hblank. discriminate Hblank.
  - reflexivity.
  - split; [exact Hres | exact Hbusy].
Defined.

Lemma handleSend_shows_reply_witness :
  chat_nodes (state_of (@handleSend samplePlatform defaultConfig plainReply sampleRegistry
                          sampleChat))
  = Some [ {| className := "message user-message"; textContent := "Hi there" |};
           {| className := "message agent-message"; textContent := "Hello." |} ].
Proof.
  pose proof (@handleSend_shows_reply samplePlatform defaultConfig plainReply sampleRegistry
                sampleChat (set_value "  Hi there " blankElement) blankElement sendButton
                helloMessage "Hello." eq_refl eq_refl) as Hshown.
  cbv zeta in Hshown. destruct Hshown as (_ & Hnodes & _).
  - intros Hblank. vm_compute in Hblank. discriminate Hblank.
  - reflexivity.
  - reflexivity.
  - intros n Hn. now apply elem_of_nil in Hn.
  - exact defaultConfig_live.
  - reflexivity.
  - now left.
  - reflexivity.
  - discriminate.
  - exact Hnodes.
Defined.

Lemma handleSend_tool_calls_show_nothing_witness :
  chat_nodes (state_of (@handleSend samplePlatform defaultConfig alwaysToolCall
                          sampleRegistry sampleChat))
  = Some [ {| className := "message user-message"; textContent := "Hi there" |} ].
Proof.
  pose proof (@handleSend_tool_calls_show_nothing samplePlatform defaultConfig alwaysToolCall
                sampleRegistry sampleChat (set_value "  Hi there " blankElement)
                blankElement sendButton
                {| content := None; tool_calls := Some [listCall] |}
                {| content := None; tool_calls := Some [balanceCall] |}
                listCall balanceCall [] [] (JObj []) (JObj []) sampleListResult
                {| page := awaiting "Hi there" (typed "  Hi there " sampleWorld);
                   executed := [("getAccountList", JObj [])] |}
                eq_refl eq_refl) as Hnothing.
  cbv zeta in Hnothing. destruct Hnothing as (_ & Hleft & _).
  - intros Hblank. vm_compute in Hblank. discriminate Hblank.
  - reflexivity.
  - reflexivity.
  - exact defaultConfig_live.
  - reflexivity.
  - reflexivity.
  - reflexivity.
  - reflexivity.
  - reflexivity.
  - reflexivity.
  - reflexivity.
  - reflexivity.
  - apply Hleft; [reflexivity|]. intros n Hn. now apply elem_of_nil in Hn.
Defined.
